(** * CareVerify: the claim trust-scoring pipeline

    A shallow embedding of the scoring core of the repository:
    - [ai/models/ensemble_engine.py]      (modules [Ensemble], [Binary64]),
    - [ai/pipeline/feature_engineering.py] (modules [Features], [FeatureBuilder]),
    - [app/services/extraction_service.py] (module [Extraction]),
    - [app/services/revalidation_service.py] (module [Revalidation]).

    Python [int]s are modelled by [Z]; [str] by [string]; lists by [list].

    Python [float]s appear twice.  Module [Ensemble] reads them as exact
    rationals ([Q], compared with [==]): [round(x, n)] is round-half-to-even
    on the exact value, [np.clip] is [minimum (maximum x lo) hi], [np.var]
    is the population variance.  That reading carries the order and range
    properties of the scores.  Module [Binary64] embeds the same functions
    on IEEE 754 doubles, with the operations of the machine, the
    single-precision feature vector and the decimal rounding of the
    interpreter; it carries every property that depends on the last bit of
    a score: the two decimals of the trust score, the three of the
    confidence, and the comparisons and sums of the fraud rule. *)

From Stdlib Require Import ZArith QArith Qround Qminmax Qabs Qpower.
From Stdlib Require Import String Ascii List Bool Lia Lqa.
From Stdlib Require Import DecimalString.
From Stdlib Require Import Sorted Permutation OrderedTypeEx.
From Stdlib Require Import Floats.
Import ListNotations.

Local Open Scope Q_scope.

Set Warnings "-inexact-float".

(** ** Numeric primitives shared by the modules *)

Module Num.

(** [np.clip(x, lo, hi)]. *)
Definition np_clip (x lo hi : Q) : Q := Qmin (Qmax x lo) hi.

(** Nearest integer, ties to the even neighbour. *)
Definition round_half_even (x : Q) : Z :=
  let f := Qfloor x in
  match Qcompare (x - inject_Z f) (1 # 2) with
  | Lt => f
  | Gt => (f + 1)%Z
  | Eq => if Z.even f then f else (f + 1)%Z
  end.

Definition pow10 (ndigits : nat) : Z := (10 ^ Z.of_nat ndigits)%Z.

(** [round(x, ndigits)] of Python, on the exact value. *)
Definition py_round (x : Q) (ndigits : nat) : Q :=
  inject_Z (round_half_even (x * inject_Z (pow10 ndigits)))
  / inject_Z (pow10 ndigits).

(** [sum(xs)]. *)
Definition qsum (xs : list Q) : Q := fold_left Qplus xs 0.

(** [np.mean(xs)] and [np.var(xs)] (population variance, [ddof = 0]). *)
Definition np_mean (xs : list Q) : Q :=
  qsum xs / inject_Z (Z.of_nat (length xs)).

Definition np_var (xs : list Q) : Q :=
  let m := np_mean xs in
  np_mean (map (fun x => (x - m) * (x - m)) xs).

End Num.

Import Num.

(** ** [ai/models/ensemble_engine.py] *)

Module Ensemble.

Local Open Scope string_scope.
Local Open Scope Q_scope.

(** [x > y] and [x >= y] on floats. *)
Definition Qgt_bool (x y : Q) : bool := negb (Qle_bool x y).
Definition Qge_bool (x y : Q) : bool := Qle_bool y x.

(** [@dataclass ClaimFeatures]: the twenty fields, in declaration order. *)
Record ClaimFeatures := mkClaimFeatures {
  claimed_amount : Q;
  patient_age : Z;
  length_of_stay : Z;
  procedure_count : Z;
  diagnosis_count : Z;
  org_trust_score : Q;
  org_historical_fraud_rate : Q;
  org_claim_volume_30d : Z;
  amount_vs_org_avg : Q;
  amount_vs_procedure_avg : Q;
  is_weekend_admission : Z;
  is_holiday : Z;
  has_high_value_procedures : Z;
  duplicate_claim_flag : Z;
  rapid_readmission : Z;
  unusual_provider_combo : Z;
  nlp_inconsistency_score : Q;
  nlp_urgency_score : Q;
  ocr_completeness_score : Q;
  missing_required_fields : Z
}.

(** The dataclass defaults. *)
Definition default_features : ClaimFeatures :=
  mkClaimFeatures 0 0 0 0 0 50 0.05 0 1 1 0 0 0 0 0 0 0 0 1 0.

(** The part of [EnsembleResult] that is computed from the model scores
    (risk factors, explanation text, feature importances and the clock
    readings are not modelled). *)
Record EnsembleResult := mkEnsembleResult {
  trust_score : Q;
  fraud_probability : Q;
  anomaly_score : Q;
  approval_likelihood : Q;
  xgboost_fraud_score : Q;
  rf_approval_score : Q;
  isolation_anomaly_score : Q;
  autoencoder_anomaly_score : Q;
  nlp_sentiment_score : Q;
  nlp_entities : list (string * list string);
  recommendation : string;
  confidence : Q
}.

(** A Python [dict] with string keys, in insertion order. *)
Fixpoint dict_get {V : Type} (d : list (string * V)) (k : string) : option V :=
  match d with
  | [] => None
  | (k', v) :: d' => if String.eqb k' k then Some v else dict_get d' k
  end.

(** [EnsembleIntelligenceEngine.WEIGHTS]. *)
Definition WEIGHTS : list (string * Q) :=
  [ ("xgboost", 0.30);
    ("rf", 0.25);
    ("isolation", 0.20);
    ("autoencoder", 0.15);
    ("nlp", 0.10) ].

(** [self.WEIGHTS[k]]; every key the engine uses is present (see
    [WEIGHTS_keys_present]), so the default is never reached. *)
Definition WEIGHTS_at (k : string) : Q :=
  match dict_get WEIGHTS k with Some w => w | None => 0 end.

(** A learned model: [None] as a result stands for an inference exception. *)
Definition Model := list Q -> option Q.

(** The engine after [_load_models]: each learned model is either loaded
    or [None].  [isolation_model] stands for [decision_function] followed
    by the logistic normalisation [1 / (1 + exp (5 raw))]; [autoencoder]
    for loading the Keras model and [min(1.0, mse)]; [nlp_pipeline] returns
    the [(label, text)] pairs of [doc.ents]. *)
Record Engine := mkEngine {
  xgb_model : option Model;
  rf_model : option Model;
  isolation_model : option Model;
  autoencoder : option Model;
  nlp_pipeline : option (string -> option (list (string * string)))
}.

(** [_extract_feature_vector]: the single row of the [1 x 20] array, on
    the exact reading of its entries.  The cast to single precision is in
    [Binary64.extract_feature_vector]. *)
Definition extract_feature_vector (features : ClaimFeatures) : list Q :=
  [ claimed_amount features;
    inject_Z (patient_age features);
    inject_Z (length_of_stay features);
    inject_Z (procedure_count features);
    inject_Z (diagnosis_count features);
    org_trust_score features;
    org_historical_fraud_rate features;
    inject_Z (org_claim_volume_30d features);
    amount_vs_org_avg features;
    amount_vs_procedure_avg features;
    inject_Z (is_weekend_admission features);
    inject_Z (is_holiday features);
    inject_Z (has_high_value_procedures features);
    inject_Z (duplicate_claim_flag features);
    inject_Z (rapid_readmission features);
    inject_Z (unusual_provider_combo features);
    nlp_inconsistency_score features;
    nlp_urgency_score features;
    ocr_completeness_score features;
    inject_Z (missing_required_fields features) ].

(** [X[0, i]]. *)
Definition X_at (X : list Q) (i : nat) : Q := nth i X 0.

(** *** Rule-based fallbacks *)

Definition rule_based_fraud_score (X : list Q) : Q :=
  let score := 0 in
  let score := if Qgt_bool (X_at X 8) 3 then score + 0.3 else score in
  let score := if Qeq_bool (X_at X 13) 1 then score + 0.4 else score in
  let score := if Qeq_bool (X_at X 14) 1 then score + 0.2 else score in
  np_clip score 0 1.

Definition rule_based_approval_score (X : list Q) : Q :=
  let score := 0.7 in
  let score := if Qgt_bool (X_at X 19) 2 then score - 0.3 else score in
  let score := if Qgt_bool (X_at X 8) 2 then score - 0.2 else score in
  np_clip score 0 1.

Definition rule_based_anomaly_score (X : list Q) : Q :=
  let score := 0 in
  let score := if Qgt_bool (X_at X 9) 3 then score + 0.4 else score in
  let score := if Qgt_bool (X_at X 2) 30 then score + 0.2 else score in
  np_clip score 0 1.

(** *** Model adapters *)

(** The shape shared by [_run_xgboost], [_run_random_forest] and
    [_run_isolation_forest]: use the model when there is one and it does
    not raise, else the rule. *)
Definition run_with_fallback (m : option Model) (rule : list Q -> Q) (X : list Q) : Q :=
  match m with
  | Some predict =>
      match predict X with
      | Some p => p
      | None => rule X
      end
  | None => rule X
  end.

Definition run_xgboost (e : Engine) (X : list Q) : Q :=
  run_with_fallback (xgb_model e) rule_based_fraud_score X.

Definition run_random_forest (e : Engine) (X : list Q) : Q :=
  run_with_fallback (rf_model e) rule_based_approval_score X.

Definition run_isolation_forest (e : Engine) (X : list Q) : Q :=
  run_with_fallback (isolation_model e) rule_based_anomaly_score X.

(** The fallback of [_run_autoencoder].  [|x - mean| > 2 * std] is
    written without the square root as [(x - mean)^2 > 4 * var]; mean and
    variance are the exact ones of the entries. *)
Definition statistical_outlier_score (X : list Q) : Q :=
  let m := np_mean X in
  let v := np_var X in
  let outliers := filter (fun x => Qgt_bool ((x - m) * (x - m)) (4 * v)) X in
  np_clip (inject_Z (Z.of_nat (length outliers)) / inject_Z (Z.of_nat (length X))) 0 1.

Definition run_autoencoder (e : Engine) (X : list Q) : Q :=
  match autoencoder e with
  | Some reconstruct =>
      match reconstruct X with
      | Some mse => Qmin 1 mse
      | None => statistical_outlier_score X
      end
  | None => statistical_outlier_score X
  end.

(** [entities[label].append(text)], creating the list on first use. *)
Fixpoint dict_append (d : list (string * list string)) (label text : string)
  : list (string * list string) :=
  match d with
  | [] => [(label, [text])]
  | (l, ts) :: d' =>
      if String.eqb l label then (l, (ts ++ [text])%list) :: d'
      else (l, ts) :: dict_append d' label text
  end.

Definition run_nlp (e : Engine) (text : string) : Q * list (string * list string) :=
  if String.eqb text "" then (0, [])
  else
    match nlp_pipeline e with
    | Some nlp =>
        match nlp (substring 0 5000 text) with
        | Some ents =>
            let entities :=
              fold_left (fun d ent => dict_append d (fst ent) (snd ent)) ents [] in
            let date_entities :=
              match dict_get entities "DATE" with Some l => l | None => [] end in
            let inconsistency_score :=
              if (5 <? length date_entities)%nat then 0 + 0.1 else 0 in
            (np_clip inconsistency_score 0 1, entities)
        | None => (np_clip 0 0 1, [])
        end
    | None => (np_clip 0 0 1, [])
    end.

(** *** Ensemble scoring

    On the exact reading of the scores; [Binary64.compute_trust_score]
    and [Binary64.compute_confidence] are the same functions on doubles,
    where the last decimal can differ (the doubles for the scores 0.0005,
    0.7, 0, 0.05, 0 sum to just below 91.735 and round to 91.73, the
    rationals sum to 91.735 and round to 91.74). *)

Definition compute_trust_score (xgb rf iso ae nlp : Q) : Q :=
  let trust :=
    WEIGHTS_at "xgboost" * (1 - xgb) +
    WEIGHTS_at "rf" * rf +
    WEIGHTS_at "isolation" * (1 - iso) +
    WEIGHTS_at "autoencoder" * (1 - ae) +
    WEIGHTS_at "nlp" * (1 - nlp) in
  py_round (np_clip (trust * 100) 0 100) 2.

Definition compute_confidence (scores : list Q) : Q :=
  let variance := np_var scores in
  py_round (np_clip (1 - Qmin (variance * 4) 0.9) 0.1 1) 3.

Definition determine_recommendation (trust_score : Q) : string :=
  if Qge_bool trust_score 85 then "AUTO_APPROVE"
  else if Qge_bool trust_score 60 then "APPROVE_WITH_REVIEW"
  else if Qge_bool trust_score 40 then "COMPLIANCE_REVIEW_REQUIRED"
  else "HIGH_RISK_HOLD".

(** [analyze], on an engine whose models have been loaded. *)
Definition analyze (e : Engine) (features : ClaimFeatures) (nlp_text : string)
  : EnsembleResult :=
  let X := extract_feature_vector features in
  let xgb_score := run_xgboost e X in
  let rf_score := run_random_forest e X in
  let iso_score := run_isolation_forest e X in
  let ae_score := run_autoencoder e X in
  let '(nlp_score, nlp_ents) := run_nlp e nlp_text in
  let trust := compute_trust_score xgb_score rf_score iso_score ae_score nlp_score in
  let rec := determine_recommendation trust in
  let conf := compute_confidence [xgb_score; rf_score; iso_score; ae_score] in
  {| trust_score := trust;
     fraud_probability := py_round xgb_score 4;
     anomaly_score := py_round ((iso_score + ae_score) / 2) 4;
     approval_likelihood := py_round rf_score 4;
     xgboost_fraud_score := py_round xgb_score 4;
     rf_approval_score := py_round rf_score 4;
     isolation_anomaly_score := py_round iso_score 4;
     autoencoder_anomaly_score := py_round ae_score 4;
     nlp_sentiment_score := py_round nlp_score 4;
     nlp_entities := nlp_ents;
     recommendation := rec;
     confidence := conf |}.

(** An engine with no learned model at all: every adapter falls back. *)
Definition fallback_engine : Engine := mkEngine None None None None None.

End Ensemble.

(** ** [ai/models/ensemble_engine.py] on IEEE 754 doubles

    A Python [float] is a binary64 value and numpy's [float32] a binary32
    one.  The functions below are the scoring functions of the engine on
    the primitive doubles of the prover, whose arithmetic is that of the
    machine.  What is not an operation of the machine is built from the
    exact value of a double: [round(x, n)] is the double nearest to the
    decimal nearest to [x], and the cast to [float32] rounds the
    significand to 24 bits. *)

Module Binary64.

Local Open Scope string_scope.
Local Open Scope Q_scope.

Definition pow2 (e : Z) : Q := Qpower 2 e.

(** The rational a finite double stands for; [None] on the infinities
    and on NaN. *)
Definition value (x : float) : option Q :=
  match Prim2SF x with
  | S754_zero _ => Some 0
  | S754_finite s m e => Some (inject_Z (if s then Z.neg m else Z.pos m) * pow2 e)
  | _ => None
  end.

(** The double nearest to [k / d], for [d > 0], ties going to the even
    significand: the quotient is scaled into [2^52, 2^53) (or down to the
    subnormal exponent), rounded to an integer and packed. *)
Definition nearest_double (k d : Z) : float :=
  match k with
  | Z0 => 0%float
  | _ =>
      let q := inject_Z (Z.abs k) / inject_Z d in
      let e0 := (Z.log2 (Z.abs k) - Z.log2 d - 52)%Z in
      let e1 := if Qlt_le_dec q (pow2 (e0 + 52)) then (e0 - 1)%Z else e0 in
      let e := Z.max e1 (-1074) in
      let m := round_half_even (q / pow2 e) in
      SF2Prim (binary_normalize prec emax (if (k <? 0)%Z then (- m)%Z else m) e (k <? 0)%Z)
  end.

(** [round(x, ndigits)] of Python on a float: the exact value of [x] is
    rounded to [ndigits] decimals, ties to even, and the result is the
    double nearest to that decimal; a result of zero keeps the sign of
    [x]; infinities and NaN are returned as they are. *)
Definition py_round (x : float) (ndigits : nat) : float :=
  match value x with
  | None => x
  | Some q =>
      let k := round_half_even (q * inject_Z (pow10 ndigits)) in
      if (k =? 0)%Z then (x * 0)%float else nearest_double k (pow10 ndigits)
  end.

(** [np.clip(x, lo, hi)] on a double: numpy computes
    [min(max(x, lo), hi)] with [max(a, b) = a if isnan(a) or a > b else b]
    and [min(a, b) = a if isnan(a) or a < b else b]. *)
Definition np_max (a b : float) : float :=
  if PrimFloat.is_nan a then a else if PrimFloat.ltb b a then a else b.

Definition np_min (a b : float) : float :=
  if PrimFloat.is_nan a then a else if PrimFloat.ltb a b then a else b.

Definition np_clip (x lo hi : float) : float := np_min (np_max x lo) hi.

(** The builtin [min(a, b)]: [b] when [b < a], else [a]. *)
Definition py_min (a b : float) : float := if PrimFloat.ltb b a then b else a.

(** The C cast of a double to [float] and back: the significand is
    rounded to 24 bits (ties to even), values beyond the binary32 range
    become infinite. *)
Definition float32 (x : float) : float :=
  match Prim2SF x with
  | S754_finite s m e => SF2Prim (binary_round 24 128 s m e)
  | _ => x
  end.

(** [float(n)] for a Python [int]. *)
Definition of_int (n : Z) : float := SF2Prim (binary_normalize prec emax n 0 false).

(** [@dataclass ClaimFeatures]. *)
Record ClaimFeatures := mkClaimFeatures {
  claimed_amount : float;
  patient_age : Z;
  length_of_stay : Z;
  procedure_count : Z;
  diagnosis_count : Z;
  org_trust_score : float;
  org_historical_fraud_rate : float;
  org_claim_volume_30d : Z;
  amount_vs_org_avg : float;
  amount_vs_procedure_avg : float;
  is_weekend_admission : Z;
  is_holiday : Z;
  has_high_value_procedures : Z;
  duplicate_claim_flag : Z;
  rapid_readmission : Z;
  unusual_provider_combo : Z;
  nlp_inconsistency_score : float;
  nlp_urgency_score : float;
  ocr_completeness_score : float;
  missing_required_fields : Z
}.

(** [_extract_feature_vector]: the row of the [1 x 20] array of dtype
    [float32].  Each entry goes through a double on its way to single
    precision. *)
Definition extract_feature_vector (features : ClaimFeatures) : list float :=
  [ float32 (claimed_amount features);
    float32 (of_int (patient_age features));
    float32 (of_int (length_of_stay features));
    float32 (of_int (procedure_count features));
    float32 (of_int (diagnosis_count features));
    float32 (org_trust_score features);
    float32 (org_historical_fraud_rate features);
    float32 (of_int (org_claim_volume_30d features));
    float32 (amount_vs_org_avg features);
    float32 (amount_vs_procedure_avg features);
    float32 (of_int (is_weekend_admission features));
    float32 (of_int (is_holiday features));
    float32 (of_int (has_high_value_procedures features));
    float32 (of_int (duplicate_claim_flag features));
    float32 (of_int (rapid_readmission features));
    float32 (of_int (unusual_provider_combo features));
    float32 (nlp_inconsistency_score features);
    float32 (nlp_urgency_score features);
    float32 (ocr_completeness_score features);
    float32 (of_int (missing_required_fields features)) ].

(** [X[0, i]]. *)
Definition X_at (X : list float) (i : nat) : float := nth i X 0%float.

(** [_rule_based_fraud_score]. *)
Definition rule_based_fraud_score (X : list float) : float :=
  let score := 0%float in
  let score := if PrimFloat.ltb 3 (X_at X 8) then (score + 0.3)%float else score in
  let score := if PrimFloat.eqb (X_at X 13) 1 then (score + 0.4)%float else score in
  let score := if PrimFloat.eqb (X_at X 14) 1 then (score + 0.2)%float else score in
  np_clip score 0 1.

(** A learned model: [None] as a result stands for an inference
    exception. *)
Definition Model := list float -> option float.

(** [_run_xgboost], given [self._xgb_model]. *)
Definition run_xgboost (xgb_model : option Model) (X : list float) : float :=
  match xgb_model with
  | Some predict_proba =>
      match predict_proba X with
      | Some p => p
      | None => rule_based_fraud_score X
      end
  | None => rule_based_fraud_score X
  end.

(** [EnsembleIntelligenceEngine.WEIGHTS]. *)
Definition WEIGHTS : list (string * float) :=
  [ ("xgboost", 0.30%float);
    ("rf", 0.25%float);
    ("isolation", 0.20%float);
    ("autoencoder", 0.15%float);
    ("nlp", 0.10%float) ].

Definition WEIGHTS_at (k : string) : float :=
  match Ensemble.dict_get WEIGHTS k with Some w => w | None => nan end.

(** [_compute_trust_score]. *)
Definition compute_trust_score (xgb rf iso ae nlp : float) : float :=
  let trust :=
    (WEIGHTS_at "xgboost" * (1 - xgb) +
     WEIGHTS_at "rf" * rf +
     WEIGHTS_at "isolation" * (1 - iso) +
     WEIGHTS_at "autoencoder" * (1 - ae) +
     WEIGHTS_at "nlp" * (1 - nlp))%float in
  py_round (np_clip (trust * 100) 0 100) 2.

(** [np.var(xs)] with the default [ddof = 0], as numpy's [_var] computes
    it: the mean is the sum over the count, the variance the sum of the
    squared deviations over the count.  [umr_sum] is numpy's
    [add.reduce], handed in: the order in which it adds is numpy's own. *)
Definition np_var (umr_sum : list float -> float) (xs : list float) : float :=
  let rcount := of_int (Z.of_nat (length xs)) in
  let arrmean := (umr_sum xs / rcount)%float in
  let x := map (fun a => ((a - arrmean) * (a - arrmean))%float) xs in
  (umr_sum x / rcount)%float.

(** [_compute_confidence]. *)
Definition compute_confidence (umr_sum : list float -> float) (scores : list float) : float :=
  let variance := np_var umr_sum scores in
  py_round (np_clip (1 - py_min (variance * 4) 0.9) 0.1 1) 3.


(** The scenario of an inflated duplicate: $18,450 claimed against an
    organisation average of $3,000, duplicate and rapid readmission. *)
Definition inflated_duplicate : ClaimFeatures :=
  mkClaimFeatures 18450 0 0 0 0 50 0.05 0 (18450 / 3000) 1 0 0 0 1 1 0 0 0 1 0.

(** A claim a hair above three times the organisation average. *)
Definition just_above_three : ClaimFeatures :=
  mkClaimFeatures 3000000.1 0 0 0 0 50 0.05 0 3.0000001 1 0 0 0 0 0 0 0 0 1 0.

End Binary64.

(** ** Python truthiness and small string helpers *)

Module Py.

Local Open Scope string_scope.

(** [bool(s)] for a string, [bool(l)] for a list, [bool(x)] for a value
    that may be [None]. *)
Definition truthy_str (s : string) : bool := negb (String.eqb s "").
Definition truthy_list {A : Type} (l : list A) : bool :=
  match l with [] => false | _ :: _ => true end.
Definition truthy_opt_str (o : option string) : bool :=
  match o with Some s => truthy_str s | None => false end.

(** [x in l] for a list of strings. *)
Definition str_in (x : string) (l : list string) : bool :=
  existsb (String.eqb x) l.

(** [sorted(set(l))]: ascending by code point, duplicates removed. *)
Fixpoint insert_unique (x : string) (l : list string) : list string :=
  match l with
  | [] => [x]
  | y :: l' =>
      match String.compare x y with
      | Lt => x :: y :: l'
      | Eq => y :: l'
      | Gt => y :: insert_unique x l'
      end
  end.

Definition sorted_set (l : list string) : list string :=
  fold_right insert_unique [] l.

(** [s.upper()] on ASCII text, which is what the code patterns of the
    extractor match; other code points are left as they are. *)
Definition ascii_upper (c : ascii) : ascii :=
  let n := nat_of_ascii c in
  if andb (97 <=? n)%nat (n <=? 122)%nat then ascii_of_nat (n - 32) else c.

Fixpoint upper (s : string) : string :=
  match s with
  | EmptyString => EmptyString
  | String c s' => String (ascii_upper c) (upper s')
  end.

(** [l.append(x)]. *)
Definition append {A : Type} (l : list A) (x : A) : list A := (l ++ [x])%list.

(** [str(n)] for a length. *)
Definition str_of_nat (n : nat) : string := NilEmpty.string_of_uint (Nat.to_uint n).

(** [sep.join(parts)]. *)
Definition join (sep : string) (parts : list string) : string := String.concat sep parts.

End Py.

(** ** [ai/pipeline/feature_engineering.py]: the duplicate-claim check *)

Module Features.

Local Open Scope Z_scope.

(** A row of the [claims] table, with the columns the duplicate check
    reads.  [created_at] is a UTC timestamp in seconds; an absent
    [patient_id] is [None], absent [procedure_codes] the empty list. *)
Record ClaimRow := mkClaimRow {
  id : string;
  patient_id : option string;
  procedure_codes : list string;
  created_at : Z
}.

(** [timedelta(days=n)], in seconds. *)
Definition timedelta_days (n : Z) : Z := n * 86400.

Definition opt_str_eqb (a b : option string) : bool :=
  match a, b with
  | Some x, Some y => String.eqb x y
  | _, _ => false
  end.

(** The query of [_check_duplicate]:
    [select("id").eq("patient_id", p).neq("id", i).gte("created_at", cutoff)]. *)
Definition select_other_claims_of_patient
    (table : list ClaimRow) (p : option string) (i : string) (cutoff : Z)
  : list ClaimRow :=
  filter (fun r =>
            opt_str_eqb (patient_id r) p
            && negb (String.eqb (id r) i)
            && (cutoff <=? created_at r))
         table.

(** [_check_duplicate].  [db] is [None] when the store cannot be reached
    (the query raises and the [except] branch answers [False]); [now] is
    [datetime.utcnow()]. *)
Definition check_duplicate (db : option (list ClaimRow)) (now : Z) (claim : ClaimRow) : bool :=
  if negb (Py.truthy_opt_str (patient_id claim)) || negb (Py.truthy_list (procedure_codes claim))
  then false
  else
    match db with
    | None => false
    | Some table =>
        let cutoff := now - timedelta_days 90 in
        let dupes := select_other_claims_of_patient table (patient_id claim) (id claim) cutoff in
        (0 <? Z.of_nat (length dupes))
    end.

(** [duplicate_claim_flag=int(self._check_duplicate(claim))] in
    [build_features]. *)
Definition duplicate_claim_flag_of (db : option (list ClaimRow)) (now : Z) (claim : ClaimRow) : Z :=
  Z.b2z (check_duplicate db now claim).

(** The flag as the specification words it: some other claim of the same
    patient, with overlapping procedure codes, created within the 90 days
    before [now]. *)
Definition codes_overlap (a b : list string) : bool :=
  existsb (fun c => Py.str_in c b) a.

Definition duplicate_as_specified (table : list ClaimRow) (now : Z) (claim : ClaimRow) : bool :=
  existsb (fun r =>
             negb (String.eqb (id r) (id claim))
             && opt_str_eqb (patient_id r) (patient_id claim)
             && codes_overlap (procedure_codes r) (procedure_codes claim)
             && (now - timedelta_days 90 <=? created_at r))
          table.

End Features.

(** ** [app/services/extraction_service.py] *)

Module Extraction.

Local Open Scope string_scope.
Local Open Scope Q_scope.

Record ExtractedFacts := mkExtractedFacts {
  diagnosis_codes : list string;
  procedure_codes : list string;
  physician_identifiers : list string;
  authorization_indicators : list string;
  matched_policies : list string;
  detected_risks : list string;
  is_consistent : bool;
  confidence : Q;
  summary : string
}.

(** The compiled patterns of [MedicalExtractionService], as the functions
    the service calls on them: [findall] for the four class patterns and
    [re.search(...) is not None] for the two authorization patterns. *)
Record Patterns := mkPatterns {
  ICD_findall : string -> list string;
  CPT_findall : string -> list string;
  NPI_findall : string -> list string;
  DOCTOR_findall : string -> list string;
  prior_auth_search : string -> bool;
  auth_reference_search : string -> bool
}.

Section Service.

Variable rx : Patterns.

Definition extract_authorization_indicators (text : string) : list string :=
  let matches : list string := [] in
  let matches := if prior_auth_search rx text then Py.append matches "PRIOR_AUTH_DECLARED" else matches in
  let matches := if auth_reference_search rx text then Py.append matches "AUTH_REFERENCE_PRESENT" else matches in
  Py.sorted_set matches.

Definition extract_physician_identifiers (text : string) : list string :=
  let physician_ids := map (fun npi => "NPI:" ++ npi) (NPI_findall rx text) in
  let physician_names := map (fun name => "PROVIDER:" ++ name) (DOCTOR_findall rx text) in
  Py.sorted_set (physician_ids ++ physician_names)%list.

Definition build_policy_and_risk_signals
    (diagnosis_codes procedure_codes physician_identifiers authorization_indicators : list string)
  : list string * list string * bool :=
  let policies : list string := [] in
  let risks : list string := [] in
  let '(policies, risks) :=
    if Py.truthy_list diagnosis_codes && Py.truthy_list procedure_codes
    then (Py.append policies "DIAGNOSIS_PROCEDURE_LINKED", risks)
    else (policies, Py.append risks "DIAGNOSIS_PROCEDURE_MISMATCH") in
  let '(policies, risks) :=
    if Py.truthy_list authorization_indicators
    then (Py.append policies "PRIOR_AUTH_MATCHED", risks)
    else (policies, Py.append risks "MISSING_AUTHORIZATION") in
  let '(policies, risks) :=
    if Py.truthy_list physician_identifiers
    then (Py.append policies "PROVIDER_IDENTIFIER_PRESENT", risks)
    else (policies, Py.append risks "MISSING_PROVIDER_IDENTIFIER") in
  let risks :=
    if negb (Py.truthy_list diagnosis_codes) && negb (Py.truthy_list procedure_codes)
    then Py.append risks "NO_BILLABLE_CODE_EXTRACTED"
    else risks in
  let is_consistent :=
    Py.str_in "DIAGNOSIS_PROCEDURE_LINKED" policies
    && Py.str_in "PRIOR_AUTH_MATCHED" policies
    && Py.str_in "PROVIDER_IDENTIFIER_PRESENT" policies in
  (Py.sorted_set policies, Py.sorted_set risks, is_consistent).

Definition extract (text : string) : ExtractedFacts :=
  if negb (Py.truthy_str text)
  then mkExtractedFacts [] [] [] [] [] ["NO_TEXT_AVAILABLE"] false 0 "No text provided"
  else
    let diagnosis_codes := Py.sorted_set (map Py.upper (ICD_findall rx text)) in
    let procedure_codes := Py.sorted_set (CPT_findall rx text) in
    let physician_identifiers := extract_physician_identifiers text in
    let authorization_indicators := extract_authorization_indicators text in
    let '(matched_policies, detected_risks, is_consistent) :=
      build_policy_and_risk_signals
        diagnosis_codes procedure_codes physician_identifiers authorization_indicators in
    let confidence :=
      if is_consistent then 0.95
      else if Py.truthy_list diagnosis_codes || Py.truthy_list procedure_codes then 0.72
      else 0.4 in
    let summary :=
      "Extracted " ++ Py.str_of_nat (length diagnosis_codes) ++ " diagnosis code(s), "
      ++ Py.str_of_nat (length procedure_codes) ++ " procedure code(s), "
      ++ Py.str_of_nat (length physician_identifiers) ++ " provider identifier(s)." in
    mkExtractedFacts diagnosis_codes procedure_codes physician_identifiers
      authorization_indicators matched_policies detected_risks is_consistent
      confidence summary.

End Service.

End Extraction.

(** ** [app/services/revalidation_service.py] *)

Module Revalidation.

Local Open Scope string_scope.

Definition map_recommendation_to_status (recommendation : string) : string :=
  match Ensemble.dict_get
          [ ("AUTO_APPROVE", "pending_review");
            ("APPROVE_WITH_REVIEW", "pending_review");
            ("COMPLIANCE_REVIEW_REQUIRED", "compliance_review");
            ("HIGH_RISK_HOLD", "compliance_review") ]
          recommendation with
  | Some s => s
  | None => "pending_review"
  end.

Definition build_reviewer_suggestion (recommendation : string) (detected_risks : list string) : string :=
  if String.eqb recommendation "AUTO_APPROVE" then
    "Low-risk claim profile. Approve unless manual discrepancy is identified."
  else if Py.str_in "MISSING_AUTHORIZATION" detected_risks then
    "Authorization evidence missing. Request prior authorization document before approval."
  else if String.eqb recommendation "HIGH_RISK_HOLD" then
    "High-risk hold recommended. Escalate to compliance specialist for manual review."
  else
    "Proceed with targeted compliance review on extracted risk indicators.".

(** The guidance as the specification orders it: the missing authorization
    first, then the recommendation. *)
Definition reviewer_suggestion_as_specified (recommendation : string) (detected_risks : list string) : string :=
  if Py.str_in "MISSING_AUTHORIZATION" detected_risks then
    "Authorization evidence missing. Request prior authorization document before approval."
  else if String.eqb recommendation "AUTO_APPROVE" then
    "Low-risk claim profile. Approve unless manual discrepancy is identified."
  else if String.eqb recommendation "HIGH_RISK_HOLD" then
    "High-risk hold recommended. Escalate to compliance specialist for manual review."
  else
    "Proceed with targeted compliance review on extracted risk indicators.".

(** An [ocr_data] mapping. *)
Definition OcrData := list (string * string).

Fixpoint dict_set (d : OcrData) (k v : string) : OcrData :=
  match d with
  | [] => [(k, v)]
  | (k', v') :: d' => if String.eqb k' k then (k', v) :: d' else (k', v') :: dict_set d' k v
  end.

(** [d.update(other)]. *)
Definition dict_update (d other : OcrData) : OcrData :=
  fold_left (fun acc kv => dict_set acc (fst kv) (snd kv)) other d.

(** The decision payload of a cycle; it is written into the
    [ai_explanation] document of the claim and, where the table has them,
    into columns of the same names. *)
Record Intelligence := mkIntelligence {
  i_matched_policies : list string;
  i_detected_risks : list string;
  i_reviewer_suggestion : string;
  i_workflow_stage : string;
  i_auto_approval_eligible : bool
}.

(** A row of [claims]. *)
Record Claim := mkClaim {
  id : string;
  status : option string;
  diagnosis_codes : list string;
  procedure_codes : list string;
  trust_score : option Q;
  ai_recommendation : option string;
  ai_explanation : option Intelligence;
  intelligence_columns : option Intelligence
}.

(** A row of [claim_documents]; the table is kept in [created_at] order. *)
Record Document := mkDocument {
  doc_id : string;
  doc_claim_id : string;
  ocr_text : option string;
  ocr_data : option OcrData
}.

(** A request handed to the task broker by [apply_async]: the task, its
    arguments and the delay in seconds. *)
Record QueuedTask := mkQueuedTask {
  task_name : string;
  task_args : list string;
  task_countdown : Z
}.

(** The store and the broker.  [extended_columns] tells whether [claims]
    has the claim-intelligence columns; without them the first [update]
    raises and the service writes [basic_update_data] instead.
    [task_queue] holds the requests queued so far, oldest first; [None]
    is a broker that cannot be reached, on which [apply_async] raises.
    The store itself is taken to answer every query and accept every
    write. *)
Record Store := mkStore {
  claims : list Claim;
  claim_documents : list Document;
  extended_columns : bool;
  task_queue : option (list QueuedTask)
}.

(** What the service is handed from outside: the extractor's patterns,
    the loaded engine, the feature builder (which reads the store and the
    clock), and the builtins [str] on a mapping and [str.strip].
    [build_features] answers [None] when the builder raises (as
    [FeatureBuilder.build_features] does on an empty procedure code); the
    call is outside every [try], so the exception leaves
    [revalidate_claim]. *)
Record Collaborators := mkCollaborators {
  patterns : Extraction.Patterns;
  engine : Ensemble.Engine;
  build_features : Claim -> OcrData -> option Ensemble.ClaimFeatures;
  str_of_dict : OcrData -> string;
  strip : string -> string
}.

(** The returned mapping. *)
Record Revalidated := mkRevalidated {
  r_claim_id : string;
  r_workflow_stage : string;
  r_claim_status : string;
  r_auto_approval_eligible : bool;
  r_reviewer_suggestion : string;
  r_matched_policies : list string;
  r_detected_risks : list string;
  r_recommendation : string;
  r_confidence_score : Q;
  r_trust_score : Q
}.

(** How a call ends: with one of the two error mappings, with the
    exception of the feature builder, or with the result. *)
Inductive Outcome :=
| Error (message : string) (claim_id : string)
| Raised
| Done (r : Revalidated).

(** [table("claims").select("*").eq("id", claim_id).single()]. *)
Definition select_claim (s : Store) (claim_id : string) : option Claim :=
  find (fun c => String.eqb (id c) claim_id) (claims s).

(** [table("claim_documents")....eq("claim_id", claim_id)]. *)
Definition select_documents (s : Store) (claim_id : string) : list Document :=
  filter (fun d => String.eqb (doc_claim_id d) claim_id) (claim_documents s).

(** [update_data] / [basic_update_data] applied to the row [claim_id]. *)
Record UpdateData := mkUpdateData {
  u_diagnosis_codes : list string;
  u_procedure_codes : list string;
  u_trust_score : Q;
  u_ai_recommendation : string;
  u_status : string;
  u_intelligence : Intelligence
}.

Definition apply_update (extended : bool) (u : UpdateData) (c : Claim) : Claim :=
  {| id := id c;
     status := Some (u_status u);
     diagnosis_codes := u_diagnosis_codes u;
     procedure_codes := u_procedure_codes u;
     trust_score := Some (u_trust_score u);
     ai_recommendation := Some (u_ai_recommendation u);
     ai_explanation := Some (u_intelligence u);
     intelligence_columns :=
       if extended then Some (u_intelligence u) else intelligence_columns c |}.

Definition update_claim (s : Store) (claim_id : string) (u : UpdateData) : Store :=
  {| claims :=
       map (fun c => if String.eqb (id c) claim_id
                     then apply_update (extended_columns s) u c else c)
           (claims s);
     claim_documents := claim_documents s;
     extended_columns := extended_columns s;
     task_queue := task_queue s |}.

(** [task.apply_async(args, countdown)] inside [try]: the request joins
    the queue; on an unreachable broker the exception is logged and
    nothing else happens. *)
Definition apply_async (s : Store) (t : QueuedTask) : Store :=
  match task_queue s with
  | Some queued =>
      {| claims := claims s;
         claim_documents := claim_documents s;
         extended_columns := extended_columns s;
         task_queue := Some (queued ++ [t])%list |}
  | None => s
  end.

(** The follow-up request of a cycle: the full analysis of the claim,
    two seconds later. *)
Definition follow_up (claim_id : string) : QueuedTask :=
  mkQueuedTask "app.tasks.ai_tasks.analyze_claim_async" [claim_id] 2.

(** The loop over the documents: the text parts and the merged mapping. *)
Definition collect_documents (K : Collaborators) (docs : list Document)
  : list string * OcrData :=
  fold_left
    (fun (acc : list string * OcrData) doc =>
       let '(parts, combined) := acc in
       let parts :=
         match ocr_text doc with
         | Some t => if Py.truthy_str t then Py.append parts t else parts
         | None => parts
         end in
       match ocr_data doc with
       | Some d => (Py.append parts (str_of_dict K d), dict_update combined d)
       | None => (parts, combined)
       end)
    docs ([], []).

Definition newline : string := String (ascii_of_nat 10) EmptyString.

(** [RevalidationService.revalidate_claim].  The appended [ai_results]
    record and the audit entry do not feed back into the returned mapping
    or the row written here and are left out; so are the [document_id]
    argument, which is only copied through, and the clock readings. *)
Definition revalidate_claim (K : Collaborators) (s : Store) (claim_id : string)
  : Store * Outcome :=
  match select_claim s claim_id with
  | None => (s, Error "Claim not found" claim_id)
  | Some claim =>
      let docs := select_documents s claim_id in
      if negb (Py.truthy_list docs)
      then (s, Error "No documents found for claim" claim_id)
      else
        let '(combined_text_parts, combined_ocr_data) := collect_documents K docs in
        let combined_text := strip K (Py.join (newline ++ newline) combined_text_parts) in
        let facts := Extraction.extract (patterns K) combined_text in
        match build_features K claim combined_ocr_data with
        | None => (s, Raised)
        | Some features =>
          let ensemble_result := Ensemble.analyze (engine K) features combined_text in
          let recommendation := Ensemble.recommendation ensemble_result in
          let workflow_stage :=
            if String.eqb recommendation "AUTO_APPROVE"
            then "auto_approval_review" else "compliance_review" in
          let auto_approval_eligible :=
            String.eqb recommendation "AUTO_APPROVE"
            && negb (Py.str_in "MISSING_AUTHORIZATION" (Extraction.detected_risks facts))
            && negb (Py.str_in "MISSING_PROVIDER_IDENTIFIER" (Extraction.detected_risks facts)) in
          let reviewer_suggestion :=
            build_reviewer_suggestion recommendation (Extraction.detected_risks facts) in
          let next_status := map_recommendation_to_status recommendation in
          let '(next_status, workflow_stage) :=
            match status claim with
            | Some st =>
                if String.eqb st "draft"
                then ("draft", "pre_submission_revalidation")
                else (next_status, workflow_stage)
            | None => (next_status, workflow_stage)
            end in
          let intelligence :=
            {| i_matched_policies := Extraction.matched_policies facts;
               i_detected_risks := Extraction.detected_risks facts;
               i_reviewer_suggestion := reviewer_suggestion;
               i_workflow_stage := workflow_stage;
               i_auto_approval_eligible := auto_approval_eligible |} in
          let update_data :=
            {| u_diagnosis_codes :=
                 if Py.truthy_list (Extraction.diagnosis_codes facts)
                 then Extraction.diagnosis_codes facts else diagnosis_codes claim;
               u_procedure_codes :=
                 if Py.truthy_list (Extraction.procedure_codes facts)
                 then Extraction.procedure_codes facts else procedure_codes claim;
               u_trust_score := Ensemble.trust_score ensemble_result;
               u_ai_recommendation := recommendation;
               u_status := next_status;
               u_intelligence := intelligence |} in
          (apply_async (update_claim s claim_id update_data) (follow_up claim_id),
           Done
             {| r_claim_id := claim_id;
                r_workflow_stage := workflow_stage;
                r_claim_status := next_status;
                r_auto_approval_eligible := auto_approval_eligible;
                r_reviewer_suggestion := reviewer_suggestion;
                r_matched_policies := Extraction.matched_policies facts;
                r_detected_risks := Extraction.detected_risks facts;
                r_recommendation := recommendation;
                r_confidence_score := Ensemble.confidence ensemble_result;
                r_trust_score := Ensemble.trust_score ensemble_result |})
        end
  end.

End Revalidation.

(** ** Concrete inputs used by the examples below *)

Module Scenario.

Local Open Scope string_scope.
Local Open Scope Q_scope.

(** A claim of $18,450 against an organisation average of $3,000 (ratio
    6.15), flagged as duplicate and as rapid readmission. *)
Definition inflated_duplicate : Ensemble.ClaimFeatures :=
  Ensemble.mkClaimFeatures
    18450 0 0 0 0 50 0.05 0 6.15 1 0 0 0 1 1 0 0 0 1 0.

(** A store with one earlier claim of patient [p1], ten days old, for a
    knee replacement; the claim under scrutiny is an office visit of the
    same patient. *)
Definition day : Z := 86400%Z.
Definition now : Z := (20000 * day)%Z.

Definition earlier_claim : Features.ClaimRow :=
  Features.mkClaimRow "c1" (Some "p1") ["27447"] (now - 10 * day)%Z.

Definition office_visit : Features.ClaimRow :=
  Features.mkClaimRow "c2" (Some "p1") ["99213"] now.

Definition claims_table : list Features.ClaimRow := [earlier_claim; office_visit].

(** Collaborators with no learned model and patterns that match nothing,
    and a store holding one draft claim and one submitted claim, each
    with one scanned document. *)
Definition no_match : Extraction.Patterns :=
  Extraction.mkPatterns
    (fun _ => []) (fun _ => []) (fun _ => []) (fun _ => [])
    (fun _ => false) (fun _ => false).

Definition plain : Revalidation.Collaborators :=
  Revalidation.mkCollaborators
    no_match Ensemble.fallback_engine
    (fun _ _ => Some Ensemble.default_features)
    (fun _ => "{}") (fun t => t).

Definition draft_claim : Revalidation.Claim :=
  Revalidation.mkClaim "c1" (Some "draft") [] [] None None None None.

Definition submitted_claim : Revalidation.Claim :=
  Revalidation.mkClaim "c2" (Some "submitted") [] [] None None None None.

Definition store : Revalidation.Store :=
  Revalidation.mkStore
    [draft_claim; submitted_claim]
    [ Revalidation.mkDocument "d1" "c1" (Some "discharge summary") None;
      Revalidation.mkDocument "d2" "c2" (Some "discharge summary") None ]
    true (Some []).

End Scenario.

(** ** [ensemble_engine.py]: risk factors and explanation text *)

Module Report.

Import Ensemble.
Local Open Scope string_scope.

(** An entry of the [risk_factors] list. *)
Record RiskFactor := mkRiskFactor {
  severity : string;
  factor : string;
  impact : Z
}.

(** The two float conversions the f-strings use: [f"{x:.1f}"] and
    [f"{x}"]. *)
Record Formats := mkFormats {
  format_1f : Q -> string;
  str_float : Q -> string
}.

(** [str(n)] for an [int]. *)
Definition str_of_Z (z : Z) : string := NilZero.string_of_int (Z.to_int z).

(** [sorted(risks, key=lambda r: r["impact"])]: a stable sort. *)
Fixpoint insert_by_impact (x : RiskFactor) (l : list RiskFactor) : list RiskFactor :=
  match l with
  | [] => [x]
  | y :: l' =>
      if (impact x <=? impact y)%Z then x :: y :: l'
      else y :: insert_by_impact x l'
  end.

Definition sorted_by_impact (l : list RiskFactor) : list RiskFactor :=
  fold_right insert_by_impact [] l.

(** The checklist of [_build_risk_factors], before sorting. *)
Definition risk_checklist (F : Formats) (features : ClaimFeatures) (xgb iso : Q)
  : list RiskFactor :=
  let risks : list RiskFactor := [] in
  let risks :=
    if negb (duplicate_claim_flag features =? 0)%Z
    then Py.append risks (mkRiskFactor "high" "Potential duplicate claim detected" (-25))
    else risks in
  let risks :=
    if negb (rapid_readmission features =? 0)%Z
    then Py.append risks (mkRiskFactor "medium" "Rapid readmission within 30 days" (-15))
    else risks in
  let risks :=
    if Qgt_bool (amount_vs_org_avg features) 2.5
    then Py.append risks
           (mkRiskFactor "medium"
              ("Claimed amount " ++ format_1f F (amount_vs_org_avg features)
               ++ "x above org average") (-10))
    else risks in
  let risks :=
    if (0 <? missing_required_fields features)%Z
    then Py.append risks
           (mkRiskFactor "medium"
              (str_of_Z (missing_required_fields features)
               ++ " required documentation fields missing") (-8))
    else risks in
  let risks :=
    if Qgt_bool (org_historical_fraud_rate features) 0.10
    then Py.append risks
           (mkRiskFactor "high" "Organization has elevated historical fraud rate" (-20))
    else risks in
  let risks :=
    if Qgt_bool xgb 0.7
    then Py.append risks
           (mkRiskFactor "high" "XGBoost model flags high fraud probability" (-30))
    else risks in
  let risks :=
    if Qgt_bool iso 0.65
    then Py.append risks
           (mkRiskFactor "medium" "Billing pattern is a statistical anomaly" (-12))
    else risks in
  let risks :=
    if Qgt_bool (org_trust_score features) 80
    then Py.append risks (mkRiskFactor "info" "High-trust organization on record" 15)
    else risks in
  let risks :=
    if Qgt_bool (ocr_completeness_score features) 0.95
    then Py.append risks
           (mkRiskFactor "info" "Documents are complete and well-structured" 5)
    else risks in
  risks.

Definition build_risk_factors (F : Formats) (features : ClaimFeatures) (xgb iso : Q)
  : list RiskFactor :=
  sorted_by_impact (risk_checklist F features xgb iso).

Definition build_explanation
    (F : Formats) (trust_score : Q) (risk_factors : list RiskFactor) (recommendation : string)
  : string :=
  let factor_summaries :=
    Py.join "; "
      (map factor (filter (fun r => (impact r <? 0)%Z) (firstn 3 risk_factors))) in
  if Py.truthy_str factor_summaries then
    "CareVerify Trust Score: " ++ str_float F trust_score ++ "/100. "
    ++ "Key concerns: " ++ factor_summaries ++ ". "
    ++ "Recommendation: " ++ recommendation ++ "."
  else
    "CareVerify Trust Score: " ++ str_float F trust_score ++ "/100. "
    ++ "No significant risk factors identified. "
    ++ "Recommendation: " ++ recommendation ++ ".".

(** The two lists [analyze] derives from the adapter scores. *)
Definition analyze_risk_factors (F : Formats) (e : Engine) (features : ClaimFeatures)
  : list RiskFactor :=
  let X := extract_feature_vector features in
  build_risk_factors F features (run_xgboost e X) (run_isolation_forest e X).

Definition analyze_explanation
    (F : Formats) (e : Engine) (features : ClaimFeatures) (nlp_text : string) : string :=
  let r := analyze e features nlp_text in
  build_explanation F (trust_score r) (analyze_risk_factors F e features) (recommendation r).

(** [s.replace(" ", "_")]. *)
Fixpoint replace_space (s : string) : string :=
  match s with
  | EmptyString => EmptyString
  | String c s' =>
      String (if Ascii.eqb c " " then "_"%char else c) (replace_space s')
  end.

(** [violations] in [revalidate_claim]. *)
Definition violation_flags (detected_risks : list string) (risk_factors : list RiskFactor)
  : list string :=
  Py.sorted_set
    (detected_risks
     ++ map (fun r => replace_space (Py.upper (factor r)))
            (filter (fun r => (impact r <? 0)%Z) risk_factors))%list.

End Report.

(** ** [feature_engineering.py]: the feature builder *)

Module FeatureBuilder.

Import Ensemble.
Local Open Scope string_scope.
Local Open Scope Z_scope.

Definition HIGH_VALUE_CPT_PREFIXES : list ascii := ["3"; "4"; "5"; "6"; "7"]%char.
Definition HOLIDAY_MONTHS_DAYS : list (Z * Z) :=
  [(12, 25); (1, 1); (7, 4); (11, 28); (11, 27)].

(** A parsed [datetime], at one-second resolution: the proleptic ordinal
    of its date, the second within the day, and the calendar month and
    day of month. *)
Record DateTime := mkDateTime {
  toordinal : Z;
  second_of_day : Z;
  month : Z;
  day : Z
}.

Definition timestamp (d : DateTime) : Z := toordinal d * 86400 + second_of_day d.

(** [d.weekday()]: Monday is 0. *)
Definition weekday (d : DateTime) : Z := (toordinal d + 6) mod 7.

(** [(a - b).days]: a [timedelta] keeps the floor of the day count. *)
Definition days_between (a b : DateTime) : Z := (timestamp a - timestamp b) / 86400.

(** The clock and the two parsers; [None] stands for a raised
    [ValueError]. *)
Record Env := mkEnv {
  utcnow : DateTime;
  fromisoformat : string -> option DateTime;
  strptime_mdY : string -> option DateTime
}.

(** Rows of [organizations] and [claims], with the columns the builder
    reads.  Timestamps are in seconds, as in [Features.ClaimRow]. *)
Record OrgRow := mkOrgRow {
  org_id : string;
  org_trust : option Q
}.

Record Row := mkRow {
  id : string;
  patient_id : option string;
  hospital_org_id : string;
  procedure_codes : list string;
  created_at : Z;
  claimed_amount : option Q;
  fraud_probability : option Q;
  discharge_date : option Z
}.

Record Tables := mkTables {
  organizations : list OrgRow;
  claims : list Row
}.

(** The claim mapping handed to [build_features]; its keys are taken to
    be present with values of these types ([hospital_org_id] is read with
    a subscript, the amount through [float]). *)
Record ClaimInput := mkClaimInput {
  c_id : string;
  c_patient_id : option string;
  c_hospital_org_id : string;
  c_claimed_amount : Q;
  c_procedure_codes : list string;
  c_diagnosis_codes : list string;
  c_admission_date : option string;
  c_discharge_date : option string;
  c_metadata_age : option Z
}.

Record OrgStats := mkOrgStats {
  s_trust_score : Q;
  s_claim_volume_30d : Z;
  s_avg_claim_amount : Q;
  s_historical_fraud_rate : Q
}.

(** The [except] answer of [_get_org_stats]. *)
Definition default_org_stats : OrgStats := mkOrgStats 50 0 0 0.05%Q.

(** The truthy values of a column, as floats. *)
Definition truthy_amounts (rows : list Row) : list Q :=
  flat_map (fun r =>
              match claimed_amount r with
              | Some a => if Qeq_bool a 0 then [] else [a]
              | None => []
              end) rows.

Definition is_fraud_claim (c : Row) : bool :=
  match fraud_probability c with
  | Some p => negb (Qeq_bool p 0) && Qgt_bool p 0.7%Q
  | None => false
  end.

Definition qlen {A : Type} (l : list A) : Q := inject_Z (Z.of_nat (length l)).

(** [_get_org_stats].  [db = None] is an unreachable store; a [NULL]
    trust score makes [float(...)] raise; both end in the defaults. *)
Definition get_org_stats (env : Env) (db : option Tables) (org : string) : OrgStats :=
  match db with
  | None => default_org_stats
  | Some t =>
      let org_row := find (fun o => String.eqb (org_id o) org) (organizations t) in
      let cutoff := timestamp (utcnow env) - Features.timedelta_days 30 in
      let recent_claims :=
        filter (fun r => String.eqb (hospital_org_id r) org && (cutoff <=? created_at r))
               (claims t) in
      let fraud_claims := filter is_fraud_claim recent_claims in
      let amounts := truthy_amounts recent_claims in
      let rest (trust : Q) :=
        mkOrgStats
          trust
          (Z.of_nat (length recent_claims))
          (if Py.truthy_list amounts then (qsum amounts / qlen amounts)%Q else 0%Q)
          (if Py.truthy_list recent_claims
           then (qlen fraud_claims / qlen recent_claims)%Q else 0.05%Q) in
      match org_row with
      | Some o =>
          match org_trust o with
          | Some trust => rest trust
          | None => default_org_stats
          end
      | None => rest 50%Q
      end
  end.

(** [.contains("procedure_codes", codes)]. *)
Definition contains_codes (r : Row) (codes : list string) : bool :=
  forallb (fun c => Py.str_in c (procedure_codes r)) codes.

(** [_get_procedure_avg_amount]. *)
Definition get_procedure_avg_amount (db : option Tables) (codes : list string) : Q :=
  if negb (Py.truthy_list codes) then 0%Q
  else
    match db with
    | None => 0%Q
    | Some t =>
        let result :=
          firstn 100 (filter (fun r => contains_codes r (firstn 3 codes)) (claims t)) in
        let amounts := truthy_amounts result in
        if Py.truthy_list amounts then (qsum amounts / qlen amounts)%Q else 0%Q
    end.

(** The rows as [_check_duplicate] reads them. *)
Definition to_claim_row (r : Row) : Features.ClaimRow :=
  Features.mkClaimRow (id r) (patient_id r) (procedure_codes r) (created_at r).

Definition claim_row_of (c : ClaimInput) : Features.ClaimRow :=
  Features.mkClaimRow (c_id c) (c_patient_id c) (c_procedure_codes c) 0.

(** [_check_rapid_readmission]. *)
Definition check_rapid_readmission (env : Env) (db : option Tables) (claim : ClaimInput) : bool :=
  if negb (Py.truthy_opt_str (c_patient_id claim))
     || negb (Py.truthy_opt_str (c_admission_date claim))
  then false
  else
    match c_admission_date claim with
    | None => false
    | Some adm =>
        match fromisoformat env adm, db with
        | Some adm_date, Some t =>
            let cutoff := timestamp adm_date - Features.timedelta_days 30 in
            let prior :=
              filter (fun r =>
                        Features.opt_str_eqb (patient_id r) (c_patient_id claim)
                        && negb (String.eqb (id r) (c_id claim))
                        && match discharge_date r with
                           | Some d => (cutoff <=? d) && (d <? timestamp adm_date)
                           | None => false
                           end)
                     (claims t) in
            (0 <? Z.of_nat (length prior))
        | _, _ => false
        end
    end.

Definition is_weekend (env : Env) (claim : ClaimInput) : bool :=
  match c_admission_date claim with
  | None => false
  | Some adm =>
      if negb (Py.truthy_str adm) then false
      else match fromisoformat env adm with
           | Some d => (5 <=? weekday d)
           | None => false
           end
  end.

Definition is_holiday (env : Env) (claim : ClaimInput) : bool :=
  match c_admission_date claim with
  | None => false
  | Some adm =>
      if negb (Py.truthy_str adm) then false
      else match fromisoformat env adm with
           | Some d =>
               existsb (fun md => (fst md =? month d) && (snd md =? day d))
                       HOLIDAY_MONTHS_DAYS
           | None => false
           end
  end.

(** [_compute_length_of_stay]; an absent date raises inside the [try]. *)
Definition compute_length_of_stay (env : Env) (claim : ClaimInput) : Z :=
  match c_admission_date claim, c_discharge_date claim with
  | Some a, Some d =>
      match fromisoformat env a, fromisoformat env d with
      | Some adm, Some dis => Z.max 0 (days_between dis adm)
      | _, _ => 0
      end
  | _, _ => 0
  end.

(** [ocr_data.get(f)] is truthy. *)
Definition ocr_present (ocr_data : Revalidation.OcrData) (f : string) : bool :=
  match dict_get ocr_data f with
  | Some v => Py.truthy_str v
  | None => false
  end.

(** [_ocr_completeness]. *)
Definition ocr_completeness (ocr_data : Revalidation.OcrData) : Q * Z :=
  let required_fields := ["patient_name"; "admission_date"; "diagnosis"; "total_amount"] in
  let present := Z.of_nat (length (filter (ocr_present ocr_data) required_fields)) in
  let missing := Z.of_nat (length required_fields) - present in
  (py_round (inject_Z present / qlen required_fields) 3, missing).

(** [any(str(c)[0] in HIGH_VALUE_CPT_PREFIXES for c in proc_codes)];
    [None] is the [IndexError] of an empty code met before any hit. *)
Fixpoint any_high_value (codes : list string) : option bool :=
  match codes with
  | [] => Some false
  | EmptyString :: _ => None
  | String a _ :: rest =>
      if existsb (Ascii.eqb a) HIGH_VALUE_CPT_PREFIXES then Some true
      else any_high_value rest
  end.

(** The patient age of [build_features]. *)
Definition patient_age_of
    (env : Env) (claim : ClaimInput) (ocr_data : option Revalidation.OcrData) : Z :=
  let patient_age := 0 in
  let patient_age :=
    match ocr_data with
    | Some ((_ :: _) as d) =>
        match dict_get d "dob" with
        | Some dob_text =>
            if Py.truthy_str dob_text then
              match strptime_mdY env dob_text with
              | Some dob => days_between (utcnow env) dob / 365
              | None => patient_age
              end
            else patient_age
        | None => patient_age
        end
    | _ => patient_age
    end in
  if (patient_age =? 0)
  then match c_metadata_age claim with
       | Some age => if (age =? 0) then patient_age else age
       | None => patient_age
       end
  else patient_age.

(** [build_features]; [None] when [any_high_value] raises. *)
Definition build_features
    (env : Env) (db : option Tables) (claim : ClaimInput)
    (ocr_data : option Revalidation.OcrData) (nlp_inconsistency : Q)
  : option ClaimFeatures :=
  let org_stats := get_org_stats env db (c_hospital_org_id claim) in
  let claimed := c_claimed_amount claim in
  let proc_codes := c_procedure_codes claim in
  let diag_codes := c_diagnosis_codes claim in
  let proc_avg := get_procedure_avg_amount db proc_codes in
  let amount_vs_org :=
    if Qgt_bool (s_avg_claim_amount org_stats) 0
    then (claimed / s_avg_claim_amount org_stats)%Q else 1%Q in
  let amount_vs_proc :=
    if Qgt_bool proc_avg 0 then (claimed / proc_avg)%Q else 1%Q in
  let '(completeness, missing_fields) :=
    ocr_completeness (match ocr_data with Some d => d | None => [] end) in
  let age := patient_age_of env claim ocr_data in
  match any_high_value proc_codes with
  | None => None
  | Some high_value =>
      Some
        {| Ensemble.claimed_amount := claimed;
           patient_age := age;
           length_of_stay := compute_length_of_stay env claim;
           procedure_count := Z.of_nat (length proc_codes);
           diagnosis_count := Z.of_nat (length diag_codes);
           org_trust_score := s_trust_score org_stats;
           org_historical_fraud_rate := s_historical_fraud_rate org_stats;
           org_claim_volume_30d := s_claim_volume_30d org_stats;
           amount_vs_org_avg := amount_vs_org;
           amount_vs_procedure_avg := amount_vs_proc;
           is_weekend_admission := Z.b2z (is_weekend env claim);
           Ensemble.is_holiday := Z.b2z (is_holiday env claim);
           has_high_value_procedures := Z.b2z high_value;
           duplicate_claim_flag :=
             Z.b2z (Features.check_duplicate
                      (option_map (fun t => map to_claim_row (claims t)) db)
                      (timestamp (utcnow env)) (claim_row_of claim));
           rapid_readmission := Z.b2z (check_rapid_readmission env db claim);
           unusual_provider_combo := 0;
           nlp_inconsistency_score := nlp_inconsistency;
           nlp_urgency_score := 0%Q;
           ocr_completeness_score := completeness;
           missing_required_fields := missing_fields |}
  end.

End FeatureBuilder.

(** ** [app/tasks/ai_tasks.py]: the organisation trust score *)

Module OrgTrust.

Local Open Scope string_scope.
Local Open Scope Q_scope.

(** The columns of [claims] that [recompute_trust_scores] selects, with
    the two it filters on. *)
Record ClaimRow := mkClaimRow {
  hospital_org_id : string;
  created_at : Z;
  status : string;
  fraud_probability : option Q;
  sla_breached : bool;
  trust_score : option Q
}.

Record OrgRow := mkOrgRow {
  org_id : string;
  org_trust_score : Q
}.

(** An entry of [organization_trust_scores]. *)
Record HistoryRow := mkHistoryRow {
  organization_id : string;
  score : Q;
  previous_score : Q;
  claim_sample_size : Z
}.

Record Store := mkStore {
  organizations : list OrgRow;
  claims : list ClaimRow;
  organization_trust_scores : list HistoryRow
}.

Definition count {A : Type} (p : A -> bool) (l : list A) : Q :=
  inject_Z (Z.of_nat (length (filter p l))).

(** [(x or d)] for a float that may be [None]. *)
Definition or_default (x : option Q) (d : Q) : Q :=
  match x with
  | Some v => if Qeq_bool v 0 then d else v
  | None => d
  end.

(** The score computed from a non-empty sample of claims. *)
Definition new_score_of (sample : list ClaimRow) : Q :=
  let total := inject_Z (Z.of_nat (length sample)) in
  let approved :=
    count (fun c => String.eqb (status c) "approved"
                    || String.eqb (status c) "partially_approved") sample in
  let fraud_flags :=
    count (fun c => Ensemble.Qgt_bool (or_default (fraud_probability c) 0) 0.7) sample in
  let sla_breaches := count sla_breached sample in
  let avg_trust := qsum (map (fun c => or_default (trust_score c) 50) sample) / total in
  let approval_rate := approved / total in
  let fraud_rate := fraud_flags / total in
  let sla_compliance := 1 - sla_breaches / total in
  let doc_quality := Qmin 1 (avg_trust / 100) in
  py_round (approval_rate * 40 + (1 - fraud_rate) * 30 + sla_compliance * 20
            + doc_quality * 10) 2.

(** [recompute_trust_scores] on a reachable store; [now] is
    [datetime.utcnow()] in seconds. *)
Definition recompute_trust_scores (now : Z) (s : Store) (org : string) : Store :=
  let cutoff := (now - Features.timedelta_days 180)%Z in
  let sample :=
    filter (fun c => String.eqb (hospital_org_id c) org && (cutoff <=? created_at c)%Z)
           (claims s) in
  if negb (Py.truthy_list sample) then s
  else
    let new_score := new_score_of sample in
    let old_score :=
      match find (fun o => String.eqb (org_id o) org) (organizations s) with
      | Some o => org_trust_score o
      | None => 50
      end in
    {| organizations :=
         map (fun o => if String.eqb (org_id o) org then mkOrgRow (org_id o) new_score else o)
             (organizations s);
       claims := claims s;
       organization_trust_scores :=
         Py.append (organization_trust_scores s)
           (mkHistoryRow org new_score old_score (Z.of_nat (length sample))) |}.

End OrgTrust.

(** ** [ensemble_engine.py]: lazy loading of the models *)

Module Loader.

(** What loading one artifact yields: the object, [FileNotFoundError] /
    [ImportError], or any other exception. *)
Inductive Loaded (A : Type) : Type :=
| Ok (a : A)
| Missing
| Broken.

Arguments Ok {A} a.
Arguments Missing {A}.
Arguments Broken {A}.

(** The world outside the engine at the time of a call: whether [joblib]
    imports, what the three pickles give, what [spacy.load] gives ([None]
    for any exception), and what loading the Keras autoencoder gives. *)
Record Artifacts := mkArtifacts {
  joblib_available : bool;
  xgb_file : Loaded Ensemble.Model;
  rf_file : Loaded Ensemble.Model;
  isolation_file : Loaded Ensemble.Model;
  spacy_model : option (string -> option (list (string * string)));
  autoencoder_model : option Ensemble.Model
}.

(** The fields of [EnsembleIntelligenceEngine] that [_load_models] sets. *)
Record EngineState := mkEngineState {
  xgb_model : option Ensemble.Model;
  rf_model : option Ensemble.Model;
  isolation_model : option Ensemble.Model;
  nlp_pipeline : option (string -> option (list (string * string)));
  models_loaded : bool
}.

(** [__init__]. *)
Definition init : EngineState := mkEngineState None None None None false.

Definition reset_sklearn (st : EngineState) : EngineState :=
  mkEngineState None None None (nlp_pipeline st) (models_loaded st).

(** [_load_sklearn_models]; the boolean tells whether an exception left
    the method. *)
Definition load_sklearn_models (A : Artifacts) (st : EngineState) : EngineState * bool :=
  if negb (joblib_available A) then (reset_sklearn st, false)
  else
    match xgb_file A with
    | Missing => (reset_sklearn st, false)
    | Broken => (st, true)
    | Ok x =>
        let st := mkEngineState (Some x) (rf_model st) (isolation_model st)
                                (nlp_pipeline st) (models_loaded st) in
        match rf_file A with
        | Missing => (reset_sklearn st, false)
        | Broken => (st, true)
        | Ok r =>
            let st := mkEngineState (xgb_model st) (Some r) (isolation_model st)
                                    (nlp_pipeline st) (models_loaded st) in
            match isolation_file A with
            | Missing => (reset_sklearn st, false)
            | Broken => (st, true)
            | Ok i =>
                (mkEngineState (xgb_model st) (rf_model st) (Some i)
                               (nlp_pipeline st) (models_loaded st), false)
            end
        end
    end.

(** [_load_nlp_pipeline]. *)
Definition load_nlp_pipeline (A : Artifacts) (st : EngineState) : EngineState :=
  mkEngineState (xgb_model st) (rf_model st) (isolation_model st)
                (spacy_model A) (models_loaded st).

Definition set_loaded (st : EngineState) : EngineState :=
  mkEngineState (xgb_model st) (rf_model st) (isolation_model st) (nlp_pipeline st) true.

(** [_load_models]. *)
Definition load_models (A : Artifacts) (st : EngineState) : EngineState :=
  if models_loaded st then st
  else
    let '(st1, raised) := load_sklearn_models A st in
    if raised then set_loaded st1
    else set_loaded (load_nlp_pipeline A st1).

(** The adapters as [analyze] sees them after [_load_models]; the
    autoencoder is loaded afresh on every call. *)
Definition to_engine (A : Artifacts) (st : EngineState) : Ensemble.Engine :=
  Ensemble.mkEngine (xgb_model st) (rf_model st) (isolation_model st)
                    (autoencoder_model A) (nlp_pipeline st).

(** [analyze], with the engine state threaded through. *)
Definition analyze (A : Artifacts) (st : EngineState)
    (features : Ensemble.ClaimFeatures) (nlp_text : string)
  : EngineState * Ensemble.EnsembleResult :=
  let st' := load_models A st in
  (st', Ensemble.analyze (to_engine A st') features nlp_text).

End Loader.

(** ** Further concrete inputs *)

Module Samples.

Local Open Scope string_scope.
Local Open Scope Q_scope.

(** A named-entity pass that finds six dates and one person. *)
Definition six_dates : list (string * string) :=
  [ ("DATE", "2 March"); ("PERSON", "Dr Rao"); ("DATE", "3 March");
    ("DATE", "4 March"); ("DATE", "5 March"); ("DATE", "6 March");
    ("DATE", "9 March") ].

Definition dated_engine : Ensemble.Engine :=
  Ensemble.mkEngine None None None None (Some (fun _ => Some six_dates)).


(** Patterns that find one diagnosis code (twice, in two cases), one
    procedure code, one provider number and a declared authorization. *)
Definition full_match : Extraction.Patterns :=
  Extraction.mkPatterns
    (fun _ => ["j18.9"; "J18.9"]) (fun _ => ["99213"]) (fun _ => ["1234567890"])
    (fun _ => []) (fun _ => true) (fun _ => false).

(** A fixed clock and parsers that read two known dates. *)
Definition noon (ordinal month day : Z) : FeatureBuilder.DateTime :=
  FeatureBuilder.mkDateTime ordinal 43200 month day.

Definition sample_env : FeatureBuilder.Env :=
  FeatureBuilder.mkEnv
    (noon 739000 4 20)
    (fun s => if String.eqb s "2024-04-01" then Some (noon 738977 4 1)
              else if String.eqb s "2024-04-05" then Some (noon 738981 4 5)
              else None)
    (fun _ => None).

(** A claim admitted on the first and discharged on the fifth, and a store
    with an earlier stay of the same patient that ended two days before. *)
Definition sample_claim : FeatureBuilder.ClaimInput :=
  FeatureBuilder.mkClaimInput
    "c2" (Some "p1") "org1" 6000 ["99213"; "27447"; "36415"; "80050"] ["J18.9"]
    (Some "2024-04-01") (Some "2024-04-05") (Some 61%Z).

Definition sample_tables : FeatureBuilder.Tables :=
  FeatureBuilder.mkTables
    [FeatureBuilder.mkOrgRow "org1" (Some 72)]
    [ FeatureBuilder.mkRow "c1" (Some "p1") "org1" ["99213"; "27447"; "36415"]
        (738990 * 86400)%Z (Some 2000) (Some 0.9) (Some (738975 * 86400)%Z);
      FeatureBuilder.mkRow "c0" (Some "p9") "org1" ["99213"]
        (738995 * 86400)%Z (Some 4000) None None ].

Definition empty_code_claim : FeatureBuilder.ClaimInput :=
  FeatureBuilder.mkClaimInput "c3" (Some "p1") "org1" 100 [""; "36415"] [] None None None.

(** A store whose only document carries neither text nor data. *)
Definition blank_store : Revalidation.Store :=
  Revalidation.mkStore
    [Scenario.submitted_claim]
    [Revalidation.mkDocument "d9" "c2" None None]
    false None.

(** The feature builder of the repository behind the service, on a store
    it cannot reach and with the fixed clock; and a store whose claim
    lists an empty procedure code. *)
Definition claim_input_of (c : Revalidation.Claim) : FeatureBuilder.ClaimInput :=
  FeatureBuilder.mkClaimInput
    (Revalidation.id c) None "org1" 0
    (Revalidation.procedure_codes c) (Revalidation.diagnosis_codes c) None None None.

Definition with_builder : Revalidation.Collaborators :=
  Revalidation.mkCollaborators
    Scenario.no_match Ensemble.fallback_engine
    (fun c ocr_data =>
       FeatureBuilder.build_features sample_env None (claim_input_of c) (Some ocr_data) 0)
    (fun _ => "{}") (fun t => t).

Definition empty_code_store : Revalidation.Store :=
  Revalidation.mkStore
    [Revalidation.mkClaim "c3" (Some "draft") [] [""] None None None None]
    [Revalidation.mkDocument "d3" "c3" (Some "discharge summary") None]
    true (Some []).

(** The results of the cycles on the submitted claim of the two stores. *)
Definition result_of (o : Revalidation.Outcome) : Revalidation.Revalidated :=
  match o with
  | Revalidation.Done r => r
  | _ => Revalidation.mkRevalidated "" "" "" false "" [] [] "" 0 0
  end.

Definition submitted_result : Revalidation.Revalidated :=
  result_of (snd (Revalidation.revalidate_claim Scenario.plain Scenario.store "c2")).

Definition blank_result : Revalidation.Revalidated :=
  result_of (snd (Revalidation.revalidate_claim Scenario.plain blank_store "c2")).

Definition draft_result : Revalidation.Revalidated :=
  result_of (snd (Revalidation.revalidate_claim Scenario.plain Scenario.store "c1")).

(** An organisation with two recent claims, one approved and one flagged. *)
Definition org_store : OrgTrust.Store :=
  OrgTrust.mkStore
    [OrgTrust.mkOrgRow "org1" 72]
    [ OrgTrust.mkClaimRow "org1" 1000 "approved" (Some 0.1) false (Some 90);
      OrgTrust.mkClaimRow "org1" 2000 "rejected" (Some 0.9) true None ]
    [].

(** No artifact on disk at first, then all of them. *)
Definition nothing_on_disk : Loader.Artifacts :=
  Loader.mkArtifacts true Loader.Missing Loader.Missing Loader.Missing None None.

Definition all_on_disk : Loader.Artifacts :=
  Loader.mkArtifacts true
    (Loader.Ok (fun _ => Some 1)) (Loader.Ok (fun _ => Some 0)) (Loader.Ok (fun _ => Some 1))
    (Some (fun _ => Some [])) None.

(** Float conversions good enough to run the examples. *)
Definition plain_formats : Report.Formats :=
  Report.mkFormats (fun _ => "6.2") (fun _ => "79.75").

End Samples.

(** ** Views used to state properties *)

Module Views.

Local Open Scope string_scope.

(** Strict order of strings by code point. *)
Definition str_lt (a b : string) : Prop := String.compare a b = Lt.

(** The texts of the entities carrying [label], in document order. *)
Definition texts_with_label (label : string) (ents : list (string * string)) : list string :=
  map snd (filter (fun ent => String.eqb (fst ent) label) ents).

(** The text a cycle assembles from the documents of the claim, and the
    OCR mapping it merges from them. *)
Definition cycle_text (K : Revalidation.Collaborators) (s : Revalidation.Store)
    (claim_id : string) : string :=
  Revalidation.strip K
    (Py.join (Revalidation.newline ++ Revalidation.newline)
       (fst (Revalidation.collect_documents K (Revalidation.select_documents s claim_id)))).

Definition cycle_ocr_data (K : Revalidation.Collaborators) (s : Revalidation.Store)
    (claim_id : string) : Revalidation.OcrData :=
  snd (Revalidation.collect_documents K (Revalidation.select_documents s claim_id)).

(** [claim.get("status") == "draft"]. *)
Definition is_draft (claim : Revalidation.Claim) : bool :=
  match Revalidation.status claim with
  | Some st => String.eqb st "draft"
  | None => false
  end.

(** What a cycle returns ([r]) and writes ([u]) once the claim, its
    documents and its features are there. *)
Record completes (K : Revalidation.Collaborators) (s : Revalidation.Store) (claim_id : string)
    (claim : Revalidation.Claim) (features : Ensemble.ClaimFeatures)
    (r : Revalidation.Revalidated) (u : Revalidation.UpdateData) : Prop := mkCompletes {
  done_run :
    Revalidation.revalidate_claim K s claim_id
    = (Revalidation.apply_async (Revalidation.update_claim s claim_id u) (Revalidation.follow_up claim_id), Revalidation.Done r);
  done_claim_id : Revalidation.r_claim_id r = claim_id;
  done_recommendation :
    Revalidation.r_recommendation r
    = Ensemble.recommendation
        (Ensemble.analyze (Revalidation.engine K) features (cycle_text K s claim_id));
  done_trust :
    Revalidation.r_trust_score r
    = Ensemble.trust_score
        (Ensemble.analyze (Revalidation.engine K) features (cycle_text K s claim_id));
  done_risks :
    Revalidation.r_detected_risks r
    = Extraction.detected_risks
        (Extraction.extract (Revalidation.patterns K) (cycle_text K s claim_id));
  done_policies :
    Revalidation.r_matched_policies r
    = Extraction.matched_policies
        (Extraction.extract (Revalidation.patterns K) (cycle_text K s claim_id));
  done_suggestion :
    Revalidation.r_reviewer_suggestion r
    = Revalidation.build_reviewer_suggestion (Revalidation.r_recommendation r) (Revalidation.r_detected_risks r);
  done_eligible :
    Revalidation.r_auto_approval_eligible r
    = (String.eqb (Revalidation.r_recommendation r) "AUTO_APPROVE"
       && negb (Py.str_in "MISSING_AUTHORIZATION" (Revalidation.r_detected_risks r))
       && negb (Py.str_in "MISSING_PROVIDER_IDENTIFIER" (Revalidation.r_detected_risks r)));
  done_status :
    Revalidation.r_claim_status r
    = (if is_draft claim then "draft"
       else Revalidation.map_recommendation_to_status (Revalidation.r_recommendation r));
  done_stage :
    Revalidation.r_workflow_stage r
    = (if is_draft claim then "pre_submission_revalidation"
       else if String.eqb (Revalidation.r_recommendation r) "AUTO_APPROVE"
            then "auto_approval_review" else "compliance_review");
  done_diagnosis_codes :
    Revalidation.u_diagnosis_codes u
    = (let facts := Extraction.extract (Revalidation.patterns K) (cycle_text K s claim_id) in
       if Py.truthy_list (Extraction.diagnosis_codes facts)
       then Extraction.diagnosis_codes facts else Revalidation.diagnosis_codes claim);
  done_procedure_codes :
    Revalidation.u_procedure_codes u
    = (let facts := Extraction.extract (Revalidation.patterns K) (cycle_text K s claim_id) in
       if Py.truthy_list (Extraction.procedure_codes facts)
       then Extraction.procedure_codes facts else Revalidation.procedure_codes claim);
  done_u_trust : Revalidation.u_trust_score u = Revalidation.r_trust_score r;
  done_u_recommendation : Revalidation.u_ai_recommendation u = Revalidation.r_recommendation r;
  done_u_status : Revalidation.u_status u = Revalidation.r_claim_status r;
  done_u_intelligence :
    Revalidation.u_intelligence u
    = Revalidation.mkIntelligence (Revalidation.r_matched_policies r) (Revalidation.r_detected_risks r)
        (Revalidation.r_reviewer_suggestion r) (Revalidation.r_workflow_stage r) (Revalidation.r_auto_approval_eligible r)
}.

(** A document that carries neither text nor OCR data. *)
Definition textless (d : Revalidation.Document) : Prop :=
  (Revalidation.ocr_text d = None \/ Revalidation.ocr_text d = Some "")
  /\ Revalidation.ocr_data d = None.

(** The impacts of a list of risk factors increase strictly. *)
Fixpoint ascending (zs : list Z) : bool :=
  match zs with
  | a :: (b :: _) as rest => (a <? b)%Z && ascending rest
  | _ => true
  end.

Definition impact_lt (a b : Report.RiskFactor) : Prop :=
  (Report.impact a < Report.impact b)%Z.

Definition impact_le (a b : Report.RiskFactor) : Prop :=
  (Report.impact a <= Report.impact b)%Z.

(** A test holds of every integer from [a] to [b]. *)
Definition between (a b : Z) (p : Z -> bool) : bool :=
  forallb p (map (fun i => (a + Z.of_nat i)%Z) (seq 0 (Z.to_nat (b - a + 1)))).

(** Keeping the entries whose test holds, in order. *)
Definition fired {A : Type} (checks : list (bool * A)) : list A :=
  flat_map (fun p : bool * A => if fst p then [snd p] else []) checks.

(** One of the seven negative checks of the risk checklist fires. *)
Definition negative_check_fires (features : Ensemble.ClaimFeatures) (xgb iso : Q) : bool :=
  negb (Ensemble.duplicate_claim_flag features =? 0)%Z
  || negb (Ensemble.rapid_readmission features =? 0)%Z
  || Ensemble.Qgt_bool (Ensemble.amount_vs_org_avg features) 2.5
  || (0 <? Ensemble.missing_required_fields features)%Z
  || Ensemble.Qgt_bool (Ensemble.org_historical_fraud_rate features) 0.10
  || Ensemble.Qgt_bool xgb 0.7
  || Ensemble.Qgt_bool iso 0.65.

End Views.

(** * Properties *)

(** ** Lemmas on the numeric primitives *)

Section NumFacts.



Lemma np_clip_bounds x lo hi : lo <= hi -> lo <= np_clip x lo hi <= hi.
Proof.
  intros H. unfold np_clip. split.
  - apply Q.min_glb; [apply Q.le_max_r | exact H].
  - apply Q.le_min_r.
Qed.


Lemma round_half_even_comp x y : x == y -> round_half_even x = round_half_even y.
Proof.
  intros E. unfold round_half_even.
  rewrite (Qfloor_comp _ _ E).
  assert (E' : x - inject_Z (Qfloor y) == y - inject_Z (Qfloor y)) by now rewrite E.
  now rewrite (Qcompare_comp _ _ E' (1 # 2) (1 # 2) (Qeq_refl _)).
Qed.

Lemma round_half_even_range x :
  (Qfloor x <= round_half_even x <= Qfloor x + 1)%Z.
Proof.
  unfold round_half_even.
  destruct (Qcompare (x - inject_Z (Qfloor x)) (1 # 2)); try destruct (Z.even (Qfloor x)); lia.
Qed.

Lemma round_half_even_mono x y : x <= y -> (round_half_even x <= round_half_even y)%Z.
Proof.
  intros H.
  pose proof (Qfloor_resp_le _ _ H) as Hf.
  destruct (Z.eq_dec (Qfloor x) (Qfloor y)) as [E | NE].
  - unfold round_half_even. rewrite E.
    set (f := Qfloor y).
    assert (Hr : x - inject_Z f <= y - inject_Z f) by lra.
    destruct (Qcompare (x - inject_Z f) (1 # 2)) eqn:Cx;
      destruct (Qcompare (y - inject_Z f) (1 # 2)) eqn:Cy;
      try destruct (Z.even f); try lia; exfalso;
      first [ apply Qeq_alt in Cx | apply Qlt_alt in Cx | apply Qgt_alt in Cx ];
      first [ apply Qeq_alt in Cy | apply Qlt_alt in Cy | apply Qgt_alt in Cy ];
      lra.
  - pose proof (round_half_even_range x). pose proof (round_half_even_range y). lia.
Qed.

Lemma round_half_even_Z n : round_half_even (inject_Z n) = n.
Proof.
  unfold round_half_even. rewrite Qfloor_Z.
  assert (E : inject_Z n - inject_Z n == 0) by ring.
  rewrite (Qcompare_comp _ _ E (1 # 2) (1 # 2) (Qeq_refl _)). reflexivity.
Qed.

Lemma pow10_pos k : (0 < pow10 k)%Z.
Proof. unfold pow10. apply Z.pow_pos_nonneg; lia. Qed.

Lemma inject_pow10_pos k : 0 < inject_Z (pow10 k).
Proof. change 0 with (inject_Z 0). rewrite <- Zlt_Qlt. apply pow10_pos. Qed.

Lemma py_round_comp x y k : x == y -> py_round x k == py_round y k.
Proof.
  intros E. unfold py_round.
  rewrite (round_half_even_comp (x * inject_Z (pow10 k)) (y * inject_Z (pow10 k))).
  - reflexivity.
  - now rewrite E.
Qed.

Lemma py_round_mono x y k : x <= y -> py_round x k <= py_round y k.
Proof.
  intros H. unfold py_round.
  pose proof (inject_pow10_pos k) as Hp.
  apply Qmult_le_compat_r.
  - rewrite <- Zle_Qle. apply round_half_even_mono.
    apply Qmult_le_compat_r; [exact H | now apply Qlt_le_weak].
  - apply Qlt_le_weak. now apply Qinv_lt_0_compat.
Qed.

(** A value that already has at most [k] decimals is left alone. *)
Lemma py_round_exact n k : py_round (inject_Z n / inject_Z (pow10 k)) k == inject_Z n / inject_Z (pow10 k).
Proof.
  unfold py_round.
  pose proof (inject_pow10_pos k) as Hp.
  rewrite (round_half_even_comp _ (inject_Z n)).
  - now rewrite round_half_even_Z.
  - field. intros E. rewrite E in Hp. now apply Qlt_irrefl in Hp.
Qed.

(** The rounded integer is a nearest one, and on a tie the even one. *)
Lemma round_half_even_nearest x : Qabs (inject_Z (round_half_even x) - x) <= 1 # 2.
Proof.
  pose proof (Qfloor_le x) as Hlo. pose proof (Qlt_floor x) as Hhi.
  rewrite inject_Z_plus in Hhi. change (inject_Z 1) with 1 in Hhi.
  apply Qabs_Qle_condition.
  unfold round_half_even.
  destruct (Qcompare (x - inject_Z (Qfloor x)) (1 # 2)) eqn:C;
    first [ apply Qeq_alt in C | apply Qlt_alt in C | apply Qgt_alt in C ].
  - destruct (Z.even (Qfloor x)).
    + split; lra.
    + rewrite inject_Z_plus. change (inject_Z 1) with 1. split; lra.
  - split; lra.
  - rewrite inject_Z_plus. change (inject_Z 1) with 1. split; lra.
Qed.

Lemma round_half_even_tie x :
  Qabs (inject_Z (round_half_even x) - x) == 1 # 2 -> Z.even (round_half_even x) = true.
Proof.
  pose proof (Qfloor_le x) as Hlo. pose proof (Qlt_floor x) as Hhi.
  rewrite inject_Z_plus in Hhi. change (inject_Z 1) with 1 in Hhi.
  unfold round_half_even.
  destruct (Qcompare (x - inject_Z (Qfloor x)) (1 # 2)) eqn:C;
    first [ apply Qeq_alt in C | apply Qlt_alt in C | apply Qgt_alt in C ].
  - intros _. destruct (Z.even (Qfloor x)) eqn:E; [exact E|].
    rewrite Z.add_1_r, Z.even_succ, <- Z.negb_even, E. reflexivity.
  - intros H. exfalso.
    rewrite Qabs_neg in H by lra. lra.
  - intros H. exfalso.
    rewrite inject_Z_plus in H. change (inject_Z 1) with 1 in H.
    rewrite Qabs_pos in H by lra. lra.
Qed.

End NumFacts.

Lemma py_round_within a b x k :
  inject_Z a / inject_Z (pow10 k) <= x <= inject_Z b / inject_Z (pow10 k) ->
  inject_Z a / inject_Z (pow10 k) <= py_round x k <= inject_Z b / inject_Z (pow10 k).
Proof.
  intros [Ha Hb]. split.
  - rewrite <- (py_round_exact a k). now apply py_round_mono.
  - rewrite <- (py_round_exact b k). now apply py_round_mono.
Qed.


(** ** The ensemble scorer *)

Section EnsembleFacts.

Import Ensemble.
Local Open Scope string_scope.
Local Open Scope Q_scope.

Lemma WEIGHTS_keys_present :
  dict_get WEIGHTS "xgboost" = Some 0.30 /\
  dict_get WEIGHTS "rf" = Some 0.25 /\
  dict_get WEIGHTS "isolation" = Some 0.20 /\
  dict_get WEIGHTS "autoencoder" = Some 0.15 /\
  dict_get WEIGHTS "nlp" = Some 0.10.
Proof. repeat split; reflexivity. Qed.



Lemma compute_trust_score_range xgb rf iso ae nlp :
  0 <= compute_trust_score xgb rf iso ae nlp <= 100.
Proof.
  unfold compute_trust_score.
  set (x := np_clip _ 0 100).
  assert (Hx : 0 <= x <= 100) by (apply np_clip_bounds; lra).
  destruct (py_round_within 0 10000 x 2) as [H1 H2].
  - destruct Hx as [Hx1 Hx2]. split.
    + eapply Qle_trans; [|exact Hx1]. vm_compute. discriminate.
    + eapply Qle_trans; [exact Hx2|]. vm_compute. discriminate.
  - split.
    + eapply Qle_trans; [|exact H1]. vm_compute. discriminate.
    + eapply Qle_trans; [exact H2|]. vm_compute. discriminate.
Qed.




End EnsembleFacts.

(** ** The scores as doubles *)

Section Binary64Facts.

Import Binary64.
Local Open Scope string_scope.
Local Open Scope Q_scope.

(** [round(x, n)] returns the double nearest to [k / 10^n], where [k] is
    an integer nearest to [x * 10^n], the even one on a tie. *)
Lemma py_round_nearest_decimal (x : float) (ndigits : nat) :
  match value x with
  | Some q =>
      exists k : Z,
        Qabs (inject_Z k - q * inject_Z (pow10 ndigits)) <= 1 # 2
        /\ (Qabs (inject_Z k - q * inject_Z (pow10 ndigits)) == 1 # 2 -> Z.even k = true)
        /\ py_round x ndigits
           = (if (k =? 0)%Z then (x * 0)%float else nearest_double k (pow10 ndigits))
  | None => py_round x ndigits = x
  end.
Proof.
  unfold py_round. destruct (value x) as [q|]; [|reflexivity].
  exists (round_half_even (q * inject_Z (pow10 ndigits))).
  split; [apply round_half_even_nearest|].
  split; [apply round_half_even_tie | reflexivity].
Qed.

(** [np.clip] by cases, for bounds that are numbers with [lo < hi]. *)
Lemma np_clip_cases (x lo hi : float) :
  PrimFloat.is_nan lo = false -> PrimFloat.ltb lo hi = true ->
  np_clip x lo hi
  = if PrimFloat.is_nan x then x
    else if PrimFloat.ltb lo x
         then if PrimFloat.ltb x hi then x else hi
         else lo.
Proof.
  intros Hlo Hlt. unfold np_clip, np_max, np_min.
  destruct (PrimFloat.is_nan x) eqn:Hx.
  - now rewrite Hx.
  - destruct (PrimFloat.ltb lo x).
    + now rewrite Hx.
    + now rewrite Hlo, Hlt.
Qed.

(** The bit length of a positive number brackets it between two powers
    of two. *)
Lemma digits2_pos_bounds (m : positive) :
  (2 ^ (Z.pos (digits2_pos m) - 1) <= Z.pos m < 2 ^ Z.pos (digits2_pos m))%Z.
Proof.
  induction m as [p IH | p IH |]; cbn [digits2_pos].
  - rewrite Pos2Z.inj_succ.
    replace (Z.succ (Z.pos (digits2_pos p)) - 1)%Z
      with (Z.succ (Z.pos (digits2_pos p) - 1)) by lia.
    rewrite !Z.pow_succ_r by lia. lia.
  - rewrite Pos2Z.inj_succ.
    replace (Z.succ (Z.pos (digits2_pos p)) - 1)%Z
      with (Z.succ (Z.pos (digits2_pos p) - 1)) by lia.
    rewrite !Z.pow_succ_r by lia. lia.
  - cbn. lia.
Qed.

Lemma pow2_pos e : 0 < pow2 e.
Proof. unfold pow2. apply Qpower_0_lt. reflexivity. Qed.

Lemma pow2_plus a b : pow2 (a + b) == pow2 a * pow2 b.
Proof. unfold pow2. apply Qpower_plus. discriminate. Qed.

Lemma pow2_Z e : (0 <= e)%Z -> pow2 e == inject_Z (2 ^ e).
Proof. intros H. unfold pow2. symmetry. now apply (Zpower_Qpower 2 e). Qed.

(** The significand of a double and its exponent determine each other:
    at most 53 bits, and exactly 53 above the subnormal exponent. *)
Lemma finite_canonical (x : float) (s : bool) (m : positive) (e : Z) :
  Prim2SF x = S754_finite s m e ->
  (Z.pos m < 2 ^ 53)%Z
  /\ ((-1074 <= e)%Z /\ ((-1074 < e)%Z -> (2 ^ 52 <= Z.pos m)%Z)).
Proof.
  intros Hx. pose proof (Prim2SF_valid x) as Hv. rewrite Hx in Hv.
  cbn [SpecFloat.valid_binary] in Hv. unfold bounded in Hv.
  apply andb_true_iff in Hv. destruct Hv as [Hc _].
  unfold canonical_mantissa, fexp, SpecFloat.emin in Hc.
  apply Z.eqb_eq in Hc.
  change prec with 53%Z in Hc. change emax with 1024%Z in Hc.
  pose proof (digits2_pos_bounds m) as [Hlo Hhi].
  set (d := Z.pos (digits2_pos m)) in *.
  assert (Hd : (d <= 53)%Z) by lia.
  split; [|split].
  - eapply Z.lt_le_trans; [exact Hhi|]. apply Z.pow_le_mono_r; lia.
  - lia.
  - intros He. assert (d = 53)%Z by lia. subst d.
    replace (2 ^ 52)%Z with (2 ^ (Z.pos (digits2_pos m) - 1))%Z; [exact Hlo|].
    now rewrite H.
Qed.

(** Two positive doubles compare as their exponents do, and by their
    significands when these agree. *)
Lemma finite_lt_exponent (x y : float) sx sy (m1 m2 : positive) (e1 e2 : Z) :
  Prim2SF x = S754_finite sx m1 e1 -> Prim2SF y = S754_finite sy m2 e2 ->
  (e1 < e2)%Z ->
  inject_Z (Z.pos m1) * pow2 e1 < inject_Z (Z.pos m2) * pow2 e2.
Proof.
  intros Hx Hy He.
  destruct (finite_canonical x sx m1 e1 Hx) as (H1 & Hmin1 & _).
  destruct (finite_canonical y sy m2 e2 Hy) as (_ & _ & H2).
  specialize (H2 ltac:(lia)).
  replace e2 with (e1 + (e2 - e1))%Z by lia.
  rewrite pow2_plus, (pow2_Z (e2 - e1)) by lia.
  pose proof (pow2_pos e1) as Hp.
  assert (Hz : (Z.pos m1 < Z.pos m2 * 2 ^ (e2 - e1))%Z).
  { assert (2 ^ 1 <= 2 ^ (e2 - e1))%Z by (apply Z.pow_le_mono_r; lia).
    change (2 ^ 1)%Z with 2%Z in H. change (2 ^ 53)%Z with (2 ^ 52 * 2)%Z in H1. nia. }
  rewrite Zlt_Qlt, inject_Z_mult in Hz.
  setoid_replace (inject_Z (Z.pos m2) * (pow2 e1 * inject_Z (2 ^ (e2 - e1))))
    with (inject_Z (Z.pos m2) * inject_Z (2 ^ (e2 - e1)) * pow2 e1) by ring.
  now apply Qmult_lt_compat_r.
Qed.

Lemma finite_lt_significand (m1 m2 : positive) (e : Z) :
  (m1 < m2)%positive ->
  inject_Z (Z.pos m1) * pow2 e < inject_Z (Z.pos m2) * pow2 e.
Proof.
  intros H. apply Qmult_lt_compat_r; [apply pow2_pos|].
  rewrite <- Zlt_Qlt. exact H.
Qed.

(** [x < y] on doubles is [<] on the values they stand for. *)
Lemma ltb_value (x y : float) (qx qy : Q) :
  value x = Some qx -> value y = Some qy ->
  PrimFloat.ltb x y = true -> qx < qy.
Proof.
  unfold value. rewrite ltb_spec. unfold SFltb.
  destruct (Prim2SF x) as [sx | sx | | sx m1 e1] eqn:Hx; try discriminate;
    destruct (Prim2SF y) as [sy | sy | | sy m2 e2] eqn:Hy; try discriminate;
    intros [= <-] [= <-]; cbn [SFcompare].
  - destruct sy; [discriminate|]. intros _.
    apply Qmult_lt_0_compat; [reflexivity | apply pow2_pos].
  - destruct sx; [|discriminate]. intros _.
    setoid_replace (inject_Z (Z.neg m1) * pow2 e1)
      with (- (inject_Z (Z.pos m1) * pow2 e1))
      by (change (Z.neg m1) with (- Z.pos m1)%Z; rewrite inject_Z_opp; ring).
    assert (0 < inject_Z (Z.pos m1) * pow2 e1)
      by (apply Qmult_lt_0_compat; [reflexivity | apply pow2_pos]).
    lra.
  - assert (P1 : 0 < inject_Z (Z.pos m1) * pow2 e1)
      by (apply Qmult_lt_0_compat; [reflexivity | apply pow2_pos]).
    assert (P2 : 0 < inject_Z (Z.pos m2) * pow2 e2)
      by (apply Qmult_lt_0_compat; [reflexivity | apply pow2_pos]).
    assert (N1 : inject_Z (Z.neg m1) * pow2 e1 == - (inject_Z (Z.pos m1) * pow2 e1))
      by (change (Z.neg m1) with (- Z.pos m1)%Z; rewrite inject_Z_opp; ring).
    assert (N2 : inject_Z (Z.neg m2) * pow2 e2 == - (inject_Z (Z.pos m2) * pow2 e2))
      by (change (Z.neg m2) with (- Z.pos m2)%Z; rewrite inject_Z_opp; ring).
    destruct sx, sy.
    + destruct (Z.compare_spec e1 e2) as [E | E | E]; try discriminate.
      * subst e2. change (Pos.compare_cont Eq m1 m2) with (Pos.compare m1 m2).
        destruct (Pos.compare_spec m1 m2) as [M | M | M]; try discriminate.
        intros _. rewrite N1, N2.
        pose proof (finite_lt_significand m2 m1 e1 M). lra.
      * intros _. rewrite N1, N2.
        pose proof (finite_lt_exponent y x _ _ m2 m1 e2 e1 Hy Hx E). lra.
    + intros _. rewrite N1. lra.
    + discriminate.
    + destruct (Z.compare_spec e1 e2) as [E | E | E]; try discriminate.
      * subst e2. change (Pos.compare_cont Eq m1 m2) with (Pos.compare m1 m2).
        destruct (Pos.compare_spec m1 m2) as [M | M | M]; try discriminate.
        intros _. now apply finite_lt_significand.
      * intros _. exact (finite_lt_exponent x y _ _ m1 m2 e1 e2 Hx Hy E).
Qed.

(** A double strictly between two finite doubles is finite. *)
Lemma between_finite (lo x hi : float) (ql qh : Q) :
  value lo = Some ql -> value hi = Some qh ->
  PrimFloat.ltb lo x = true -> PrimFloat.ltb x hi = true ->
  exists q, value x = Some q.
Proof.
  unfold value. rewrite !ltb_spec. unfold SFltb.
  destruct (Prim2SF x) as [sx | sx | | sx m e]; eauto;
    destruct (Prim2SF lo) as [sl | sl | | sl ml el]; try discriminate;
    destruct (Prim2SF hi) as [sh | sh | | sh mh eh]; try discriminate;
    intros _ _; cbn [SFcompare]; destruct sx; discriminate.
Qed.


(** A finite double is not NaN. *)
Lemma value_not_nan (x : float) (q : Q) : value x = Some q -> PrimFloat.is_nan x = false.
Proof.
  unfold value, PrimFloat.is_nan. rewrite eqb_spec. unfold SFeqb.
  destruct (Prim2SF x) as [s | s | | s m e]; try discriminate; intros _; cbn [SFcompare].
  - reflexivity.
  - rewrite Z.compare_refl.
    change (Pos.compare_cont Eq m m) with (Pos.compare m m).
    rewrite Pos.compare_refl. destruct s; reflexivity.
Qed.

(** A clipped number is a finite double between the bounds. *)
Lemma np_clip_value (x lo hi : float) (ql qh : Q) :
  value lo = Some ql -> value hi = Some qh -> PrimFloat.ltb lo hi = true ->
  PrimFloat.is_nan x = false ->
  exists q, value (np_clip x lo hi) = Some q /\ ql <= q <= qh.
Proof.
  intros Hlo Hhi Hlt Hx.
  pose proof (ltb_value lo hi ql qh Hlo Hhi Hlt) as Hq.
  rewrite (np_clip_cases x lo hi (value_not_nan lo ql Hlo) Hlt), Hx.
  destruct (PrimFloat.ltb lo x) eqn:H1.
  - destruct (PrimFloat.ltb x hi) eqn:H2.
    + destruct (between_finite lo x hi ql qh Hlo Hhi H1 H2) as [q Hv].
      exists q. split; [exact Hv|].
      pose proof (ltb_value lo x ql q Hlo Hv H1).
      pose proof (ltb_value x hi q qh Hv Hhi H2). split; lra.
    + exists qh. split; [exact Hhi|]. split; lra.
  - exists ql. split; [exact Hlo|]. split; lra.
Qed.

(** Rounding a finite double whose scaled value lies between two integers
    picks an integer between them. *)
Lemma py_round_between (c : float) (q : Q) (ndigits : nat) (a b : Z) :
  value c = Some q ->
  inject_Z a <= q * inject_Z (pow10 ndigits) <= inject_Z b ->
  exists k : Z,
    (a <= k <= b)%Z
    /\ py_round c ndigits
       = if (k =? 0)%Z then (c * 0)%float else nearest_double k (pow10 ndigits).
Proof.
  intros Hv [Ha Hb]. unfold py_round. rewrite Hv.
  exists (round_half_even (q * inject_Z (pow10 ndigits))).
  split; [|reflexivity]. split.
  - rewrite <- (round_half_even_Z a). now apply round_half_even_mono.
  - rewrite <- (round_half_even_Z b). now apply round_half_even_mono.
Qed.

Lemma between_spec (a b : Z) (p : Z -> bool) :
  Views.between a b p = true ->
  forall k : Z, (a <= k <= b)%Z -> p k = true.
Proof.
  unfold Views.between. rewrite forallb_forall. intros H k Hk.
  apply H. apply in_map_iff. exists (Z.to_nat (k - a)). split; [lia|].
  apply in_seq. lia.
Qed.

(** A finite double times zero is a zero. *)
Lemma times_zero (c : float) (q : Q) :
  value c = Some q -> exists s, Prim2SF (c * 0)%float = S754_zero s.
Proof.
  unfold value. rewrite mul_spec.
  change (Prim2SF 0%float) with (S754_zero false).
  destruct (Prim2SF c) as [s | s | | s m e]; try discriminate; intros _;
    eexists; reflexivity.
Qed.

(** C1.  On doubles, [_compute_trust_score] evaluates
    [(0.30 (1 - fraud) + 0.25 approval + 0.20 (1 - stat_anom)
    + 0.15 (1 - deep_anom) + 0.10 (1 - doc_inconsistency)) * 100] from left
    to right, clips it to [0, 100] (a value at or below 0 becomes 0, one at
    or above 100 becomes 100) and rounds it to two decimals: the result is
    the double nearest to [k / 100], where [k] is the integer nearest to a
    hundred times the exact clipped value, the even one on a tie.  Unless
    the sum is NaN, the result is a double between 0 and 100.  So the
    scores 0.2, 0.9, 0.1, 0.3, 0 give 85.0; 0.0005, 0.7, 0, 0.05, 0 give
    91.73 (the sum is just below 91.735); 0, 0.4898, 0, 0.15, 0 give 84.99;
    and the ties 0.125 and 0.375 go to 0.12 and 0.38. *)
Theorem C1_trust_score_formula :
  (forall fraud approval stat_anom deep_anom doc_inconsistency : float,
     let scaled :=
       ((0.30 * (1 - fraud) + 0.25 * approval + 0.20 * (1 - stat_anom)
         + 0.15 * (1 - deep_anom) + 0.10 * (1 - doc_inconsistency)) * 100)%float in
     let clipped :=
       if PrimFloat.is_nan scaled then scaled
       else if (0 <? scaled)%float
            then if (scaled <? 100)%float then scaled else 100%float
            else 0%float in
     let trust := compute_trust_score fraud approval stat_anom deep_anom doc_inconsistency in
     match value clipped with
     | Some q =>
         exists k : Z,
           Qabs (inject_Z k - q * 100) <= 1 # 2
           /\ (Qabs (inject_Z k - q * 100) == 1 # 2 -> Z.even k = true)
           /\ trust = (if (k =? 0)%Z then (clipped * 0)%float else nearest_double k 100)
     | None => trust = clipped
     end
     /\ (PrimFloat.is_nan scaled = false ->
         (0 <=? trust)%float = true /\ (trust <=? 100)%float = true))
  /\ compute_trust_score 0.2 0.9 0.1 0.3 0 = 85%float
  /\ compute_trust_score 0.0005 0.7 0 0.05 0 = 91.73%float
  /\ compute_trust_score 0 0.4898 0 0.15 0 = 84.99%float
  /\ compute_trust_score 1 0.005 1 1 1 = 0.12%float
  /\ compute_trust_score 1 0.015 1 1 1 = 0.38%float.
Proof.
  split; [|repeat split; vm_compute; reflexivity].
  intros fraud approval stat_anom deep_anom doc_inconsistency scaled clipped trust.
  assert (Htrust : trust = py_round (np_clip scaled 0 100) 2) by reflexivity.
  assert (Hclip : np_clip scaled 0 100 = clipped)
    by (apply (np_clip_cases scaled 0 100); reflexivity).
  split.
  - rewrite Htrust, Hclip. exact (py_round_nearest_decimal clipped 2).
  - intros Hnan.
    destruct (value 100%float) as [qh|] eqn:Hhi; [|discriminate Hhi].
    assert (Hqh : qh == 100) by (vm_compute in Hhi; injection Hhi as <-; reflexivity).
    destruct (np_clip_value scaled 0 100 0 qh eq_refl Hhi eq_refl Hnan)
      as (q & Hv & Hq0 & Hq1).
    rewrite Hclip in Hv.
    destruct (py_round_between clipped q 2 0 10000 Hv) as (k & Hk & Hres).
    { change (inject_Z (pow10 2)) with 100. change (inject_Z 0) with 0.
      change (inject_Z 10000) with 10000. split; lra. }
    rewrite Htrust, Hclip, Hres.
    destruct (Z.eqb_spec k 0) as [E | E].
    + destruct (times_zero clipped q Hv) as [s Hz].
      rewrite !leb_spec, Hz. split; reflexivity.
    + assert (Hall : Views.between 1 10000
                       (fun k => ((0 <=? nearest_double k 100)
                                  && (nearest_double k 100 <=? 100))%float) = true)
        by (vm_compute; reflexivity).
      apply andb_true_iff.
      exact (between_spec 1 10000 _ Hall k ltac:(lia)).
Qed.

(** The tie at 0.125, read off the theorem alone: the nearest integers to
    12.5 are 12 and 13, and the even one is kept. *)
Lemma C1_trust_score_formula_witness :
  compute_trust_score 1 0.005 1 1 1 = 0.12%float
  /\ (0 <=? compute_trust_score 1 0.005 1 1 1)%float = true.
Proof.
  destruct (proj1 C1_trust_score_formula 1 0.005 1 1 1)%float as [H Hrange].
  cbv zeta in H, Hrange.
  split; [|apply Hrange; vm_compute; reflexivity].
  match type of H with
  | match value ?c with _ => _ end =>
      replace c with 0.125%float in H by (vm_compute; reflexivity);
      replace (value 0.125%float) with (Some (4503599627370496 # 36028797018963968)) in H
        by (vm_compute; reflexivity)
  end.
  destruct H as (k & Hnear & Htie & Hres).
  assert (Hk : (k = 12 \/ k = 13)%Z).
  { apply Qabs_Qle_condition in Hnear. destruct Hnear as [Hlo Hhi].
    unfold Qle in Hlo, Hhi. cbn in Hlo, Hhi. lia. }
  destruct Hk as [-> | ->].
  - rewrite Hres. vm_compute. reflexivity.
  - assert (E : Z.even 13 = true) by (apply Htie; vm_compute; reflexivity).
    discriminate E.
Defined.

End Binary64Facts.

Section RecommendationFacts.

Import Ensemble.
Local Open Scope string_scope.
Local Open Scope Q_scope.

Lemma Qge_bool_true x y : Qge_bool x y = true <-> y <= x.
Proof. unfold Qge_bool. apply Qle_bool_iff. Qed.

Lemma Qge_bool_false x y : Qge_bool x y = false <-> x < y.
Proof.
  unfold Qge_bool. split; intros H.
  - apply Qnot_le_lt. intros L. apply Qle_bool_iff in L. congruence.
  - destruct (Qle_bool y x) eqn:E; [|reflexivity].
    apply Qle_bool_iff in E. exfalso. apply (Qlt_not_le _ _ H E).
Qed.


Lemma Qgt_bool_false x y : Qgt_bool x y = false <-> x <= y.
Proof.
  unfold Qgt_bool. rewrite negb_false_iff. apply Qle_bool_iff.
Qed.

(** C2.  [_determine_recommendation] answers AUTO_APPROVE exactly on
    [t >= 85], APPROVE_WITH_REVIEW exactly on [60 <= t < 85],
    COMPLIANCE_REVIEW_REQUIRED exactly on [40 <= t < 60] and HIGH_RISK_HOLD
    exactly on [t < 40]; the four boundary readings of the specification
    follow. *)
Theorem C2_recommendation_bands :
  (forall t : Q,
     (determine_recommendation t = "AUTO_APPROVE" <-> 85 <= t)
     /\ (determine_recommendation t = "APPROVE_WITH_REVIEW" <-> 60 <= t /\ t < 85)
     /\ (determine_recommendation t = "COMPLIANCE_REVIEW_REQUIRED" <-> 40 <= t /\ t < 60)
     /\ (determine_recommendation t = "HIGH_RISK_HOLD" <-> t < 40))
  /\ determine_recommendation 85.00 = "AUTO_APPROVE"
  /\ determine_recommendation 84.99 = "APPROVE_WITH_REVIEW"
  /\ determine_recommendation 60.00 = "APPROVE_WITH_REVIEW"
  /\ determine_recommendation 39.99 = "HIGH_RISK_HOLD".
Proof.
  split; [|repeat split; reflexivity].
  intros t. unfold determine_recommendation.
  destruct (Qge_bool t 85) eqn:E85;
    [apply Qge_bool_true in E85 | apply Qge_bool_false in E85];
    (destruct (Qge_bool t 60) eqn:E60;
       [apply Qge_bool_true in E60 | apply Qge_bool_false in E60]);
    (destruct (Qge_bool t 40) eqn:E40;
       [apply Qge_bool_true in E40 | apply Qge_bool_false in E40]);
    repeat split; intros; try discriminate; try tauto; try lra.
Qed.

End RecommendationFacts.

Section ConfidenceFacts.

Import Ensemble.
Local Open Scope Q_scope.

(** [analyze] hands [_compute_confidence] the four non-text scores. *)
Lemma analyze_confidence e features text :
  confidence (analyze e features text)
  = compute_confidence
      [ run_xgboost e (extract_feature_vector features);
        run_random_forest e (extract_feature_vector features);
        run_isolation_forest e (extract_feature_vector features);
        run_autoencoder e (extract_feature_vector features) ].
Proof. unfold analyze. destruct (run_nlp e text). reflexivity. Qed.






End ConfidenceFacts.

Section FraudRuleFacts.

Import Binary64.
Local Open Scope string_scope.
Local Open Scope Q_scope.

(** The entries of the vector that the fraud rule reads, in terms of the
    fields of the record. *)
Lemma fraud_rule_entries (features : ClaimFeatures) :
  X_at (extract_feature_vector features) 8 = float32 (amount_vs_org_avg features)
  /\ X_at (extract_feature_vector features) 13
     = float32 (of_int (duplicate_claim_flag features))
  /\ X_at (extract_feature_vector features) 14
     = float32 (of_int (rapid_readmission features)).
Proof. repeat split. Qed.

(** C6.  With no fraud model loaded (or one that fails), the fraud score
    of a feature vector is the sum, taken in this order from 0.0, of 0.3
    if entry 8 (the amount against the organisation average) exceeds 3.0,
    0.4 if entry 13 (the duplicate flag) equals 1, and 0.2 if entry 14
    (the rapid-readmission flag) equals 1, clipped to [0, 1].  The eight
    possible sums are the doubles 0.0, 0.3, 0.4, 0.2, 0.7, 0.5,
    0.6000000000000001 and 0.8999999999999999, all inside the range, so
    the clip never acts.  The entries are the single-precision copies of
    the fields of the record.  On the scenario (ratio 6.15, both flags
    set) the score is 0.8999999999999999, which is 0.9 to within 2e-16
    and not clipped; a ratio of 3.0000001 is stored as 3.0 and earns
    nothing. *)
Theorem C6_fraud_fallback_sum :
  (forall X : list float,
     let above := PrimFloat.ltb 3 (X_at X 8) in
     let duplicate := PrimFloat.eqb (X_at X 13) 1 in
     let rapid := PrimFloat.eqb (X_at X 14) 1 in
     let score1 := if above then (0 + 0.3)%float else 0%float in
     let score2 := if duplicate then (score1 + 0.4)%float else score1 in
     let score3 := if rapid then (score2 + 0.2)%float else score2 in
     run_xgboost None X = np_clip score3 0 1
     /\ (forall m : Model, m X = None -> run_xgboost (Some m) X = run_xgboost None X)
     /\ np_clip score3 0 1 = score3
     /\ score3
        = match above, duplicate, rapid with
          | false, false, false => 0
          | true, false, false => 0.3
          | false, true, false => 0.4
          | false, false, true => 0.2
          | true, true, false => 0.7
          | true, false, true => 0.5
          | false, true, true => 0.6000000000000001
          | true, true, true => 0.8999999999999999
          end%float)
  /\ (forall features : ClaimFeatures,
        X_at (extract_feature_vector features) 8 = float32 (amount_vs_org_avg features)
        /\ X_at (extract_feature_vector features) 13
           = float32 (of_int (duplicate_claim_flag features))
        /\ X_at (extract_feature_vector features) 14
           = float32 (of_int (rapid_readmission features)))
  /\ float32 (of_int 1) = 1%float
  /\ float32 (of_int 0) = 0%float
  /\ amount_vs_org_avg inflated_duplicate = 6.15%float
  /\ run_xgboost None (extract_feature_vector inflated_duplicate) = 0.8999999999999999%float
  /\ (exists q, value 0.8999999999999999 = Some q /\ Qabs (q - 0.9) <= 2 # 10000000000000000)
  /\ PrimFloat.ltb 3 (amount_vs_org_avg just_above_three) = true
  /\ float32 (amount_vs_org_avg just_above_three) = 3%float
  /\ run_xgboost None (extract_feature_vector just_above_three) = 0%float.
Proof.
  split.
  { intros X above duplicate rapid score1 score2 score3.
    split; [|split; [|split]].
    - reflexivity.
    - intros m Hm. unfold run_xgboost. now rewrite Hm.
    - unfold score3, score2, score1.
      destruct above, duplicate, rapid; vm_compute; reflexivity.
    - unfold score3, score2, score1.
      destruct above, duplicate, rapid; vm_compute; reflexivity. }
  split; [intros features; apply fraud_rule_entries|].
  repeat (split; [vm_compute; reflexivity|]).
  split.
  { eexists. split; [vm_compute; reflexivity|]. vm_compute. discriminate. }
  repeat split; vm_compute; reflexivity.
Qed.

Lemma C6_fraud_fallback_sum_witness :
  run_xgboost (Some (fun _ => None)) (extract_feature_vector inflated_duplicate)
  = 0.8999999999999999%float.
Proof.
  destruct C6_fraud_fallback_sum as (Hrule & _ & _ & _ & _ & Hscenario & _).
  destruct (Hrule (extract_feature_vector inflated_duplicate)) as (_ & Hfail & _).
  exact (eq_trans (Hfail (fun _ => None) eq_refl) Hscenario).
Defined.

End FraudRuleFacts.

(** ** The duplicate-claim flag *)

Section DuplicateFacts.

Import Features.
Local Open Scope Z_scope.

(** What [_check_duplicate] decides on a reachable store: the claim has a
    patient and some procedure code, and some other row of the same
    patient is at most 90 days old.  The procedure codes of the other
    rows are never read. *)
Lemma check_duplicate_decides table now claim :
  check_duplicate (Some table) now claim = true <->
  Py.truthy_opt_str (patient_id claim) = true
  /\ Py.truthy_list (procedure_codes claim) = true
  /\ exists r, In r table
               /\ opt_str_eqb (patient_id r) (patient_id claim) = true
               /\ String.eqb (id r) (id claim) = false
               /\ now - timedelta_days 90 <= created_at r.
Proof.
  unfold check_duplicate, select_other_claims_of_patient.
  destruct (Py.truthy_opt_str (patient_id claim));
    destruct (Py.truthy_list (procedure_codes claim)); cbn [negb orb];
    try (split; [discriminate | intros (A & B & _); discriminate]).
  set (keep := fun r : ClaimRow => _).
  split.
  - intros H. apply Z.ltb_lt in H.
    destruct (filter keep table) as [|r rest] eqn:E; [cbn in H; lia|].
    assert (Hin : In r (filter keep table)) by (rewrite E; now left).
    apply filter_In in Hin. destruct Hin as [Hin Hk]. unfold keep in Hk.
    apply andb_true_iff in Hk. destruct Hk as [Hk Hc].
    apply andb_true_iff in Hk. destruct Hk as [Hp Hi].
    apply negb_true_iff in Hi. apply Z.leb_le in Hc.
    repeat split; trivial. exists r. repeat split; trivial.
  - intros (_ & _ & r & Hin & Hp & Hi & Hc).
    assert (Hf : In r (filter keep table)).
    { apply filter_In. split; [exact Hin|]. unfold keep.
      rewrite Hp, Hi. cbn [negb andb]. now apply Z.leb_le. }
    apply Z.ltb_lt. destruct (filter keep table); [destruct Hf | cbn; lia].
Qed.

(** C7 (the code departs from it).  On a store where the only other claim
    of the patient carries a different procedure code, [_check_duplicate]
    answers true and the feature flag is 1, while no other claim of the
    patient has an overlapping procedure code in the 90-day window. *)
Theorem C7_duplicate_flag_ignores_codes :
  check_duplicate (Some Scenario.claims_table) Scenario.now Scenario.office_visit = true
  /\ duplicate_claim_flag_of (Some Scenario.claims_table) Scenario.now Scenario.office_visit = 1
  /\ duplicate_as_specified Scenario.claims_table Scenario.now Scenario.office_visit = false
  /\ codes_overlap (procedure_codes Scenario.earlier_claim)
                   (procedure_codes Scenario.office_visit) = false.
Proof. repeat split; vm_compute; reflexivity. Qed.

End DuplicateFacts.

(** ** The fact extractor *)

Section ExtractionFacts.

Import Extraction.
Local Open Scope string_scope.

(** C10.  On the empty text [extract] returns, whatever the patterns, the
    fixed record: no codes, no identifiers, no policies, the single risk
    NO_TEXT_AVAILABLE, not consistent, confidence 0.0. *)
Theorem C10_extract_empty_text (rx : Patterns) :
  extract rx "" =
    mkExtractedFacts [] [] [] [] [] ["NO_TEXT_AVAILABLE"] false 0 "No text provided"
  /\ confidence (extract rx "") = 0%Q
  /\ detected_risks (extract rx "") = ["NO_TEXT_AVAILABLE"]
  /\ diagnosis_codes (extract rx "") = []
  /\ procedure_codes (extract rx "") = []
  /\ matched_policies (extract rx "") = []
  /\ is_consistent (extract rx "") = false.
Proof. repeat split; reflexivity. Qed.

End ExtractionFacts.

(** ** The revalidation cycle *)

Section RevalidationFacts.

Import Revalidation.
Local Open Scope string_scope.

Lemma str_in_In x l : Py.str_in x l = true <-> In x l.
Proof.
  unfold Py.str_in. rewrite existsb_exists. split.
  - intros (y & Hin & E). apply String.eqb_eq in E. now subst.
  - intros Hin. exists x. split; [exact Hin | apply String.eqb_refl].
Qed.

Lemma str_in_not_In x l : Py.str_in x l = false <-> ~ In x l.
Proof.
  rewrite <- str_in_In. destruct (Py.str_in x l); split; intros H;
    try discriminate; try congruence; try reflexivity.
Qed.

(** The row written by [update] is the one read back afterwards. *)
Lemma select_claim_update s claim_id u c :
  select_claim s claim_id = Some c ->
  select_claim (update_claim s claim_id u) claim_id
  = Some (apply_update (extended_columns s) u c).
Proof.
  unfold select_claim, update_claim. cbn [claims].
  induction (claims s) as [|c0 cs IH]; cbn [find map]; [discriminate|].
  destruct (String.eqb (id c0) claim_id) eqn:E.
  - intros [= ->]. cbn [apply_update id]. now rewrite E.
  - rewrite E. exact IH.
Qed.

(** Queueing a request touches the queue alone. *)
Lemma apply_async_tables s t :
  claims (apply_async s t) = claims s
  /\ claim_documents (apply_async s t) = claim_documents s
  /\ extended_columns (apply_async s t) = extended_columns s
  /\ task_queue (apply_async s t)
     = option_map (fun queued => (queued ++ [t])%list) (task_queue s).
Proof.
  unfold apply_async. destruct (task_queue s) eqn:E; cbn; rewrite ?E; auto.
Qed.

Lemma select_claim_apply_async s t claim_id :
  select_claim (apply_async s t) claim_id = select_claim s claim_id.
Proof.
  unfold select_claim. now rewrite (proj1 (apply_async_tables s t)).
Qed.

(** The four ways a call can end. *)
Lemma revalidate_claim_cases K s claim_id :
  (select_claim s claim_id = None
   /\ revalidate_claim K s claim_id = (s, Error "Claim not found" claim_id))
  \/ (exists claim,
        select_claim s claim_id = Some claim
        /\ select_documents s claim_id = []
        /\ revalidate_claim K s claim_id
           = (s, Error "No documents found for claim" claim_id))
  \/ (exists claim,
        select_claim s claim_id = Some claim
        /\ select_documents s claim_id <> []
        /\ build_features K claim (Views.cycle_ocr_data K s claim_id) = None
        /\ revalidate_claim K s claim_id = (s, Raised))
  \/ (exists claim features r u,
        select_claim s claim_id = Some claim
        /\ select_documents s claim_id <> []
        /\ build_features K claim (Views.cycle_ocr_data K s claim_id) = Some features
        /\ Views.completes K s claim_id claim features r u).
Proof.
  unfold Views.cycle_ocr_data.
  destruct (select_claim s claim_id) as [claim|] eqn:Hsel.
  2:{ left. split; [reflexivity|]. unfold revalidate_claim. now rewrite Hsel. }
  right.
  destruct (select_documents s claim_id) as [|d ds] eqn:Hdocs.
  { left. exists claim. split; [reflexivity|]. split; [reflexivity|].
    unfold revalidate_claim. now rewrite Hsel, Hdocs. }
  right.
  destruct (build_features K claim (snd (collect_documents K (d :: ds))))
    as [features|] eqn:Hbuild.
  2:{ left. exists claim. split; [reflexivity|]. split; [discriminate|].
      split; [exact Hbuild|].
      unfold revalidate_claim. rewrite Hsel, Hdocs. cbn [Py.truthy_list negb].
      destruct (collect_documents K (d :: ds)) as [parts combined].
      cbn [snd] in Hbuild. now rewrite Hbuild. }
  right. exists claim, features.
  assert (Hrun : exists r u, Views.completes K s claim_id claim features r u).
  { destruct (collect_documents K (d :: ds)) as [parts combined] eqn:Hcol.
    cbn [snd] in Hbuild.
    destruct (status claim) as [st|] eqn:Hst;
      [destruct (String.eqb st "draft") eqn:Hd|];
      eexists; eexists;
      constructor; unfold Views.cycle_text, Views.is_draft;
        try (unfold revalidate_claim; rewrite Hsel);
        rewrite ?Hdocs; cbn [Py.truthy_list negb]; rewrite ?Hcol; cbn [fst snd];
        rewrite ?Hbuild, ?Hst, ?Hd; reflexivity. }
  destruct Hrun as (r & u & Hc). exists r, u.
  split; [reflexivity|]. split; [discriminate|]. split; [exact Hbuild | exact Hc].
Qed.

(** A call that returns a result went through the fourth way. *)
Lemma done_completes K s claim_id r :
  snd (revalidate_claim K s claim_id) = Done r ->
  exists claim features u,
    select_claim s claim_id = Some claim
    /\ select_documents s claim_id <> []
    /\ build_features K claim (Views.cycle_ocr_data K s claim_id) = Some features
    /\ Views.completes K s claim_id claim features r u.
Proof.
  intros Hrun.
  destruct (revalidate_claim_cases K s claim_id)
    as [(_ & H) | [(c & _ & _ & H) | [(c & _ & _ & _ & H)
       | (claim & features & r' & u & Hsel & Hdocs & Hbuild & Hc)]]];
    try (rewrite H in Hrun; discriminate).
  rewrite (Views.done_run _ _ _ _ _ _ _ Hc) in Hrun. cbn [snd] in Hrun.
  injection Hrun as <-.
  exists claim, features, u. auto.
Qed.

(** The row read back after a completed cycle. *)
Lemma completes_stored K s claim_id claim features r u :
  select_claim s claim_id = Some claim ->
  Views.completes K s claim_id claim features r u ->
  select_claim (fst (revalidate_claim K s claim_id)) claim_id
  = Some (apply_update (extended_columns s) u claim).
Proof.
  intros Hsel Hc. rewrite (Views.done_run _ _ _ _ _ _ _ Hc). cbn [fst].
  rewrite select_claim_apply_async. now apply select_claim_update.
Qed.

Lemma is_draft_true claim : status claim = Some "draft" -> Views.is_draft claim = true.
Proof. intros H. unfold Views.is_draft. now rewrite H. Qed.

(** C3.  Take a claim that the store holds with status "draft".  However
    the call ends -- no documents, an exception of the feature builder,
    or a result -- the row read back afterwards still has status "draft".
    When it returns a result, the returned claim status is "draft" and the
    stage [pre_submission_revalidation], the stored explanation carries
    that stage, and the one thing added to the broker is the request to
    run [analyze_claim_async] on the claim two seconds later (running it
    is not part of the cycle).  It returns a result as soon as the claim
    has a document and the feature builder does not raise -- whichever
    collaborators, hence whichever recommendation. *)
Theorem C3_draft_stays_draft
    (K : Collaborators) (s : Store) (claim_id : string) (claim : Claim) :
  select_claim s claim_id = Some claim ->
  status claim = Some "draft" ->
  (exists claim',
     select_claim (fst (revalidate_claim K s claim_id)) claim_id = Some claim'
     /\ status claim' = Some "draft")
  /\ (forall r,
        snd (revalidate_claim K s claim_id) = Done r ->
        r_claim_status r = "draft"
        /\ r_workflow_stage r = "pre_submission_revalidation"
        /\ (exists claim',
              select_claim (fst (revalidate_claim K s claim_id)) claim_id = Some claim'
              /\ option_map i_workflow_stage (ai_explanation claim')
                 = Some "pre_submission_revalidation")
        /\ task_queue (fst (revalidate_claim K s claim_id))
           = option_map
               (fun queued =>
                  (queued
                   ++ [mkQueuedTask "app.tasks.ai_tasks.analyze_claim_async" [claim_id] 2])%list)
               (task_queue s))
  /\ (select_documents s claim_id <> [] ->
      build_features K claim (Views.cycle_ocr_data K s claim_id) <> None ->
      exists r, snd (revalidate_claim K s claim_id) = Done r).
Proof.
  intros Hsel Hst.
  pose proof (is_draft_true claim Hst) as Hdraft.
  destruct (revalidate_claim_cases K s claim_id)
    as [(Hnone & _) | [(c & Hc & Hnodocs & Hrun) | [(c & Hc & Hdocs & Hbuild & Hrun)
       | (c & features & r & u & Hc & Hdocs & Hbuild & Hdone)]]].
  - congruence.
  - rewrite Hrun. cbn [fst snd]. split; [eauto|]. split; [discriminate|].
    intros Hd. contradiction.
  - rewrite Hrun. cbn [fst snd]. split; [eauto|]. split; [discriminate|].
    intros _ Hb. rewrite Hsel in Hc. injection Hc as <-. contradiction.
  - rewrite Hsel in Hc. injection Hc as <-.
    pose proof (completes_stored K s claim_id claim features r u Hsel Hdone) as Hrow.
    pose proof (Views.done_status _ _ _ _ _ _ _ Hdone) as Hrs.
    pose proof (Views.done_stage _ _ _ _ _ _ _ Hdone) as Hws.
    rewrite Hdraft in Hrs, Hws.
    split; [|split].
    + eexists. split; [exact Hrow|]. cbn [apply_update status].
      rewrite (Views.done_u_status _ _ _ _ _ _ _ Hdone). now rewrite Hrs.
    + intros r' Hr'.
      rewrite (Views.done_run _ _ _ _ _ _ _ Hdone) in Hr'. cbn [snd] in Hr'.
      injection Hr' as <-.
      split; [exact Hrs|]. split; [exact Hws|]. split.
      * eexists. split; [exact Hrow|]. cbn [apply_update ai_explanation option_map].
        rewrite (Views.done_u_intelligence _ _ _ _ _ _ _ Hdone). cbn [i_workflow_stage].
        now rewrite Hws.
      * rewrite (Views.done_run _ _ _ _ _ _ _ Hdone). cbn [fst].
        now rewrite (proj2 (proj2 (proj2 (apply_async_tables _ _)))).
    + intros _ _. exists r. now rewrite (Views.done_run _ _ _ _ _ _ _ Hdone).
Qed.

Lemma C3_draft_stays_draft_witness :
  Ensemble.recommendation
    (Ensemble.analyze Ensemble.fallback_engine Ensemble.default_features "discharge summary")
  = "AUTO_APPROVE"
  /\ snd (revalidate_claim Scenario.plain Scenario.store "c1") = Done Samples.draft_result
  /\ r_claim_status Samples.draft_result = "draft"
  /\ r_workflow_stage Samples.draft_result = "pre_submission_revalidation"
  /\ task_queue (fst (revalidate_claim Scenario.plain Scenario.store "c1"))
     = Some [mkQueuedTask "app.tasks.ai_tasks.analyze_claim_async" ["c1"] 2]
  /\ exists claim',
       select_claim (fst (revalidate_claim Scenario.plain Scenario.store "c1")) "c1"
       = Some claim'
       /\ status claim' = Some "draft".
Proof.
  assert (Hrun : snd (revalidate_claim Scenario.plain Scenario.store "c1")
                 = Done Samples.draft_result) by (vm_compute; reflexivity).
  destruct (C3_draft_stays_draft Scenario.plain Scenario.store "c1" Scenario.draft_claim
              eq_refl eq_refl) as (Hrow & Hdone & _).
  destruct (Hdone Samples.draft_result Hrun) as (Hst & Hws & _ & Hq).
  split; [vm_compute; reflexivity|].
  split; [exact Hrun|]. split; [exact Hst|]. split; [exact Hws|].
  split; [exact Hq | exact Hrow].
Defined.

(** C4.  The result of a completed cycle carries the recommendation of
    the ensemble on the features and the text of the claim, and the risks
    that the extractor detects in that text.  Its [auto_approval_eligible]
    is true exactly when that recommendation is AUTO_APPROVE and neither
    MISSING_AUTHORIZATION nor MISSING_PROVIDER_IDENTIFIER is among those
    risks; so MISSING_AUTHORIZATION among the risks makes it false even
    under AUTO_APPROVE.  The same value is written into the explanation
    of the stored row. *)
Theorem C4_auto_approval_conjunction
    (K : Collaborators) (s : Store) (claim_id : string) (r : Revalidated) :
  snd (revalidate_claim K s claim_id) = Done r ->
  exists claim features claim',
    select_claim s claim_id = Some claim
    /\ build_features K claim (Views.cycle_ocr_data K s claim_id) = Some features
    /\ (let recommendation :=
          Ensemble.recommendation
            (Ensemble.analyze (engine K) features (Views.cycle_text K s claim_id)) in
        let risks :=
          Extraction.detected_risks
            (Extraction.extract (patterns K) (Views.cycle_text K s claim_id)) in
        r_recommendation r = recommendation
        /\ r_detected_risks r = risks
        /\ (r_auto_approval_eligible r = true <->
              recommendation = "AUTO_APPROVE"
              /\ ~ In "MISSING_AUTHORIZATION" risks
              /\ ~ In "MISSING_PROVIDER_IDENTIFIER" risks)
        /\ (recommendation = "AUTO_APPROVE" ->
            In "MISSING_AUTHORIZATION" risks ->
            r_auto_approval_eligible r = false))
    /\ select_claim (fst (revalidate_claim K s claim_id)) claim_id = Some claim'
    /\ option_map i_auto_approval_eligible (ai_explanation claim')
       = Some (r_auto_approval_eligible r).
Proof.
  intros Hrun.
  destruct (done_completes K s claim_id r Hrun)
    as (claim & features & u & Hsel & _ & Hbuild & Hdone).
  exists claim, features, (apply_update (extended_columns s) u claim).
  split; [exact Hsel|]. split; [exact Hbuild|].
  pose proof (Views.done_recommendation _ _ _ _ _ _ _ Hdone) as Hrec.
  pose proof (Views.done_risks _ _ _ _ _ _ _ Hdone) as Hrisks.
  pose proof (Views.done_eligible _ _ _ _ _ _ _ Hdone) as Hel.
  split; [|split].
  - cbv zeta. rewrite <- Hrec, <- Hrisks.
    split; [reflexivity|]. split; [reflexivity|]. rewrite Hel. split.
    + rewrite !andb_true_iff, !negb_true_iff, !str_in_not_In, String.eqb_eq. tauto.
    + intros _ Hin. apply str_in_In in Hin. rewrite Hin. cbn [negb].
      now rewrite andb_false_r.
  - now apply (completes_stored K s claim_id claim features r u).
  - cbn [apply_update ai_explanation option_map].
    now rewrite (Views.done_u_intelligence _ _ _ _ _ _ _ Hdone).
Qed.

Lemma C4_auto_approval_conjunction_witness :
  snd (revalidate_claim Scenario.plain Scenario.store "c2") = Done Samples.submitted_result
  /\ r_recommendation Samples.submitted_result = "AUTO_APPROVE"
  /\ In "MISSING_AUTHORIZATION" (r_detected_risks Samples.submitted_result)
  /\ r_auto_approval_eligible Samples.submitted_result = false.
Proof.
  assert (Hrun : snd (revalidate_claim Scenario.plain Scenario.store "c2")
                 = Done Samples.submitted_result) by (vm_compute; reflexivity).
  assert (Hrec : r_recommendation Samples.submitted_result = "AUTO_APPROVE")
    by (vm_compute; reflexivity).
  assert (Hin : In "MISSING_AUTHORIZATION" (r_detected_risks Samples.submitted_result))
    by (vm_compute; tauto).
  split; [exact Hrun|]. split; [exact Hrec|]. split; [exact Hin|].
  destruct (C4_auto_approval_conjunction
              Scenario.plain Scenario.store "c2" Samples.submitted_result Hrun)
    as (claim & features & claim' & _ & _ & (Hr & Hk & _ & Hfalse) & _).
  apply Hfalse; [now rewrite <- Hr | now rewrite <- Hk].
Defined.

(** The guidance as the code selects it: under AUTO_APPROVE, approve
    unless a manual discrepancy is found; otherwise, with
    MISSING_AUTHORIZATION among the risks, request the prior authorization
    document; otherwise, under HIGH_RISK_HOLD, escalate to a compliance
    specialist; otherwise a targeted compliance review. *)
Lemma build_reviewer_suggestion_order (recommendation : string) (detected_risks : list string) :
  (recommendation = "AUTO_APPROVE" ->
     build_reviewer_suggestion recommendation detected_risks
     = "Low-risk claim profile. Approve unless manual discrepancy is identified.")
  /\ (recommendation <> "AUTO_APPROVE" ->
      In "MISSING_AUTHORIZATION" detected_risks ->
      build_reviewer_suggestion recommendation detected_risks
      = "Authorization evidence missing. Request prior authorization document before approval.")
  /\ (~ In "MISSING_AUTHORIZATION" detected_risks ->
      recommendation = "HIGH_RISK_HOLD" ->
      build_reviewer_suggestion recommendation detected_risks
      = "High-risk hold recommended. Escalate to compliance specialist for manual review.")
  /\ (recommendation <> "AUTO_APPROVE" ->
      ~ In "MISSING_AUTHORIZATION" detected_risks ->
      recommendation <> "HIGH_RISK_HOLD" ->
      build_reviewer_suggestion recommendation detected_risks
      = "Proceed with targeted compliance review on extracted risk indicators.").
Proof.
  unfold build_reviewer_suggestion. repeat split.
  - intros ->. reflexivity.
  - intros Hrec Hin. apply String.eqb_neq in Hrec. rewrite Hrec.
    apply str_in_In in Hin. now rewrite Hin.
  - intros Hin ->. apply str_in_not_In in Hin. now rewrite Hin.
  - intros Hrec Hin Hhold.
    apply String.eqb_neq in Hrec. apply String.eqb_neq in Hhold.
    apply str_in_not_In in Hin. now rewrite Hrec, Hin, Hhold.
Qed.

(** C8.  The guidance departs from the stated priority exactly when
    MISSING_AUTHORIZATION is among the risks under AUTO_APPROVE: there
    [_build_reviewer_suggestion] advises approval, where the stated order
    asks for the prior-authorization document; on every other pair the two
    agree.  The same cycle contradicts itself on that input: on the
    submitted claim of the example store the recommendation is
    AUTO_APPROVE and the authorization is missing, so the cycle declares
    the claim not eligible for auto-approval, and yet advises to approve
    it. *)
Theorem C8_approval_advised_without_authorization :
  (forall detected_risks : list string,
     In "MISSING_AUTHORIZATION" detected_risks ->
     build_reviewer_suggestion "AUTO_APPROVE" detected_risks
     = "Low-risk claim profile. Approve unless manual discrepancy is identified."
     /\ reviewer_suggestion_as_specified "AUTO_APPROVE" detected_risks
        = "Authorization evidence missing. Request prior authorization document before approval."
     /\ build_reviewer_suggestion "AUTO_APPROVE" detected_risks
        <> reviewer_suggestion_as_specified "AUTO_APPROVE" detected_risks)
  /\ (forall (recommendation : string) (detected_risks : list string),
        recommendation <> "AUTO_APPROVE" \/ ~ In "MISSING_AUTHORIZATION" detected_risks ->
        build_reviewer_suggestion recommendation detected_risks
        = reviewer_suggestion_as_specified recommendation detected_risks)
  /\ snd (revalidate_claim Scenario.plain Scenario.store "c2") = Done Samples.submitted_result
  /\ r_recommendation Samples.submitted_result = "AUTO_APPROVE"
  /\ In "MISSING_AUTHORIZATION" (r_detected_risks Samples.submitted_result)
  /\ r_auto_approval_eligible Samples.submitted_result = false
  /\ r_reviewer_suggestion Samples.submitted_result
     = "Low-risk claim profile. Approve unless manual discrepancy is identified.".
Proof.
  split; [|split].
  - intros detected_risks Hin. apply str_in_In in Hin.
    unfold build_reviewer_suggestion, reviewer_suggestion_as_specified.
    rewrite Hin. cbn. repeat split. discriminate.
  - intros recommendation detected_risks H.
    unfold build_reviewer_suggestion, reviewer_suggestion_as_specified.
    destruct (String.eqb_spec recommendation "AUTO_APPROVE") as [E|E];
      destruct (Py.str_in "MISSING_AUTHORIZATION" detected_risks) eqn:Hin;
      try reflexivity.
    exfalso. apply str_in_In in Hin. destruct H; contradiction.
  - split; [vm_compute; reflexivity|]. split; [vm_compute; reflexivity|].
    split; [vm_compute; tauto|]. split; vm_compute; reflexivity.
Qed.

Lemma C8_approval_advised_without_authorization_witness :
  In "MISSING_AUTHORIZATION" ["DIAGNOSIS_PROCEDURE_MISMATCH"; "MISSING_AUTHORIZATION"]
  /\ build_reviewer_suggestion "AUTO_APPROVE"
       ["DIAGNOSIS_PROCEDURE_MISMATCH"; "MISSING_AUTHORIZATION"]
     <> reviewer_suggestion_as_specified "AUTO_APPROVE"
          ["DIAGNOSIS_PROCEDURE_MISMATCH"; "MISSING_AUTHORIZATION"]
  /\ build_reviewer_suggestion "HIGH_RISK_HOLD" ["MISSING_AUTHORIZATION"]
     = reviewer_suggestion_as_specified "HIGH_RISK_HOLD" ["MISSING_AUTHORIZATION"].
Proof.
  assert (Hin : In "MISSING_AUTHORIZATION"
                  ["DIAGNOSIS_PROCEDURE_MISMATCH"; "MISSING_AUTHORIZATION"])
    by (right; now left).
  destruct C8_approval_advised_without_authorization as (Hbad & Hgood & _).
  split; [exact Hin|]. split.
  - exact (proj2 (proj2 (Hbad _ Hin))).
  - apply Hgood. left. discriminate.
Defined.

End RevalidationFacts.

(** ** Sums, means and the outlier fallback *)

Section OutlierFacts.

Import Ensemble.
Local Open Scope Q_scope.





Lemma inject_length_nonneg {A : Type} (l : list A) : 0 <= inject_Z (Z.of_nat (length l)).
Proof. change 0 with (inject_Z 0). rewrite <- Zle_Qle. lia. Qed.

Lemma inject_length_pos {A : Type} (l : list A) : l <> [] -> 0 < inject_Z (Z.of_nat (length l)).
Proof.
  intros H. change 0 with (inject_Z 0). rewrite <- Zlt_Qlt.
  destruct l; [contradiction | cbn [length]; lia].
Qed.












End OutlierFacts.

(** ** The adapters without learned models *)

Section FallbackFacts.

Import Ensemble.
Local Open Scope string_scope.
Local Open Scope Q_scope.



Lemma analyze_recommendation e features text :
  recommendation (analyze e features text)
  = determine_recommendation (trust_score (analyze e features text)).
Proof. unfold analyze. destruct (run_nlp e text). reflexivity. Qed.












End FallbackFacts.

(** ** The text adapter *)

Section NlpFacts.

Import Ensemble.
Local Open Scope string_scope.

Lemma dict_get_dict_append d label text l :
  dict_get (dict_append d label text) l
  = if String.eqb label l
    then Some (match dict_get d l with Some ts => ts ++ [text] | None => [text] end)%list
    else dict_get d l.
Proof.
  induction d as [|[k ts] d IH]; cbn [dict_append dict_get].
  - destruct (String.eqb label l); reflexivity.
  - destruct (String.eqb_spec k label) as [-> | Hkl]; cbn [dict_get].
    + destruct (String.eqb label l); reflexivity.
    + destruct (String.eqb_spec k l) as [-> | Hk].
      * apply String.eqb_neq in Hkl. rewrite String.eqb_sym in Hkl. now rewrite Hkl.
      * exact IH.
Qed.

Lemma dict_get_grouped ents : forall d l,
  dict_get (fold_left (fun d ent => dict_append d (fst ent) (snd ent)) ents d) l
  = match dict_get d l with
    | Some ts => Some (ts ++ Views.texts_with_label l ents)%list
    | None =>
        match Views.texts_with_label l ents with
        | [] => None
        | t :: ts => Some (t :: ts)
        end
    end.
Proof.
  unfold Views.texts_with_label.
  induction ents as [|[lab txt] ents IH]; intros d l; cbn [fold_left filter map fst snd].
  - destruct (dict_get d l); [now rewrite app_nil_r | reflexivity].
  - rewrite IH, dict_get_dict_append.
    destruct (String.eqb lab l); cbn [map snd].
    + destruct (dict_get d l) as [ts|].
      * now rewrite <- app_assoc.
      * reflexivity.
    + reflexivity.
Qed.

(** X4.  When the text is not empty and the named-entity pass returns,
    [_run_nlp] files every entity text under its label, in document order
    (a label without entity has no key), and the inconsistency score is
    0.1 when more than five DATE entities were found and 0 otherwise. *)
Theorem X4_nlp_groups_entities_and_counts_dates
    (e : Engine) (text : string) (nlp : string -> option (list (string * string)))
    (ents : list (string * string)) :
  text <> "" ->
  nlp_pipeline e = Some nlp ->
  nlp (substring 0 5000 text) = Some ents ->
  (forall label,
     dict_get (snd (run_nlp e text)) label
     = match Views.texts_with_label label ents with
       | [] => None
       | t :: ts => Some (t :: ts)
       end)
  /\ (fst (run_nlp e text)
      == if (5 <? length (Views.texts_with_label "DATE" ents))%nat then 0.1 else 0)%Q.
Proof.
  intros Htext Hpipe Hents. unfold run_nlp.
  apply String.eqb_neq in Htext. rewrite Htext, Hpipe, Hents. cbn [fst snd].
  split.
  - intros label. now rewrite dict_get_grouped.
  - rewrite dict_get_grouped. cbn [dict_get].
    destruct (Views.texts_with_label "DATE" ents) as [|t ts].
    + vm_compute. reflexivity.
    + destruct (5 <? length (t :: ts))%nat; vm_compute; reflexivity.
Qed.

Lemma X4_nlp_groups_entities_and_counts_dates_witness :
  dict_get (snd (run_nlp Samples.dated_engine "notes")) "PERSON" = Some ["Dr Rao"]
  /\ (fst (run_nlp Samples.dated_engine "notes") == 0.1)%Q.
Proof.
  destruct (X4_nlp_groups_entities_and_counts_dates
              Samples.dated_engine "notes" (fun _ => Some Samples.six_dates) Samples.six_dates)
    as [Hg Hs]; [discriminate | reflexivity | reflexivity |].
  split; [apply (Hg "PERSON") | exact Hs].
Defined.

End NlpFacts.

(** ** Risk factors and the explanation text *)

Section ReportFacts.

Import Ensemble Report.
Local Open Scope string_scope.

Lemma insert_by_impact_perm x l : Permutation (insert_by_impact x l) (x :: l).
Proof.
  induction l as [|y l IH]; cbn [insert_by_impact].
  - apply Permutation_refl.
  - destruct (impact x <=? impact y)%Z.
    + apply Permutation_refl.
    + eapply Permutation_trans; [apply perm_skip, IH | apply perm_swap].
Qed.

Lemma sorted_by_impact_perm l : Permutation (sorted_by_impact l) l.
Proof.
  induction l as [|x l IH]; cbn [sorted_by_impact fold_right].
  - apply Permutation_refl.
  - eapply Permutation_trans; [apply insert_by_impact_perm | now apply perm_skip].
Qed.

Lemma insert_by_impact_sorted x l :
  Sorted Views.impact_le l -> Sorted Views.impact_le (insert_by_impact x l).
Proof.
  induction l as [|y l IH]; intros Hs; cbn [insert_by_impact].
  - repeat constructor.
  - destruct (impact x <=? impact y)%Z eqn:E.
    + constructor; [exact Hs|]. constructor. apply Z.leb_le in E. exact E.
    + apply Z.leb_gt in E. inversion Hs as [|? ? Hs' Hhd]; subst.
      constructor; [now apply IH|].
      destruct l as [|z l]; cbn [insert_by_impact].
      * constructor. unfold Views.impact_le. lia.
      * destruct (impact x <=? impact z)%Z.
        -- constructor. unfold Views.impact_le. lia.
        -- inversion Hhd; subst. now constructor.
Qed.

Lemma sorted_by_impact_sorted l : Sorted Views.impact_le (sorted_by_impact l).
Proof.
  induction l as [|x l IH]; cbn [sorted_by_impact fold_right].
  - constructor.
  - now apply insert_by_impact_sorted.
Qed.

Lemma sorted_le_nodup_lt l :
  Sorted Views.impact_le l -> NoDup (map impact l) -> Sorted Views.impact_lt l.
Proof.
  induction l as [|a l IH]; intros Hs Hn; [constructor|].
  inversion Hs as [|? ? Hs' Hhd]; subst.
  cbn [map] in Hn. inversion Hn as [|? ? Hnotin Hn']; subst.
  constructor; [now apply IH|].
  destruct l as [|b l]; constructor.
  inversion Hhd as [|? ? Hab]; subst.
  unfold Views.impact_le in Hab. unfold Views.impact_lt.
  assert (impact a <> impact b) by (intros E; apply Hnotin; cbn [map]; left; congruence).
  lia.
Qed.

Lemma fired_In {A : Type} (checks : list (bool * A)) (r : A) :
  In r (Views.fired checks) <-> In (true, r) checks.
Proof.
  unfold Views.fired. rewrite in_flat_map. split.
  - intros ([b x] & Hin & Hr). cbn [fst snd] in Hr.
    destruct b; [|destruct Hr]. destruct Hr as [<- | []]. exact Hin.
  - intros Hin. exists (true, r). split; [exact Hin | now left].
Qed.

Lemma fired_length {A : Type} (checks : list (bool * A)) :
  (length (Views.fired checks) <= length checks)%nat.
Proof.
  unfold Views.fired.
  induction checks as [|[b x] cs IH]; cbn [flat_map length fst snd]; [lia|].
  rewrite length_app. destruct b; cbn [length]; lia.
Qed.

Lemma fired_nodup {A B : Type} (g : A -> B) (checks : list (bool * A)) :
  NoDup (map g (map snd checks)) -> NoDup (map g (Views.fired checks)).
Proof.
  induction checks as [|[b x] cs IH]; cbn [map snd]; intros Hn.
  - constructor.
  - inversion Hn as [|? ? Hnotin Hn']; subst.
    unfold Views.fired. cbn [flat_map fst snd]. fold (Views.fired cs).
    destruct b; cbn [app map]; [|now apply IH].
    constructor; [|now apply IH].
    intros Hin. apply Hnotin.
    apply in_map_iff in Hin. destruct Hin as (r & <- & Hr).
    apply fired_In in Hr. apply in_map_iff. exists r. split; [reflexivity|].
    apply in_map_iff. exists (true, r). split; [reflexivity | exact Hr].
Qed.

(** The chain of conditional appends keeps the entries whose test holds. *)
Lemma checklist_shape {A : Type} (b1 b2 b3 b4 b5 b6 b7 b8 b9 : bool)
    (r1 r2 r3 r4 r5 r6 r7 r8 r9 : A) :
  (let risks : list A := [] in
   let risks := if b1 then Py.append risks r1 else risks in
   let risks := if b2 then Py.append risks r2 else risks in
   let risks := if b3 then Py.append risks r3 else risks in
   let risks := if b4 then Py.append risks r4 else risks in
   let risks := if b5 then Py.append risks r5 else risks in
   let risks := if b6 then Py.append risks r6 else risks in
   let risks := if b7 then Py.append risks r7 else risks in
   let risks := if b8 then Py.append risks r8 else risks in
   let risks := if b9 then Py.append risks r9 else risks in
   risks)
  = Views.fired [ (b1, r1); (b2, r2); (b3, r3); (b4, r4); (b5, r5);
                  (b6, r6); (b7, r7); (b8, r8); (b9, r9) ].
Proof.
  destruct b1, b2, b3, b4, b5, b6, b7, b8, b9; reflexivity.
Qed.

Lemma risk_checklist_fired F features xgb iso :
  exists amount_text missing_text,
    risk_checklist F features xgb iso
    = Views.fired
        [ (negb (duplicate_claim_flag features =? 0)%Z,
           mkRiskFactor "high" "Potential duplicate claim detected" (-25));
          (negb (rapid_readmission features =? 0)%Z,
           mkRiskFactor "medium" "Rapid readmission within 30 days" (-15));
          (Qgt_bool (amount_vs_org_avg features) 2.5,
           mkRiskFactor "medium" ("Claimed amount " ++ amount_text) (-10));
          ((0 <? missing_required_fields features)%Z,
           mkRiskFactor "medium" (missing_text ++ " required documentation fields missing") (-8));
          (Qgt_bool (org_historical_fraud_rate features) 0.10,
           mkRiskFactor "high" "Organization has elevated historical fraud rate" (-20));
          (Qgt_bool xgb 0.7,
           mkRiskFactor "high" "XGBoost model flags high fraud probability" (-30));
          (Qgt_bool iso 0.65,
           mkRiskFactor "medium" "Billing pattern is a statistical anomaly" (-12));
          (Qgt_bool (org_trust_score features) 80,
           mkRiskFactor "info" "High-trust organization on record" 15);
          (Qgt_bool (ocr_completeness_score features) 0.95,
           mkRiskFactor "info" "Documents are complete and well-structured" 5) ].
Proof.
  exists (format_1f F (amount_vs_org_avg features) ++ "x above org average").
  exists (str_of_Z (missing_required_fields features)).
  unfold risk_checklist. apply checklist_shape.
Qed.

(** X5.  [_build_risk_factors] returns exactly the entries of the
    checklist that fired, each once, ordered by strictly increasing
    impact (most negative first); there are at most nine. *)
Theorem X5_risk_factors_sorted_permutation
    (F : Formats) (features : ClaimFeatures) (xgb iso : Q) :
  Permutation (build_risk_factors F features xgb iso) (risk_checklist F features xgb iso)
  /\ Sorted Views.impact_lt (build_risk_factors F features xgb iso)
  /\ (length (build_risk_factors F features xgb iso) <= 9)%nat.
Proof.
  unfold build_risk_factors.
  pose proof (sorted_by_impact_perm (risk_checklist F features xgb iso)) as Hperm.
  destruct (risk_checklist_fired F features xgb iso) as (amount_text & missing_text & Hshape).
  split; [exact Hperm|]. split.
  - apply sorted_le_nodup_lt; [apply sorted_by_impact_sorted|].
    apply (Permutation_NoDup (l := map impact (risk_checklist F features xgb iso))).
    + apply Permutation_map, Permutation_sym, Hperm.
    + rewrite Hshape. apply fired_nodup. cbn [map snd impact].
      repeat constructor; cbn [In]; intuition discriminate.
  - rewrite (Permutation_length Hperm), Hshape.
    apply (fired_length (A := RiskFactor)).
Qed.

End ReportFacts.

Section ExplanationFacts.

Import Ensemble Report.
Local Open Scope string_scope.

Lemma append_cancel_l p a b : p ++ a = p ++ b -> a = b.
Proof.
  induction p as [|c p IH]; cbn [append]; intros H; [exact H|].
  injection H as H. now apply IH.
Qed.

Lemma truthy_append_l a b : Py.truthy_str a = true -> Py.truthy_str (a ++ b) = true.
Proof. destruct a; [discriminate | reflexivity]. Qed.

Lemma truthy_append_r a b : Py.truthy_str b = true -> Py.truthy_str (a ++ b) = true.
Proof. destruct a; [trivial | reflexivity]. Qed.

Lemma truthy_join_cons sep x xs :
  Py.truthy_str x = true -> Py.truthy_str (Py.join sep (x :: xs)) = true.
Proof.
  intros H. unfold Py.join. destruct xs; cbn [String.concat]; [exact H|].
  now apply truthy_append_l.
Qed.

Lemma filter_none {A : Type} (p : A -> bool) (l : list A) :
  (forall x, In x l -> p x = false) -> filter p l = [].
Proof.
  induction l as [|x l IH]; intros H; cbn [filter]; [reflexivity|].
  rewrite (H x) by now left. apply IH. intros y Hy. apply H. now right.
Qed.

Lemma In_firstn_In {A : Type} (n : nat) (l : list A) (x : A) :
  In x (firstn n l) -> In x l.
Proof.
  revert l. induction n as [|n IH]; intros l H; [destruct H|].
  destruct l as [|y l]; [destruct H|]. cbn [firstn] in H.
  destruct H as [-> | H]; [now left | right; now apply IH].
Qed.

Lemma impact_le_trans : Relation_Definitions.transitive _ Views.impact_le.
Proof. intros a b c. unfold Views.impact_le. lia. Qed.

(** Whether a negative entry is listed is decided by the seven tests. *)
Lemma negative_entry_iff F features xgb iso :
  (exists r, In r (risk_checklist F features xgb iso) /\ (impact r < 0)%Z)
  <-> Views.negative_check_fires features xgb iso = true.
Proof.
  destruct (risk_checklist_fired F features xgb iso) as (amount_text & missing_text & ->).
  unfold Views.negative_check_fires. split.
  - intros (r & Hin & Hneg). apply fired_In in Hin. cbn [In] in Hin.
    repeat rewrite orb_true_iff.
    repeat (destruct Hin as [Hin | Hin];
            [injection Hin as Hb <-; cbn [impact] in Hneg; try lia; rewrite Hb; tauto|]).
    destruct Hin.
  - repeat rewrite orb_true_iff.
    intros H.
    repeat (destruct H as [H | H]);
      (eexists; split;
       [apply fired_In; cbn [In]; rewrite H; eauto 10 | cbn [impact]; lia]).
Qed.

Lemma checklist_factors_truthy F features xgb iso r :
  In r (risk_checklist F features xgb iso) -> Py.truthy_str (factor r) = true.
Proof.
  destruct (risk_checklist_fired F features xgb iso) as (amount_text & missing_text & ->).
  intros Hin. apply fired_In in Hin. cbn [In] in Hin.
  repeat (destruct Hin as [Hin | Hin];
          [injection Hin as _ <-; cbn [factor];
           first [reflexivity | apply truthy_append_r; reflexivity]|]).
  destruct Hin.
Qed.

Lemma summaries_truthy_iff F features xgb iso :
  Py.truthy_str
    (Py.join "; "
       (map factor
          (filter (fun r => (impact r <? 0)%Z)
                  (firstn 3 (build_risk_factors F features xgb iso)))))
  = Views.negative_check_fires features xgb iso.
Proof.
  pose proof (negative_entry_iff F features xgb iso) as Hiff.
  pose proof (sorted_by_impact_perm (risk_checklist F features xgb iso)) as Hperm.
  pose proof (sorted_by_impact_sorted (risk_checklist F features xgb iso)) as Hsorted.
  fold (build_risk_factors F features xgb iso) in Hperm, Hsorted.
  destruct (Views.negative_check_fires features xgb iso).
  - destruct (proj2 Hiff eq_refl) as (r & Hin & Hneg).
    apply (Permutation_in _ (Permutation_sym Hperm)) in Hin.
    destruct (build_risk_factors F features xgb iso) as [|h tl] eqn:E; [destruct Hin|].
    assert (Hh : (impact h < 0)%Z).
    { destruct Hin as [-> | Hin]; [exact Hneg|].
      pose proof (Sorted_extends impact_le_trans Hsorted) as Hall.
      rewrite Forall_forall in Hall. specialize (Hall r Hin).
      unfold Views.impact_le in Hall. lia. }
    cbn [firstn filter]. apply Z.ltb_lt in Hh. rewrite Hh. cbn [map].
    apply truthy_join_cons.
    apply (checklist_factors_truthy F features xgb iso).
    apply (Permutation_in _ Hperm). now left.
  - assert (Hnone : forall r, In r (build_risk_factors F features xgb iso) ->
                              (impact r <? 0)%Z = false).
    { intros r Hin. apply Z.ltb_ge.
      destruct (Z.lt_ge_cases (impact r) 0) as [L|L]; [|exact L].
      exfalso. assert (Hex : false = true); [|discriminate].
      apply Hiff. exists r. split; [|exact L].
      apply (Permutation_in _ Hperm). exact Hin. }
    assert (Hf : filter (fun r => (impact r <? 0)%Z)
                        (firstn 3 (build_risk_factors F features xgb iso)) = []).
    { apply filter_none. intros r Hin. apply Hnone.
      eapply In_firstn_In. exact Hin. }
    rewrite Hf. reflexivity.
Qed.

(** X6.  The explanation built from the risk factors of a claim says
    "No significant risk factors identified" exactly when none of the
    seven negative checks fires (duplicate flag, rapid readmission, amount
    ratio above 2.5, a missing field, organisation fraud rate above 0.10,
    fraud score above 0.7, anomaly score above 0.65). *)
Theorem X6_explanation_no_risk_iff_no_negative_check
    (F : Formats) (features : ClaimFeatures) (xgb iso t : Q) (recommendation : string) :
  build_explanation F t (build_risk_factors F features xgb iso) recommendation
  = "CareVerify Trust Score: " ++ str_float F t ++ "/100. "
    ++ "No significant risk factors identified. "
    ++ "Recommendation: " ++ recommendation ++ "."
  <-> (duplicate_claim_flag features = 0%Z
       /\ rapid_readmission features = 0%Z
       /\ (amount_vs_org_avg features <= 2.5)%Q
       /\ (missing_required_fields features <= 0)%Z
       /\ (org_historical_fraud_rate features <= 0.10)%Q
       /\ (xgb <= 0.7)%Q
       /\ (iso <= 0.65)%Q).
Proof.
  assert (Hconds :
    Views.negative_check_fires features xgb iso = false <->
    (duplicate_claim_flag features = 0%Z
     /\ rapid_readmission features = 0%Z
     /\ (amount_vs_org_avg features <= 2.5)%Q
     /\ (missing_required_fields features <= 0)%Z
     /\ (org_historical_fraud_rate features <= 0.10)%Q
     /\ (xgb <= 0.7)%Q
     /\ (iso <= 0.65)%Q)).
  { unfold Views.negative_check_fires.
    repeat rewrite orb_false_iff. repeat rewrite negb_false_iff.
    rewrite !Z.eqb_eq, Z.ltb_ge, !Qgt_bool_false. tauto. }
  rewrite <- Hconds.
  unfold build_explanation. cbv zeta. rewrite summaries_truthy_iff.
  destruct (Views.negative_check_fires features xgb iso).
  - split; [|discriminate]. intros H. exfalso.
    apply (append_cancel_l "CareVerify Trust Score: ") in H.
    apply append_cancel_l in H.
    apply (append_cancel_l "/100. ") in H.
    discriminate H.
  - split; reflexivity.
Qed.

End ExplanationFacts.

(** ** The fact extractor on non-empty text *)

Section ExtractorFacts.

Import Extraction.
Local Open Scope string_scope.

Lemma compare_gt_lt x y : String.compare x y = Gt -> String.compare y x = Lt.
Proof. intros H. rewrite String.compare_antisym, H. reflexivity. Qed.

Lemma str_lt_trans a b c : Views.str_lt a b -> Views.str_lt b c -> Views.str_lt a c.
Proof.
  unfold Views.str_lt. intros H1 H2.
  apply String_as_OT.cmp_lt. apply String_as_OT.cmp_lt in H1, H2.
  eapply String_as_OT.lt_trans; eassumption.
Qed.

Lemma insert_unique_In x y l : In y (Py.insert_unique x l) <-> y = x \/ In y l.
Proof.
  induction l as [|z l IH]; cbn [Py.insert_unique In].
  - intuition.
  - destruct (String.compare x z) eqn:E; cbn [In].
    + apply String.compare_eq_iff in E. subst. intuition.
    + intuition.
    + rewrite IH. intuition.
Qed.

Lemma sorted_set_In y l : In y (Py.sorted_set l) <-> In y l.
Proof.
  induction l as [|x l IH]; cbn [Py.sorted_set fold_right In]; [tauto|].
  fold (Py.sorted_set l). rewrite insert_unique_In, IH. intuition.
Qed.

Lemma insert_unique_sorted x l :
  Sorted Views.str_lt l -> Sorted Views.str_lt (Py.insert_unique x l).
Proof.
  induction l as [|y l IH]; intros Hs; cbn [Py.insert_unique].
  - repeat constructor.
  - destruct (String.compare x y) eqn:E.
    + exact Hs.
    + constructor; [exact Hs|]. constructor. exact E.
    + inversion Hs as [|? ? Hs' Hhd]; subst.
      constructor; [now apply IH|].
      destruct l as [|z l]; cbn [Py.insert_unique].
      * constructor. now apply compare_gt_lt.
      * destruct (String.compare x z) eqn:E'.
        -- exact Hhd.
        -- constructor. now apply compare_gt_lt.
        -- inversion Hhd; subst. now constructor.
Qed.

Lemma sorted_set_sorted l : Sorted Views.str_lt (Py.sorted_set l).
Proof.
  induction l as [|x l IH]; cbn [Py.sorted_set fold_right]; [constructor|].
  now apply insert_unique_sorted.
Qed.

Lemma sorted_set_nil_iff l : Py.sorted_set l = [] <-> l = [].
Proof.
  split; [|intros ->; reflexivity].
  destruct l as [|x l]; [reflexivity|]. intros H.
  assert (Hin : In x (Py.sorted_set (x :: l))) by (apply sorted_set_In; now left).
  rewrite H in Hin. destruct Hin.
Qed.

(** The fields of [extract] once the text is not empty. *)
Lemma extract_nonempty rx text :
  text <> "" ->
  let D := Py.sorted_set (map Py.upper (ICD_findall rx text)) in
  let P := Py.sorted_set (CPT_findall rx text) in
  let PH := extract_physician_identifiers rx text in
  let A := extract_authorization_indicators rx text in
  diagnosis_codes (extract rx text) = D
  /\ procedure_codes (extract rx text) = P
  /\ physician_identifiers (extract rx text) = PH
  /\ authorization_indicators (extract rx text) = A
  /\ (matched_policies (extract rx text), detected_risks (extract rx text),
      is_consistent (extract rx text))
     = build_policy_and_risk_signals D P PH A
  /\ confidence (extract rx text)
     = (if is_consistent (extract rx text) then 0.95
        else if Py.truthy_list D || Py.truthy_list P then 0.72 else 0.4)%Q.
Proof.
  intros Htext D P PH A. unfold extract.
  assert (Ht : Py.truthy_str text = true).
  { unfold Py.truthy_str. apply negb_true_iff. now apply String.eqb_neq. }
  rewrite Ht. cbn [negb]. fold D P PH A.
  destruct (build_policy_and_risk_signals D P PH A) as [[mp dr] ic].
  cbn. repeat split; reflexivity.
Qed.

(** X7.  On non-empty text the code lists of [extract] are strictly
    ascending (sorted, no duplicate); the diagnosis codes are exactly the
    upper-cased ICD matches, the procedure codes exactly the CPT matches,
    and the provider identifiers exactly the NPI matches prefixed "NPI:"
    and the name matches prefixed "PROVIDER:". *)
Theorem X7_extract_code_lists (rx : Patterns) (text : string) :
  text <> "" ->
  Sorted Views.str_lt (diagnosis_codes (extract rx text))
  /\ Sorted Views.str_lt (procedure_codes (extract rx text))
  /\ Sorted Views.str_lt (physician_identifiers (extract rx text))
  /\ (forall c, In c (diagnosis_codes (extract rx text))
                <-> exists m, In m (ICD_findall rx text) /\ c = Py.upper m)
  /\ (forall c, In c (procedure_codes (extract rx text)) <-> In c (CPT_findall rx text))
  /\ (forall c, In c (physician_identifiers (extract rx text))
                <-> (exists n, In n (NPI_findall rx text) /\ c = "NPI:" ++ n)
                    \/ (exists n, In n (DOCTOR_findall rx text) /\ c = "PROVIDER:" ++ n)).
Proof.
  intros Htext.
  destruct (extract_nonempty rx text Htext) as (-> & -> & -> & _).
  split; [apply sorted_set_sorted|].
  split; [apply sorted_set_sorted|].
  split; [apply sorted_set_sorted|].
  split; [|split].
  - intros c. rewrite sorted_set_In, in_map_iff. split.
    + intros (m & <- & Hm). now exists m.
    + intros (m & Hm & ->). now exists m.
  - intros c. apply sorted_set_In.
  - intros c. unfold extract_physician_identifiers. cbv zeta.
    rewrite sorted_set_In, in_app_iff, !in_map_iff. split.
    + intros [(n & <- & Hn) | (n & <- & Hn)]; [left | right]; now exists n.
    + intros [(n & Hn & ->) | (n & Hn & ->)]; [left | right]; now exists n.
Qed.

Lemma X7_extract_code_lists_witness :
  diagnosis_codes (extract Samples.full_match "J18.9 and 99213") = ["J18.9"]
  /\ Sorted Views.str_lt (diagnosis_codes (extract Samples.full_match "J18.9 and 99213")).
Proof.
  split; [vm_compute; reflexivity|].
  destruct (X7_extract_code_lists Samples.full_match "J18.9 and 99213") as [H _];
    [discriminate | exact H].
Defined.

End ExtractorFacts.

Section PolicyFacts.

Import Extraction.
Local Open Scope string_scope.

(** X8.  On non-empty text: the facts are consistent exactly when
    diagnosis codes, procedure codes, an authorization indicator and a
    provider identifier were all found, which is exactly when no risk is
    detected; each risk tag is present exactly when its evidence is
    missing; NO_TEXT_AVAILABLE never appears; and the confidence is 0.95
    when consistent, 0.4 when no code at all was found, 0.72 otherwise. *)
Theorem X8_extract_policy_and_risk_signals (rx : Patterns) (text : string) :
  text <> "" ->
  let fx := extract rx text in
  (is_consistent fx = true <->
     diagnosis_codes fx <> [] /\ procedure_codes fx <> []
     /\ authorization_indicators fx <> [] /\ physician_identifiers fx <> [])
  /\ (is_consistent fx = true <-> detected_risks fx = [])
  /\ (In "MISSING_AUTHORIZATION" (detected_risks fx) <-> authorization_indicators fx = [])
  /\ (In "MISSING_PROVIDER_IDENTIFIER" (detected_risks fx) <-> physician_identifiers fx = [])
  /\ (In "DIAGNOSIS_PROCEDURE_MISMATCH" (detected_risks fx)
      <-> diagnosis_codes fx = [] \/ procedure_codes fx = [])
  /\ (In "NO_BILLABLE_CODE_EXTRACTED" (detected_risks fx)
      <-> diagnosis_codes fx = [] /\ procedure_codes fx = [])
  /\ ~ In "NO_TEXT_AVAILABLE" (detected_risks fx)
  /\ (is_consistent fx = true <-> confidence fx = 0.95%Q)
  /\ (diagnosis_codes fx = [] /\ procedure_codes fx = [] <-> confidence fx = 0.4%Q).
Proof.
  intros Htext fx.
  destruct (extract_nonempty rx text Htext) as (HD & HP & HPH & HA & Hsig & Hconf).
  fold fx in HD, HP, HPH, HA, Hsig, Hconf.
  rewrite HD, HP, HPH, HA.
  set (D := Py.sorted_set (map Py.upper (ICD_findall rx text))) in *.
  set (P := Py.sorted_set (CPT_findall rx text)) in *.
  set (PH := extract_physician_identifiers rx text) in *.
  set (A := extract_authorization_indicators rx text) in *.
  clearbody D P PH A. clear HD HP HPH HA.
  remember (build_policy_and_risk_signals D P PH A) as sig eqn:Es.
  destruct D as [|d D], P as [|p P], PH as [|ph PH], A as [|a A];
    vm_compute in Es; subst sig; injection Hsig as _ Hr Hc;
    rewrite Hc in Hconf; cbn [Py.truthy_list orb] in Hconf;
    rewrite Hr, Hc, Hconf; cbn [In];
    repeat split; intros; try discriminate; try tauto;
    intuition (try discriminate; try congruence).
Qed.

Lemma X8_extract_policy_and_risk_signals_witness :
  detected_risks (extract Samples.full_match "J18.9 and 99213") = []
  /\ is_consistent (extract Samples.full_match "J18.9 and 99213") = true.
Proof.
  split; [vm_compute; reflexivity|].
  destruct (X8_extract_policy_and_risk_signals Samples.full_match "J18.9 and 99213")
    as (_ & H & _); [discriminate|].
  apply H. vm_compute. reflexivity.
Defined.

End PolicyFacts.

(** ** The feature builder *)

Section FeatureBuilderFacts.

Import Ensemble FeatureBuilder.
Local Open Scope string_scope.
Local Open Scope Z_scope.

Lemma b2z_flag b : Z.b2z b = 0 \/ Z.b2z b = 1.
Proof. destruct b; [right | left]; reflexivity. Qed.

Lemma filter_length_le {A : Type} (p : A -> bool) (l : list A) :
  (length (filter p l) <= length l)%nat.
Proof.
  induction l as [|x l IH]; cbn [filter length]; [lia|].
  destruct (p x); cbn [length]; lia.
Qed.

Lemma ocr_completeness_facts ocr_data :
  0 <= snd (ocr_completeness ocr_data) <= 4
  /\ (fst (ocr_completeness ocr_data)
      == 1 - inject_Z (snd (ocr_completeness ocr_data)) / 4)%Q.
Proof.
  unfold ocr_completeness. cbv zeta. cbn [fst snd].
  set (req := ["patient_name"; "admission_date"; "diagnosis"; "total_amount"]).
  pose proof (filter_length_le (ocr_present ocr_data) req) as Hle.
  change (length req) with 4%nat in *.
  set (present := Z.of_nat (length (filter (ocr_present ocr_data) req))) in *.
  assert (Hp : 0 <= present <= 4) by (unfold present; lia).
  split; [change (Z.of_nat 4) with 4; lia|].
  unfold qlen. change (inject_Z (Z.of_nat 4)) with 4%Q.
  rewrite (py_round_comp _ (inject_Z (250 * present) / inject_Z (pow10 3))).
  - rewrite py_round_exact. change (Z.of_nat 4) with 4.
    change (inject_Z (pow10 3)) with 1000%Q.
    unfold Zminus. rewrite inject_Z_plus, inject_Z_opp, inject_Z_mult.
    change (inject_Z 250) with 250%Q. change (inject_Z 4) with 4%Q.
    generalize (inject_Z present). intros q. field.
  - change (inject_Z (pow10 3)) with 1000%Q. rewrite inject_Z_mult.
    change (inject_Z 250) with 250%Q.
    change (inject_Z (Z.of_nat (length req))) with 4%Q.
    generalize (inject_Z present). intros q. field.
Qed.

Lemma org_stats_rate_range env db org :
  (0 <= s_historical_fraud_rate (get_org_stats env db org) <= 1)%Q
  /\ 0 <= s_claim_volume_30d (get_org_stats env db org).
Proof.
  assert (Hdef : (0 <= 0.05 <= 1)%Q) by (split; vm_compute; discriminate).
  unfold get_org_stats. destruct db as [t|]; [|split; [exact Hdef | cbn; lia]].
  cbv zeta.
  set (recent := filter _ (claims t)).
  assert (Hrest :
    (0 <= (if Py.truthy_list recent
           then qlen (filter is_fraud_claim recent) / qlen recent else 0.05) <= 1)%Q).
  { destruct recent as [|r rs] eqn:E; cbn [Py.truthy_list]; [exact Hdef|].
    rewrite <- E.
    assert (Hn : (0 < qlen recent)%Q).
    { unfold qlen. apply inject_length_pos. rewrite E. discriminate. }
    assert (Hf : (0 <= qlen (filter is_fraud_claim recent))%Q)
      by (unfold qlen; apply inject_length_nonneg).
    assert (Hfl : (qlen (filter is_fraud_claim recent) <= qlen recent)%Q).
    { unfold qlen. rewrite <- Zle_Qle. apply inj_le, filter_length_le. }
    split.
    - apply Qle_shift_div_l; [exact Hn | lra].
    - apply Qle_shift_div_r; [exact Hn | lra]. }
  destruct (find _ (organizations t)) as [o|].
  - destruct (org_trust o) as [trust|]; cbn [s_historical_fraud_rate s_claim_volume_30d].
    + split; [apply Hrest | lia].
    + unfold default_org_stats. cbn [s_historical_fraud_rate s_claim_volume_30d].
      split; [exact Hdef | lia].
  - cbn [s_historical_fraud_rate s_claim_volume_30d].
    split; [apply Hrest | lia].
Qed.

Lemma length_of_stay_nonneg env claim : 0 <= compute_length_of_stay env claim.
Proof.
  unfold compute_length_of_stay.
  destruct (c_admission_date claim); [|lia].
  destruct (c_discharge_date claim); [|lia].
  destruct (fromisoformat env s); [|lia].
  destruct (fromisoformat env s0); lia.
Qed.

(** X9.  Every feature record that [build_features] returns has its five
    flags equal to 0 or 1, the provider-combination flag and the urgency
    score equal to 0, a length of stay that is not negative, between 0 and
    4 missing required fields with completeness [1 - missing / 4], the
    code counts equal to the lengths of the code lists, a fraud rate in
    [0, 1] and a claim volume that is not negative. *)
Theorem X9_build_features_invariants
    (env : Env) (db : option Tables) (claim : ClaimInput)
    (ocr_data : option Revalidation.OcrData) (nlp : Q) (f : ClaimFeatures) :
  build_features env db claim ocr_data nlp = Some f ->
  (is_weekend_admission f = 0 \/ is_weekend_admission f = 1)
  /\ (Ensemble.is_holiday f = 0 \/ Ensemble.is_holiday f = 1)
  /\ (has_high_value_procedures f = 0 \/ has_high_value_procedures f = 1)
  /\ (duplicate_claim_flag f = 0 \/ duplicate_claim_flag f = 1)
  /\ (rapid_readmission f = 0 \/ rapid_readmission f = 1)
  /\ unusual_provider_combo f = 0
  /\ nlp_urgency_score f = 0%Q
  /\ 0 <= length_of_stay f
  /\ 0 <= missing_required_fields f <= 4
  /\ (ocr_completeness_score f == 1 - inject_Z (missing_required_fields f) / 4)%Q
  /\ procedure_count f = Z.of_nat (length (c_procedure_codes claim))
  /\ diagnosis_count f = Z.of_nat (length (c_diagnosis_codes claim))
  /\ (0 <= org_historical_fraud_rate f <= 1)%Q
  /\ 0 <= org_claim_volume_30d f.
Proof.
  unfold build_features. cbv zeta.
  pose proof (ocr_completeness_facts (match ocr_data with Some d => d | None => [] end))
    as [Hm Hc].
  destruct (ocr_completeness (match ocr_data with Some d => d | None => [] end))
    as [completeness missing].
  cbn [fst snd] in Hm, Hc.
  destruct (any_high_value (c_procedure_codes claim)) as [hv|]; [|discriminate].
  intros [= <-].
  cbn [is_weekend_admission Ensemble.is_holiday has_high_value_procedures
       duplicate_claim_flag rapid_readmission unusual_provider_combo nlp_urgency_score
       length_of_stay missing_required_fields ocr_completeness_score procedure_count
       diagnosis_count org_historical_fraud_rate org_claim_volume_30d].
  pose proof (org_stats_rate_range env db (c_hospital_org_id claim)) as [Hrate Hvol].
  repeat (split; [first [apply b2z_flag | reflexivity | apply length_of_stay_nonneg
                        | exact Hc | exact Hrate | lia]|]).
  exact Hvol.
Qed.

Lemma X9_build_features_invariants_witness :
  exists f,
    build_features Samples.sample_env (Some Samples.sample_tables) Samples.sample_claim
                   (Some [("patient_name", "A. Rao"); ("dob", "")]) 0
    = Some f
    /\ length_of_stay f = 4
    /\ rapid_readmission f = 1
    /\ missing_required_fields f = 3
    /\ (duplicate_claim_flag f = 0 \/ duplicate_claim_flag f = 1).
Proof.
  eexists. split; [reflexivity|].
  split; [vm_compute; reflexivity|].
  split; [vm_compute; reflexivity|].
  split; [vm_compute; reflexivity|].
  eapply (X9_build_features_invariants
            Samples.sample_env (Some Samples.sample_tables) Samples.sample_claim
            (Some [("patient_name", "A. Rao"); ("dob", "")]) 0).
  reflexivity.
Defined.

End FeatureBuilderFacts.

Section FeatureBuilderEdges.

Import Ensemble FeatureBuilder.
Local Open Scope string_scope.
Local Open Scope Z_scope.

Lemma any_high_value_none codes :
  any_high_value codes = None <->
  exists pre rest,
    codes = (pre ++ "" :: rest)%list
    /\ Forall (fun c => exists a s, c = String a s
                                    /\ existsb (Ascii.eqb a) HIGH_VALUE_CPT_PREFIXES = false)
              pre.
Proof.
  induction codes as [|c codes IH]; cbn [any_high_value].
  - split; [discriminate|]. intros (pre & rest & E & _). destruct pre; discriminate.
  - destruct c as [|a s].
    + split; [|reflexivity]. intros _. exists [], codes. split; [reflexivity | constructor].
    + destruct (existsb (Ascii.eqb a) HIGH_VALUE_CPT_PREFIXES) eqn:Hv.
      * split; [discriminate|]. intros (pre & rest & E & Hall).
        destruct pre as [|p pre]; [discriminate|].
        injection E as <- _. inversion Hall as [|? ? (a' & s' & Ea & Hf) _]; subst.
        injection Ea as <- <-. congruence.
      * rewrite IH. split.
        -- intros (pre & rest & -> & Hall). exists (String a s :: pre), rest.
           split; [reflexivity|]. constructor; [|exact Hall]. now exists a, s.
        -- intros (pre & rest & E & Hall).
           destruct pre as [|p pre]; [discriminate|].
           injection E as <- ->. inversion Hall; subst. now exists pre, rest.
Qed.

(** X10.  [build_features] fails to return (the [IndexError] of
    [str(c)[0]]) exactly when the procedure codes contain an empty code
    that no code starting with 3, 4, 5, 6 or 7 precedes; in every other
    case it returns a feature record. *)
Theorem X10_build_features_raises_iff_leading_empty_code
    (env : Env) (db : option Tables) (claim : ClaimInput)
    (ocr_data : option Revalidation.OcrData) (nlp : Q) :
  build_features env db claim ocr_data nlp = None <->
  exists pre rest,
    c_procedure_codes claim = (pre ++ "" :: rest)%list
    /\ Forall (fun c => exists a s, c = String a s
                                    /\ existsb (Ascii.eqb a) HIGH_VALUE_CPT_PREFIXES = false)
              pre.
Proof.
  rewrite <- any_high_value_none.
  unfold build_features. cbv zeta.
  destruct (ocr_completeness _) as [completeness missing].
  destruct (any_high_value (c_procedure_codes claim)); split; intros H;
    try discriminate; reflexivity.
Qed.

(** X11.  When the store cannot be reached, the features that
    [build_features] returns carry the neutral defaults: organisation
    trust 50, fraud rate 0.05, claim volume 0, both amount ratios 1, and
    neither the duplicate nor the rapid-readmission flag. *)
Theorem X11_build_features_unreachable_store
    (env : Env) (claim : ClaimInput) (ocr_data : option Revalidation.OcrData)
    (nlp : Q) (f : ClaimFeatures) :
  build_features env None claim ocr_data nlp = Some f ->
  org_trust_score f = 50%Q
  /\ org_historical_fraud_rate f = 0.05%Q
  /\ org_claim_volume_30d f = 0
  /\ amount_vs_org_avg f = 1%Q
  /\ amount_vs_procedure_avg f = 1%Q
  /\ duplicate_claim_flag f = 0
  /\ rapid_readmission f = 0.
Proof.
  unfold build_features. cbv zeta.
  destruct (ocr_completeness _) as [completeness missing].
  destruct (any_high_value (c_procedure_codes claim)) as [hv|]; [|discriminate].
  intros [= <-].
  cbn [org_trust_score org_historical_fraud_rate org_claim_volume_30d amount_vs_org_avg
       amount_vs_procedure_avg duplicate_claim_flag rapid_readmission
       get_org_stats default_org_stats s_trust_score s_historical_fraud_rate
       s_claim_volume_30d s_avg_claim_amount option_map].
  assert (Hproc : get_procedure_avg_amount None (c_procedure_codes claim) = 0%Q).
  { unfold get_procedure_avg_amount. destruct (negb _); reflexivity. }
  rewrite Hproc.
  assert (Hdup : Features.check_duplicate None (timestamp (utcnow env)) (claim_row_of claim)
                 = false).
  { unfold Features.check_duplicate. destruct (_ || _); reflexivity. }
  rewrite Hdup.
  assert (Hrapid : check_rapid_readmission env None claim = false).
  { unfold check_rapid_readmission. destruct (_ || _); [reflexivity|].
    destruct (c_admission_date claim) as [adm|]; [|reflexivity].
    destruct (fromisoformat env adm); reflexivity. }
  rewrite Hrapid.
  repeat split; reflexivity.
Qed.

Lemma X11_build_features_unreachable_store_witness :
  exists f,
    build_features Samples.sample_env None Samples.sample_claim None 0 = Some f
    /\ amount_vs_org_avg f = 1%Q
    /\ rapid_readmission f = 0.
Proof.
  eexists. split; [reflexivity|].
  destruct (X11_build_features_unreachable_store
              Samples.sample_env Samples.sample_claim None 0 _ eq_refl)
    as (_ & _ & _ & Hr & _ & _ & Hrr).
  split; [exact Hr | exact Hrr].
Defined.

(** X12.  [_check_rapid_readmission] answers true exactly when the claim
    has a patient and an admission date that parses, and some other claim
    row of that patient has a discharge date in the thirty days before the
    admission, the admission instant itself excluded. *)
Theorem X12_rapid_readmission_decides (env : Env) (t : Tables) (claim : ClaimInput) :
  check_rapid_readmission env (Some t) claim = true <->
  Py.truthy_opt_str (c_patient_id claim) = true
  /\ exists adm adm_date,
       c_admission_date claim = Some adm
       /\ adm <> ""
       /\ fromisoformat env adm = Some adm_date
       /\ exists r d,
            In r (claims t)
            /\ Features.opt_str_eqb (patient_id r) (c_patient_id claim) = true
            /\ id r <> c_id claim
            /\ discharge_date r = Some d
            /\ timestamp adm_date - Features.timedelta_days 30 <= d < timestamp adm_date.
Proof.
  unfold check_rapid_readmission.
  destruct (Py.truthy_opt_str (c_patient_id claim)); cbn [negb orb];
    [|split; [discriminate | intros [H _]; discriminate]].
  destruct (c_admission_date claim) as [adm|]; cbn [Py.truthy_opt_str];
    [|split; [discriminate | intros (_ & adm & ? & H & _); discriminate]].
  destruct (Py.truthy_str adm) eqn:Hadm; cbn [negb].
  2:{ split; [discriminate|]. intros (_ & adm' & ? & [= <-] & Hne & _).
      unfold Py.truthy_str in Hadm. apply negb_false_iff, String.eqb_eq in Hadm.
      contradiction. }
  assert (Hne : adm <> "").
  { unfold Py.truthy_str in Hadm. apply negb_true_iff, String.eqb_neq in Hadm. exact Hadm. }
  destruct (fromisoformat env adm) as [adm_date|] eqn:Hparse.
  2:{ split; [discriminate|]. intros (_ & adm' & ? & [= <-] & _ & Hp & _). congruence. }
  set (keep := fun r : Row => _).
  split.
  - intros H. apply Z.ltb_lt in H. split; [reflexivity|].
    exists adm, adm_date. repeat split; trivial.
    destruct (filter keep (claims t)) as [|r rest] eqn:E; [cbn in H; lia|].
    assert (Hin : In r (filter keep (claims t))) by (rewrite E; now left).
    apply filter_In in Hin. destruct Hin as [Hin Hk]. unfold keep in Hk.
    apply andb_true_iff in Hk. destruct Hk as [Hk Hd].
    apply andb_true_iff in Hk. destruct Hk as [Hp Hi].
    destruct (discharge_date r) as [d|] eqn:Ed; [|discriminate].
    apply andb_true_iff in Hd. destruct Hd as [Hlo Hhi].
    apply Z.leb_le in Hlo. apply Z.ltb_lt in Hhi.
    apply negb_true_iff, String.eqb_neq in Hi.
    exists r, d. repeat split; trivial.
  - intros (_ & adm' & adm_date' & [= <-] & _ & Hp & r & d & Hin & Hpat & Hid & Hd & Hlo & Hhi).
    rewrite Hparse in Hp. injection Hp as <-.
    assert (Hf : In r (filter keep (claims t))).
    { apply filter_In. split; [exact Hin|]. unfold keep.
      apply String.eqb_neq in Hid. rewrite Hpat, Hid, Hd. cbn [negb andb].
      apply andb_true_iff. split; [now apply Z.leb_le | now apply Z.ltb_lt]. }
    apply Z.ltb_lt. destruct (filter keep (claims t)); [destruct Hf | cbn; lia].
Qed.

Lemma firstn_firstn_same {A : Type} (n : nat) (l : list A) :
  firstn n (firstn n l) = firstn n l.
Proof.
  revert l. induction n as [|n IH]; intros l; [reflexivity|].
  destruct l as [|x l]; [reflexivity|]. cbn [firstn]. now rewrite IH.
Qed.

(** X13.  Only the first three procedure codes reach the lookup of
    [_get_procedure_avg_amount]: the average for a code list is the
    average for its first three codes, and it is 0.0 for an empty list or
    an unreachable store. *)
Theorem X13_procedure_average_uses_first_three_codes (db : option Tables) (codes : list string) :
  get_procedure_avg_amount db codes = get_procedure_avg_amount db (firstn 3 codes)
  /\ get_procedure_avg_amount db [] = 0%Q
  /\ get_procedure_avg_amount None codes = 0%Q.
Proof.
  split; [|split].
  - unfold get_procedure_avg_amount. rewrite firstn_firstn_same.
    destruct codes as [|c codes]; reflexivity.
  - reflexivity.
  - unfold get_procedure_avg_amount. destruct (negb _); reflexivity.
Qed.

End FeatureBuilderEdges.

(** ** More on the revalidation cycle *)

Section RevalidationMore.

Import Revalidation.
Local Open Scope string_scope.

(** X14.  A call answers "Claim not found" when the claim is missing and
    "No documents found for claim" when only its documents are; it ends
    with the exception of the feature builder when that raises; in these
    three cases the store is left as it was.  It returns a result exactly
    when the claim exists, has at least one document and the feature
    builder returns. *)
Theorem X14_revalidate_error_paths (K : Collaborators) (s : Store) (claim_id : string) :
  (select_claim s claim_id = None ->
     revalidate_claim K s claim_id = (s, Error "Claim not found" claim_id))
  /\ (select_claim s claim_id <> None -> select_documents s claim_id = [] ->
     revalidate_claim K s claim_id = (s, Error "No documents found for claim" claim_id))
  /\ (forall claim,
        select_claim s claim_id = Some claim -> select_documents s claim_id <> [] ->
        build_features K claim (Views.cycle_ocr_data K s claim_id) = None ->
        revalidate_claim K s claim_id = (s, Raised))
  /\ ((exists r, snd (revalidate_claim K s claim_id) = Done r)
      <-> exists claim,
            select_claim s claim_id = Some claim
            /\ select_documents s claim_id <> []
            /\ build_features K claim (Views.cycle_ocr_data K s claim_id) <> None).
Proof.
  destruct (revalidate_claim_cases K s claim_id)
    as [(Hnone & Hrun) | [(c & Hc & Hnodocs & Hrun) | [(c & Hc & Hdocs & Hbuild & Hrun)
       | (c & features & r & u & Hc & Hdocs & Hbuild & Hdone)]]].
  - split; [intros _; exact Hrun|]. split; [intros H; contradiction|].
    split; [intros claim H; congruence|]. split.
    + intros [r Hr]. rewrite Hrun in Hr. discriminate.
    + intros (claim & H & _). congruence.
  - split; [congruence|]. split; [intros _ _; exact Hrun|].
    split; [intros claim _ H; contradiction|]. split.
    + intros [r Hr]. rewrite Hrun in Hr. discriminate.
    + intros (claim & _ & H & _). contradiction.
  - split; [congruence|]. split; [intros _ H; contradiction|].
    split; [intros claim _ _ _; exact Hrun|]. split.
    + intros [r Hr]. rewrite Hrun in Hr. discriminate.
    + intros (claim & Hsel & _ & Hb). rewrite Hc in Hsel. injection Hsel as <-.
      contradiction.
  - split; [congruence|]. split; [intros _ H; contradiction|].
    split; [intros claim Hsel _ Hb; congruence|]. split.
    + intros _. exists c. split; [exact Hc|]. split; [exact Hdocs|]. congruence.
    + intros _. exists r. now rewrite (Views.done_run _ _ _ _ _ _ _ Hdone).
Qed.

Lemma X14_revalidate_error_paths_witness :
  revalidate_claim Scenario.plain Scenario.store "c9"
  = (Scenario.store, Error "Claim not found" "c9")
  /\ revalidate_claim Samples.with_builder Samples.empty_code_store "c3"
     = (Samples.empty_code_store, Raised).
Proof.
  split.
  - apply (X14_revalidate_error_paths Scenario.plain Scenario.store "c9"). reflexivity.
  - destruct (X14_revalidate_error_paths Samples.with_builder Samples.empty_code_store "c3")
      as (_ & _ & Hraised & _).
    apply (Hraised (mkClaim "c3" (Some "draft") [] [""] None None None None)).
    + reflexivity.
    + discriminate.
    + reflexivity.
Defined.

Lemma select_claim_update_other s claim_id u other :
  other <> claim_id ->
  select_claim (update_claim s claim_id u) other = select_claim s other.
Proof.
  intros Hne. unfold select_claim, update_claim. cbn [claims].
  induction (claims s) as [|c cs IH]; cbn [find map]; [reflexivity|].
  destruct (String.eqb_spec (id c) claim_id) as [E|E].
  - cbn [apply_update id]. rewrite E.
    assert (Hf : String.eqb claim_id other = false)
      by (apply String.eqb_neq; congruence).
    rewrite Hf. exact IH.
  - destruct (String.eqb (id c) other); [reflexivity | exact IH].
Qed.

Lemma update_claim_ids s claim_id u :
  map id (claims (update_claim s claim_id u)) = map id (claims s).
Proof.
  unfold update_claim. cbn [claims]. rewrite map_map. apply map_ext.
  intros c. destruct (String.eqb (id c) claim_id); reflexivity.
Qed.

Lemma revalidate_claim_store K s claim_id :
  fst (revalidate_claim K s claim_id) = s
  \/ exists u,
       fst (revalidate_claim K s claim_id)
       = apply_async (update_claim s claim_id u) (follow_up claim_id).
Proof.
  destruct (revalidate_claim_cases K s claim_id)
    as [(_ & Hrun) | [(c & _ & _ & Hrun) | [(c & _ & _ & _ & Hrun)
       | (c & features & r & u & _ & _ & _ & Hdone)]]];
    try (left; now rewrite Hrun).
  right. exists u. now rewrite (Views.done_run _ _ _ _ _ _ _ Hdone).
Qed.

(** X15.  A cycle on one claim leaves every other claim row, the
    documents, the set of claim ids and the table layout as they were. *)
Theorem X15_revalidate_touches_only_its_claim
    (K : Collaborators) (s : Store) (claim_id other : string) :
  other <> claim_id ->
  select_claim (fst (revalidate_claim K s claim_id)) other = select_claim s other
  /\ claim_documents (fst (revalidate_claim K s claim_id)) = claim_documents s
  /\ extended_columns (fst (revalidate_claim K s claim_id)) = extended_columns s
  /\ map id (claims (fst (revalidate_claim K s claim_id))) = map id (claims s).
Proof.
  intros Hne.
  destruct (revalidate_claim_store K s claim_id) as [-> | [u ->]].
  - repeat split; reflexivity.
  - destruct (apply_async_tables (update_claim s claim_id u) (follow_up claim_id))
      as (Hc & Hd & He & _).
    rewrite select_claim_apply_async, Hc, Hd, He.
    split; [now apply select_claim_update_other|].
    split; [reflexivity|]. split; [reflexivity | apply update_claim_ids].
Qed.

Lemma X15_revalidate_touches_only_its_claim_witness :
  select_claim (fst (revalidate_claim Scenario.plain Scenario.store "c2")) "c1"
  = Some Scenario.draft_claim.
Proof.
  destruct (X15_revalidate_touches_only_its_claim Scenario.plain Scenario.store "c2" "c1")
    as [H _]; [discriminate|].
  rewrite H. reflexivity.
Defined.

End RevalidationMore.

Section RevalidationRouting.

Import Revalidation.
Local Open Scope string_scope.

(** The fields of a completed cycle, read from its result alone. *)
Lemma done_fields K s claim_id r :
  snd (revalidate_claim K s claim_id) = Done r ->
  exists claim,
    select_claim s claim_id = Some claim
    /\ r_recommendation r = Ensemble.determine_recommendation (r_trust_score r)
    /\ r_reviewer_suggestion r
       = build_reviewer_suggestion (r_recommendation r) (r_detected_risks r)
    /\ r_auto_approval_eligible r =
         (String.eqb (r_recommendation r) "AUTO_APPROVE"
          && negb (Py.str_in "MISSING_AUTHORIZATION" (r_detected_risks r))
          && negb (Py.str_in "MISSING_PROVIDER_IDENTIFIER" (r_detected_risks r)))
    /\ r_claim_status r =
         (if Views.is_draft claim
          then "draft" else map_recommendation_to_status (r_recommendation r))
    /\ r_workflow_stage r =
         (if Views.is_draft claim
          then "pre_submission_revalidation"
          else if String.eqb (r_recommendation r) "AUTO_APPROVE"
               then "auto_approval_review" else "compliance_review").
Proof.
  intros Hrun.
  destruct (done_completes K s claim_id r Hrun)
    as (claim & features & u & Hsel & _ & _ & Hdone).
  exists claim. split; [exact Hsel|]. split.
  - rewrite (Views.done_recommendation _ _ _ _ _ _ _ Hdone),
      (Views.done_trust _ _ _ _ _ _ _ Hdone).
    apply analyze_recommendation.
  - split; [apply (Views.done_suggestion _ _ _ _ _ _ _ Hdone)|].
    split; [apply (Views.done_eligible _ _ _ _ _ _ _ Hdone)|].
    split; [apply (Views.done_status _ _ _ _ _ _ _ Hdone)
           | apply (Views.done_stage _ _ _ _ _ _ _ Hdone)].
Qed.

Lemma not_draft_test (claim : Claim) :
  status claim <> Some "draft" -> Views.is_draft claim = false.
Proof.
  intros H. unfold Views.is_draft. destruct (status claim) as [x|]; [|reflexivity].
  apply String.eqb_neq. congruence.
Qed.

Lemma recommendation_cases t :
  (85 <= t /\ Ensemble.determine_recommendation t = "AUTO_APPROVE")%Q
  \/ (60 <= t /\ t < 85 /\ Ensemble.determine_recommendation t = "APPROVE_WITH_REVIEW")%Q
  \/ (40 <= t /\ t < 60
      /\ Ensemble.determine_recommendation t = "COMPLIANCE_REVIEW_REQUIRED")%Q
  \/ (t < 40 /\ Ensemble.determine_recommendation t = "HIGH_RISK_HOLD")%Q.
Proof.
  unfold Ensemble.determine_recommendation.
  destruct (Ensemble.Qge_bool t 85) eqn:E85;
    [apply Qge_bool_true in E85; left; auto | apply Qge_bool_false in E85].
  destruct (Ensemble.Qge_bool t 60) eqn:E60;
    [apply Qge_bool_true in E60; right; left; auto | apply Qge_bool_false in E60].
  destruct (Ensemble.Qge_bool t 40) eqn:E40;
    [apply Qge_bool_true in E40; right; right; left; auto
    | apply Qge_bool_false in E40; right; right; right; auto].
Qed.

(** X16.  For a claim that is not a draft, a completed cycle routes by the
    trust score alone: the written status is "pending_review" exactly when
    the score is at least 60 and "compliance_review" otherwise, and the
    stage is "auto_approval_review" exactly when the score is at least 85
    and "compliance_review" otherwise. *)
Theorem X16_non_draft_routing_by_trust
    (K : Collaborators) (s : Store) (claim_id : string) (claim : Claim) (r : Revalidated) :
  select_claim s claim_id = Some claim ->
  status claim <> Some "draft" ->
  snd (revalidate_claim K s claim_id) = Done r ->
  (r_claim_status r = "pending_review" <-> (60 <= r_trust_score r)%Q)
  /\ (r_claim_status r = "compliance_review" <-> (r_trust_score r < 60)%Q)
  /\ (r_workflow_stage r = "auto_approval_review" <-> (85 <= r_trust_score r)%Q)
  /\ (r_workflow_stage r = "compliance_review" <-> (r_trust_score r < 85)%Q).
Proof.
  intros Hsel Hnd Hrun.
  destruct (done_fields K s claim_id r Hrun) as (claim' & Hsel' & Hrec & _ & _ & Hst & Hws).
  rewrite Hsel in Hsel'. injection Hsel' as <-.
  rewrite (not_draft_test _ Hnd) in Hst, Hws.
  rewrite Hst, Hws, Hrec.
  destruct (recommendation_cases (r_trust_score r))
    as [(H1 & ->) | [(H1 & H2 & ->) | [(H1 & H2 & ->) | (H1 & ->)]]];
    cbn; repeat split; intros; try discriminate; try reflexivity; lra.
Qed.

Lemma X16_non_draft_routing_by_trust_witness :
  snd (revalidate_claim Scenario.plain Scenario.store "c2") = Done Samples.submitted_result
  /\ (r_claim_status Samples.submitted_result = "pending_review"
      <-> (60 <= r_trust_score Samples.submitted_result)%Q).
Proof.
  assert (Hrun : snd (revalidate_claim Scenario.plain Scenario.store "c2")
                 = Done Samples.submitted_result) by (vm_compute; reflexivity).
  split; [exact Hrun|].
  assert (Hnd : status Scenario.submitted_claim <> Some "draft") by discriminate.
  exact (proj1 (X16_non_draft_routing_by_trust
                  Scenario.plain Scenario.store "c2" Scenario.submitted_claim
                  Samples.submitted_result eq_refl Hnd Hrun)).
Defined.

(** X17.  Whenever a completed cycle declares the claim eligible for
    auto-approval, the trust score is at least 85, the reviewer guidance
    is the low-risk text, and the stage is not "compliance_review". *)
Theorem X17_eligible_implies_low_risk_guidance
    (K : Collaborators) (s : Store) (claim_id : string) (r : Revalidated) :
  snd (revalidate_claim K s claim_id) = Done r ->
  r_auto_approval_eligible r = true ->
  (85 <= r_trust_score r)%Q
  /\ r_reviewer_suggestion r
     = "Low-risk claim profile. Approve unless manual discrepancy is identified."
  /\ r_workflow_stage r <> "compliance_review".
Proof.
  intros Hrun Hel.
  destruct (done_fields K s claim_id r Hrun) as (claim & _ & Hrec & Hsug & Helig & _ & Hws).
  rewrite Helig in Hel.
  apply andb_true_iff in Hel. destruct Hel as [Hel _].
  apply andb_true_iff in Hel. destruct Hel as [Hauto _].
  split; [|split].
  - apply String.eqb_eq in Hauto. rewrite Hrec in Hauto.
    destruct (recommendation_cases (r_trust_score r))
      as [(H1 & _) | [(_ & _ & E) | [(_ & _ & E) | (_ & E)]]];
      [exact H1 | | |]; rewrite E in Hauto; discriminate.
  - rewrite Hsug. unfold build_reviewer_suggestion. now rewrite Hauto.
  - rewrite Hws, Hauto.
    destruct (Views.is_draft claim); discriminate.
Qed.

Lemma X17_eligible_implies_low_risk_guidance_witness :
  snd (revalidate_claim Scenario.plain Samples.blank_store "c2") = Done Samples.blank_result
  /\ r_auto_approval_eligible Samples.blank_result = true
  /\ (85 <= r_trust_score Samples.blank_result)%Q.
Proof.
  assert (Hrun : snd (revalidate_claim Scenario.plain Samples.blank_store "c2")
                 = Done Samples.blank_result) by (vm_compute; reflexivity).
  assert (Hel : r_auto_approval_eligible Samples.blank_result = true)
    by (vm_compute; reflexivity).
  split; [exact Hrun|]. split; [exact Hel|].
  exact (proj1 (X17_eligible_implies_low_risk_guidance
                  Scenario.plain Samples.blank_store "c2" Samples.blank_result Hrun Hel)).
Defined.

Lemma collect_documents_textless K docs :
  Forall Views.textless docs -> collect_documents K docs = ([], []).
Proof.
  unfold collect_documents.
  induction docs as [|d docs IH]; intros Hall; [reflexivity|].
  inversion Hall as [|? ? [Ht Hd] Hrest]; subst.
  cbn [fold_left]. rewrite Hd.
  destruct Ht as [-> | ->]; cbn [Py.truthy_str String.eqb negb]; now apply IH.
Qed.

(** X18.  When no document of the claim carries text or OCR data, a
    completed cycle detects the single risk NO_TEXT_AVAILABLE and matches
    no policy, so neither authorization nor provider evidence counts as
    missing: the claim is eligible for auto-approval exactly when the
    recommendation is AUTO_APPROVE. *)
Theorem X18_textless_documents_do_not_block_auto_approval
    (K : Collaborators) (s : Store) (claim_id : string) (r : Revalidated) :
  strip K "" = "" ->
  Forall Views.textless (select_documents s claim_id) ->
  snd (revalidate_claim K s claim_id) = Done r ->
  r_detected_risks r = ["NO_TEXT_AVAILABLE"]
  /\ r_matched_policies r = []
  /\ (r_auto_approval_eligible r = true <-> r_recommendation r = "AUTO_APPROVE").
Proof.
  intros Hstrip Hall Hrun.
  destruct (done_completes K s claim_id r Hrun)
    as (claim & features & u & Hsel & Hdocs & _ & Hdone).
  pose proof (Views.done_risks _ _ _ _ _ _ _ Hdone) as Hrisks.
  pose proof (Views.done_policies _ _ _ _ _ _ _ Hdone) as Hpol.
  pose proof (Views.done_eligible _ _ _ _ _ _ _ Hdone) as Hel.
  unfold Views.cycle_text in Hrisks, Hpol.
  rewrite (collect_documents_textless K _ Hall) in Hrisks, Hpol.
  cbn [fst Py.join String.concat] in Hrisks, Hpol. rewrite Hstrip in Hrisks, Hpol.
  cbn in Hrisks, Hpol.
  split; [exact Hrisks|]. split; [exact Hpol|].
  rewrite Hel, Hrisks. cbn [Py.str_in existsb String.eqb Ascii.eqb Bool.eqb negb orb].
  rewrite !andb_true_r. apply String.eqb_eq.
Qed.

Lemma X18_textless_documents_do_not_block_auto_approval_witness :
  snd (revalidate_claim Scenario.plain Samples.blank_store "c2") = Done Samples.blank_result
  /\ r_detected_risks Samples.blank_result = ["NO_TEXT_AVAILABLE"].
Proof.
  assert (Hrun : snd (revalidate_claim Scenario.plain Samples.blank_store "c2")
                 = Done Samples.blank_result) by (vm_compute; reflexivity).
  assert (Hall : Forall Views.textless (select_documents Samples.blank_store "c2")).
  { constructor; [|constructor]. split; [now left | reflexivity]. }
  split; [exact Hrun|].
  exact (proj1 (X18_textless_documents_do_not_block_auto_approval
                  Scenario.plain Samples.blank_store "c2" Samples.blank_result
                  eq_refl Hall Hrun)).
Defined.

(** X19.  After a completed cycle the claim row read back from the store
    carries what the cycle returned: status, recommendation, trust score
    and, in the explanation document, the risks, policies, guidance, stage
    and eligibility.  The columns of the same names are written only when
    the table has them.  The codes of the row stay non-empty if they were. *)
Theorem X19_stored_row_matches_result
    (K : Collaborators) (s : Store) (claim_id : string) (r : Revalidated) :
  snd (revalidate_claim K s claim_id) = Done r ->
  exists claim claim',
    select_claim s claim_id = Some claim
    /\ select_claim (fst (revalidate_claim K s claim_id)) claim_id = Some claim'
    /\ status claim' = Some (r_claim_status r)
    /\ ai_recommendation claim' = Some (r_recommendation r)
    /\ trust_score claim' = Some (r_trust_score r)
    /\ ai_explanation claim'
       = Some (mkIntelligence (r_matched_policies r) (r_detected_risks r)
                 (r_reviewer_suggestion r) (r_workflow_stage r)
                 (r_auto_approval_eligible r))
    /\ intelligence_columns claim'
       = (if extended_columns s then ai_explanation claim' else intelligence_columns claim)
    /\ (diagnosis_codes claim <> [] -> diagnosis_codes claim' <> [])
    /\ (procedure_codes claim <> [] -> procedure_codes claim' <> []).
Proof.
  intros Hrun.
  destruct (done_completes K s claim_id r Hrun)
    as (claim & features & u & Hsel & _ & _ & Hdone).
  exists claim, (apply_update (extended_columns s) u claim).
  split; [exact Hsel|].
  split; [now apply (completes_stored K s claim_id claim features r u)|].
  cbn [apply_update status ai_recommendation trust_score ai_explanation
       intelligence_columns diagnosis_codes procedure_codes].
  rewrite (Views.done_u_status _ _ _ _ _ _ _ Hdone),
    (Views.done_u_recommendation _ _ _ _ _ _ _ Hdone),
    (Views.done_u_trust _ _ _ _ _ _ _ Hdone),
    (Views.done_u_intelligence _ _ _ _ _ _ _ Hdone).
  repeat (split; [reflexivity|]). split.
  - intros Hne. rewrite (Views.done_diagnosis_codes _ _ _ _ _ _ _ Hdone). cbv zeta.
    destruct (Extraction.diagnosis_codes _); [exact Hne | discriminate].
  - intros Hne. rewrite (Views.done_procedure_codes _ _ _ _ _ _ _ Hdone). cbv zeta.
    destruct (Extraction.procedure_codes _); [exact Hne | discriminate].
Qed.

Lemma X19_stored_row_matches_result_witness :
  snd (revalidate_claim Scenario.plain Scenario.store "c2") = Done Samples.submitted_result
  /\ exists claim claim',
       select_claim Scenario.store "c2" = Some claim
       /\ select_claim (fst (revalidate_claim Scenario.plain Scenario.store "c2")) "c2"
          = Some claim'
       /\ status claim' = Some (r_claim_status Samples.submitted_result).
Proof.
  assert (Hrun : snd (revalidate_claim Scenario.plain Scenario.store "c2")
                 = Done Samples.submitted_result) by (vm_compute; reflexivity).
  split; [exact Hrun|].
  destruct (X19_stored_row_matches_result
              Scenario.plain Scenario.store "c2" Samples.submitted_result Hrun)
    as (claim & claim' & Hsel & Hsel' & Hst & _).
  exists claim, claim'. auto.
Defined.

End RevalidationRouting.

(** ** Violation flags, status map and organisation trust *)

Section ViolationFacts.

Import Report.
Local Open Scope string_scope.

(** X20.  The violation flags of a cycle are strictly ascending (sorted,
    no duplicate) and consist of exactly the detected risks and the
    factor texts of the negative risk factors, upper-cased with spaces
    replaced by underscores. *)
Theorem X20_violation_flags_sorted_union
    (detected_risks : list string) (risk_factors : list RiskFactor) :
  Sorted Views.str_lt (violation_flags detected_risks risk_factors)
  /\ (forall v, In v (violation_flags detected_risks risk_factors)
                <-> In v detected_risks
                    \/ exists r, In r risk_factors /\ (impact r < 0)%Z
                                 /\ v = replace_space (Py.upper (factor r))).
Proof.
  unfold violation_flags. split; [apply sorted_set_sorted|].
  intros v. rewrite sorted_set_In, in_app_iff, in_map_iff.
  split.
  - intros [H | (r & <- & Hr)]; [now left | right].
    apply filter_In in Hr. destruct Hr as [Hin Hneg]. apply Z.ltb_lt in Hneg.
    now exists r.
  - intros [H | (r & Hin & Hneg & ->)]; [now left | right].
    exists r. split; [reflexivity|]. apply filter_In. split; [exact Hin|].
    now apply Z.ltb_lt.
Qed.

(** X22.  [_map_recommendation_to_status] answers "compliance_review" for
    COMPLIANCE_REVIEW_REQUIRED and HIGH_RISK_HOLD and "pending_review" for
    every other string, known or not. *)
Theorem X22_status_map_is_total (recommendation : string) :
  (Revalidation.map_recommendation_to_status recommendation = "compliance_review"
   <-> recommendation = "COMPLIANCE_REVIEW_REQUIRED" \/ recommendation = "HIGH_RISK_HOLD")
  /\ (Revalidation.map_recommendation_to_status recommendation = "pending_review"
      <-> recommendation <> "COMPLIANCE_REVIEW_REQUIRED"
          /\ recommendation <> "HIGH_RISK_HOLD").
Proof.
  unfold Revalidation.map_recommendation_to_status. cbn [Ensemble.dict_get].
  destruct (String.eqb_spec "AUTO_APPROVE" recommendation) as [<- | H1].
  { split; split; intros H; try discriminate; try (destruct H; discriminate);
      try reflexivity. split; discriminate. }
  destruct (String.eqb_spec "APPROVE_WITH_REVIEW" recommendation) as [<- | H2].
  { split; split; intros H; try discriminate; try (destruct H; discriminate);
      try reflexivity. split; discriminate. }
  destruct (String.eqb_spec "COMPLIANCE_REVIEW_REQUIRED" recommendation) as [<- | H3].
  { split; split; intros H; try discriminate; try reflexivity; try (now left).
    destruct H as [H _]. now contradiction H. }
  destruct (String.eqb_spec "HIGH_RISK_HOLD" recommendation) as [<- | H4].
  { split; split; intros H; try discriminate; try reflexivity; try (now right).
    destruct H as [_ H]. now contradiction H. }
  split; split; intros H; try discriminate; try reflexivity.
  - destruct H as [H | H]; congruence.
  - split; congruence.
Qed.

End ViolationFacts.

Section OrgTrustFacts.

Import OrgTrust.
Local Open Scope Q_scope.





(** X24.  [recompute_trust_scores] leaves the store untouched when the
    organisation has no claim in the last 180 days; otherwise it keeps
    the claims, appends exactly one history entry that records the new
    score, the score the organisation had before (50 if it has no row)
    and the sample size, and the organisation row then carries the new
    score. *)
Theorem X24_org_trust_history (now : Z) (s : Store) (org : string) :
  let sample :=
    filter (fun c => String.eqb (hospital_org_id c) org
                     && (now - Features.timedelta_days 180 <=? created_at c)%Z)
           (claims s) in
  let s' := recompute_trust_scores now s org in
  (sample = [] -> s' = s)
  /\ (sample <> [] ->
      claims s' = claims s
      /\ organization_trust_scores s'
         = (organization_trust_scores s
            ++ [mkHistoryRow org (new_score_of sample)
                  (match find (fun o => String.eqb (org_id o) org) (organizations s) with
                   | Some o => org_trust_score o
                   | None => 50
                   end)
                  (Z.of_nat (length sample))])%list
      /\ (forall o, find (fun o => String.eqb (org_id o) org) (organizations s) = Some o ->
            find (fun o => String.eqb (org_id o) org) (organizations s')
            = Some (mkOrgRow (org_id o) (new_score_of sample)))).
Proof.
  intros sample s'. unfold s', recompute_trust_scores. cbv zeta. fold sample.
  split.
  - intros ->. reflexivity.
  - intros Hne. destruct sample as [|c cs] eqn:E; [contradiction|].
    cbn [Py.truthy_list negb claims organization_trust_scores organizations].
    split; [reflexivity|]. split; [reflexivity|].
    intros o. induction (organizations s) as [|o0 os IH]; cbn [find map]; [discriminate|].
    destruct (String.eqb (org_id o0) org) eqn:Eo.
    + intros [= ->]. cbn [org_id]. now rewrite Eo.
    + rewrite Eo. exact IH.
Qed.

Lemma X24_org_trust_history_witness :
  length (organization_trust_scores (recompute_trust_scores 3000 Samples.org_store "org1"))
  = 1%nat
  /\ recompute_trust_scores 3000 Samples.org_store "org7" = Samples.org_store.
Proof.
  destruct (X24_org_trust_history 3000 Samples.org_store "org1") as [_ H1].
  destruct (X24_org_trust_history 3000 Samples.org_store "org7") as [H7 _].
  split.
  - destruct H1 as (_ & Hh & _); [discriminate|]. rewrite Hh. reflexivity.
  - apply H7. reflexivity.
Defined.

End OrgTrustFacts.

(** ** Lazy model loading *)

Section LoaderFacts.

Import Loader.

Lemma load_models_loaded A st : models_loaded (load_models A st) = true.
Proof.
  unfold load_models. destruct (models_loaded st) eqn:E; [exact E|].
  destruct (load_sklearn_models A st) as [st1 raised].
  destruct raised; reflexivity.
Qed.

Lemma load_models_once A A' st : load_models A' (load_models A st) = load_models A st.
Proof.
  unfold load_models at 1. now rewrite load_models_loaded.
Qed.

(** X25.  [_load_models] always ends with the engine marked as loaded,
    whether loading succeeded or raised; a later call changes nothing,
    whatever is on disk by then; and starting from a fresh engine the
    three pickled models are all in use exactly when [joblib] imports and
    all three files load, while a missing first file leaves all three
    unset. *)
Theorem X25_models_load_at_most_once (A A' : Artifacts) (st : EngineState) :
  models_loaded (load_models A st) = true
  /\ load_models A' (load_models A st) = load_models A st
  /\ ((exists x r i,
         xgb_model (load_models A init) = Some x
         /\ rf_model (load_models A init) = Some r
         /\ isolation_model (load_models A init) = Some i)
      <-> joblib_available A = true
          /\ exists x r i, xgb_file A = Ok x /\ rf_file A = Ok r /\ isolation_file A = Ok i)
  /\ (xgb_file A = Missing ->
      xgb_model (load_models A init) = None
      /\ rf_model (load_models A init) = None
      /\ isolation_model (load_models A init) = None
      /\ nlp_pipeline (load_models A init) = spacy_model A).
Proof.
  split; [apply load_models_loaded|].
  split; [apply load_models_once|].
  split.
  - unfold load_models, load_sklearn_models, init. cbn [models_loaded].
    destruct (joblib_available A); cbn [negb].
    + destruct (xgb_file A) as [x| |]; destruct (rf_file A) as [r| |];
        destruct (isolation_file A) as [i| |]; cbn; split;
        try (intros (? & ? & ? & ? & ? & ?); discriminate);
        try (intros (_ & ? & ? & ? & ? & ? & ?); discriminate).
      * intros _. split; [reflexivity|]. now exists x, r, i.
      * intros _. now exists x, r, i.
    + cbn. split.
      * intros (? & ? & ? & ? & ? & ?); discriminate.
      * intros (? & _). discriminate.
  - intros Hx. unfold load_models, load_sklearn_models, init. cbn [models_loaded].
    rewrite Hx. destruct (joblib_available A); cbn; repeat split; reflexivity.
Qed.

Lemma X25_models_load_at_most_once_witness :
  xgb_model (load_models Samples.nothing_on_disk init) = None
  /\ load_models Samples.all_on_disk (load_models Samples.nothing_on_disk init)
     = load_models Samples.nothing_on_disk init.
Proof.
  destruct (X25_models_load_at_most_once Samples.nothing_on_disk Samples.all_on_disk init)
    as (_ & Honce & _ & Hmissing).
  split; [apply Hmissing; reflexivity | exact Honce].
Defined.

(** X26.  Once an engine has served a call, the adapters it uses are
    fixed: a later call scores with the models of the first load, even if
    other artifacts are on disk by then (the autoencoder alone is looked
    up on every call). *)
Theorem X26_later_calls_reuse_first_load
    (A1 A2 : Artifacts) (st : EngineState)
    (f1 f2 : Ensemble.ClaimFeatures) (t1 t2 : string) :
  autoencoder_model A2 = autoencoder_model A1 ->
  let st1 := fst (analyze A1 st f1 t1) in
  fst (analyze A2 st1 f2 t2) = st1
  /\ snd (analyze A2 st1 f2 t2) = Ensemble.analyze (to_engine A1 st1) f2 t2.
Proof.
  intros Hae st1. unfold analyze in *. cbn [fst snd] in *. unfold st1.
  rewrite load_models_once. split; [reflexivity|].
  unfold to_engine. now rewrite Hae.
Qed.

Lemma X26_later_calls_reuse_first_load_witness :
  Ensemble.xgb_model
    (to_engine Samples.all_on_disk
       (fst (analyze Samples.all_on_disk
               (fst (analyze Samples.nothing_on_disk init Ensemble.default_features ""))
               Ensemble.default_features "")))
  = None.
Proof.
  destruct (X26_later_calls_reuse_first_load
              Samples.nothing_on_disk Samples.all_on_disk init
              Ensemble.default_features Ensemble.default_features "" "" eq_refl)
    as [Hst _].
  cbv zeta in Hst. rewrite Hst. reflexivity.
Defined.

End LoaderFacts.

Section DuplicateCheckFacts.

Import Features.
Local Open Scope Z_scope.

(** X21.  On a reachable store [_check_duplicate] answers true exactly
    when the claim has a patient and at least one procedure code and some
    other claim row of the same patient was created in the last 90 days;
    the procedure codes of the other rows are never compared. *)
Theorem X21_duplicate_check_decides (table : list ClaimRow) (now : Z) (claim : ClaimRow) :
  check_duplicate (Some table) now claim = true <->
  Py.truthy_opt_str (patient_id claim) = true
  /\ Py.truthy_list (procedure_codes claim) = true
  /\ exists r, In r table
               /\ opt_str_eqb (patient_id r) (patient_id claim) = true
               /\ String.eqb (id r) (id claim) = false
               /\ now - timedelta_days 90 <= created_at r.
Proof.
  unfold check_duplicate, select_other_claims_of_patient.
  destruct (Py.truthy_opt_str (patient_id claim));
    destruct (Py.truthy_list (procedure_codes claim)); cbn [negb orb];
    try (split; [discriminate | intros (A & B & _); discriminate]).
  set (keep := fun r : ClaimRow => _).
  split.
  - intros H. apply Z.ltb_lt in H.
    destruct (filter keep table) as [|r rest] eqn:E; [cbn in H; lia|].
    assert (Hin : In r (filter keep table)) by (rewrite E; now left).
    apply filter_In in Hin. destruct Hin as [Hin Hk]. unfold keep in Hk.
    apply andb_true_iff in Hk. destruct Hk as [Hk Hc].
    apply andb_true_iff in Hk. destruct Hk as [Hp Hi].
    apply negb_true_iff in Hi. apply Z.leb_le in Hc.
    repeat split; trivial. exists r. repeat split; trivial.
  - intros (_ & _ & r & Hin & Hp & Hi & Hc).
    assert (Hf : In r (filter keep table)).
    { apply filter_In. split; [exact Hin|]. unfold keep.
      rewrite Hp, Hi. cbn [negb andb]. now apply Z.leb_le. }
    apply Z.ltb_lt. destruct (filter keep table); [destruct Hf | cbn; lia].
Qed.

End DuplicateCheckFacts.
